(** * npm package-lock to Nexus migration: a shallow embedding

    The development follows the two phases of the tool:
    - [download_packages.py]: [parse_package_lock] and [download_package]
      (lockfile parser and archive fetcher);
    - [upload_to_nexus.py]: the [NexusUploader] methods [_find_component],
      [_get_remote_sha512_hex], [_delete_component], [_upload_package] and
      [process_package] (remote repository client and reconciliation).

    Python dictionaries that the code reads with a subscript ([d['k']]) are
    records with mandatory fields; keys read with [.get] or tested with [in]
    are optional fields.  The local download directory is a finite map from
    path to file content.  Network, remote store and the JSON loader are
    oracles of the world the functions run in; [print] appends an event to
    a log; exceptions are the [Raise] outcome of a state-and-error monad. *)

From Stdlib Require Import ZArith NArith List String Ascii Lia Bool.
From Stdlib.Strings Require Import Byte.
From stdpp Require Import gmap strings.
Import ListNotations.

Local Open Scope string_scope.

(* ================================================================== *)
(** * SHA-512 (FIPS 180-4), the function behind [hashlib.sha512] *)
(* ================================================================== *)

Module SHA512.
Local Open Scope Z_scope.

Definition w64 (x : Z) : Z := x mod 2 ^ 64.
Definition add64 (x y : Z) : Z := w64 (x + y).
Definition rotr (n x : Z) : Z :=
  w64 (Z.lor (Z.shiftr x n) (Z.shiftl x (64 - n))).
Definition shr (n x : Z) : Z := Z.shiftr x n.
Definition not64 (x : Z) : Z := 2 ^ 64 - 1 - x.

Definition Ch (x y z : Z) : Z := Z.lxor (Z.land x y) (Z.land (not64 x) z).
Definition Maj (x y z : Z) : Z :=
  Z.lxor (Z.lxor (Z.land x y) (Z.land x z)) (Z.land y z).
Definition Sigma0 (x : Z) : Z := Z.lxor (Z.lxor (rotr 28 x) (rotr 34 x)) (rotr 39 x).
Definition Sigma1 (x : Z) : Z := Z.lxor (Z.lxor (rotr 14 x) (rotr 18 x)) (rotr 41 x).
Definition sigma0 (x : Z) : Z := Z.lxor (Z.lxor (rotr 1 x) (rotr 8 x)) (shr 7 x).
Definition sigma1 (x : Z) : Z := Z.lxor (Z.lxor (rotr 19 x) (rotr 61 x)) (shr 6 x).

Definition K : list Z :=
  [ 0x428a2f98d728ae22; 0x7137449123ef65cd; 0xb5c0fbcfec4d3b2f; 0xe9b5dba58189dbbc;
    0x3956c25bf348b538; 0x59f111f1b605d019; 0x923f82a4af194f9b; 0xab1c5ed5da6d8118;
    0xd807aa98a3030242; 0x12835b0145706fbe; 0x243185be4ee4b28c; 0x550c7dc3d5ffb4e2;
    0x72be5d74f27b896f; 0x80deb1fe3b1696b1; 0x9bdc06a725c71235; 0xc19bf174cf692694;
    0xe49b69c19ef14ad2; 0xefbe4786384f25e3; 0x0fc19dc68b8cd5b5; 0x240ca1cc77ac9c65;
    0x2de92c6f592b0275; 0x4a7484aa6ea6e483; 0x5cb0a9dcbd41fbd4; 0x76f988da831153b5;
    0x983e5152ee66dfab; 0xa831c66d2db43210; 0xb00327c898fb213f; 0xbf597fc7beef0ee4;
    0xc6e00bf33da88fc2; 0xd5a79147930aa725; 0x06ca6351e003826f; 0x142929670a0e6e70;
    0x27b70a8546d22ffc; 0x2e1b21385c26c926; 0x4d2c6dfc5ac42aed; 0x53380d139d95b3df;
    0x650a73548baf63de; 0x766a0abb3c77b2a8; 0x81c2c92e47edaee6; 0x92722c851482353b;
    0xa2bfe8a14cf10364; 0xa81a664bbc423001; 0xc24b8b70d0f89791; 0xc76c51a30654be30;
    0xd192e819d6ef5218; 0xd69906245565a910; 0xf40e35855771202a; 0x106aa07032bbd1b8;
    0x19a4c116b8d2d0c8; 0x1e376c085141ab53; 0x2748774cdf8eeb99; 0x34b0bcb5e19b48a8;
    0x391c0cb3c5c95a63; 0x4ed8aa4ae3418acb; 0x5b9cca4f7763e373; 0x682e6ff3d6b2b8a3;
    0x748f82ee5defb2fc; 0x78a5636f43172f60; 0x84c87814a1f0ab72; 0x8cc702081a6439ec;
    0x90befffa23631e28; 0xa4506cebde82bde9; 0xbef9a3f7b2c67915; 0xc67178f2e372532b;
    0xca273eceea26619c; 0xd186b8c721c0c207; 0xeada7dd6cde0eb1e; 0xf57d4f7fee6ed178;
    0x06f067aa72176fba; 0x0a637dc5a2c898a6; 0x113f9804bef90dae; 0x1b710b35131c471b;
    0x28db77f523047d84; 0x32caab7b40c72493; 0x3c9ebe0a15c9bebc; 0x431d67c49c100d4c;
    0x4cc5d4becb3e42b6; 0x597f299cfc657e2a; 0x5fcb6fab3ad6faec; 0x6c44198c4a475817 ].

Definition H0 : list Z :=
  [ 0x6a09e667f3bcc908; 0xbb67ae8584caa73b; 0x3c6ef372fe94f82b; 0xa54ff53a5f1d36f1;
    0x510e527fade682d1; 0x9b05688c2b3e6c1f; 0x1f83d9abfb41bd6b; 0x5be0cd19137e2179 ].

(** Big-endian conversions between byte strings and integers. *)
Definition be_to_Z (bs : list Z) : Z :=
  fold_left (fun acc b => acc * 256 + b) bs 0.

Fixpoint Z_to_be (n : nat) (x : Z) : list Z :=
  match n with
  | O => []
  | S n' => Z_to_be n' (x / 256) ++ [x mod 256]
  end.

(** Padding: a 1 bit, zeros up to 112 modulo 128, the bit length on 16 bytes. *)
Definition pad (msg : list Z) : list Z :=
  let len := Z.of_nat (length msg) in
  let zeros := Z.to_nat ((111 - len) mod 128) in
  msg ++ [0x80] ++ repeat 0 zeros ++ Z_to_be 16 (8 * len).

(** [n] consecutive groups of [size] elements. *)
Fixpoint groups {A} (size n : nat) (l : list A) : list (list A) :=
  match n with
  | O => []
  | S n' => firstn size l :: groups size n' (skipn size l)
  end.

(** The message schedule, from a sliding window of sixteen words. *)
Fixpoint schedule (n : nat) (win : list Z) : list Z :=
  match n with
  | O => []
  | S n' =>
      match win with
      | [] => []
      | w0 :: rest =>
          let w1 := nth 1 win 0 in
          let w9 := nth 9 win 0 in
          let w14 := nth 14 win 0 in
          let new := add64 (add64 (add64 (sigma1 w14) w9) (sigma0 w1)) w0 in
          w0 :: schedule n' (rest ++ [new])
      end
  end.

Definition round (st : list Z) (kw : Z * Z) : list Z :=
  match st with
  | [a; b; c; d; e; f; g; h] =>
      let t1 := add64 (add64 (add64 (add64 h (Sigma1 e)) (Ch e f g)) (fst kw)) (snd kw) in
      let t2 := add64 (Sigma0 a) (Maj a b c) in
      [add64 t1 t2; a; b; c; add64 d t1; e; f; g]
  | _ => st
  end.

Definition compress (h : list Z) (block : list Z) : list Z :=
  let w := schedule 80 (map be_to_Z (groups 8 16 block)) in
  let st := fold_left round (combine K w) h in
  map (fun p => add64 (fst p) (snd p)) (combine h st).

Definition byte_to_Z (b : byte) : Z := Z.of_N (Byte.to_N b).
Definition Z_to_byte (x : Z) : byte :=
  match Byte.of_N (Z.to_N (x mod 256)) with
  | Some b => b
  | None => "000"%byte
  end.

Definition sha512 (msg : list byte) : list byte :=
  let padded := pad (map byte_to_Z msg) in
  let blocks := groups 128 (length padded / 128) padded in
  let h := fold_left compress blocks H0 in
  map Z_to_byte (flat_map (Z_to_be 8) h).
End SHA512.

(* ================================================================== *)
(** * Python string operations used by the two scripts *)
(* ================================================================== *)

Module PyStr.

(** [s.startswith(p)] *)
Definition startswith (s p : string) : bool := String.prefix p s.

(** [s.endswith(p)] *)
Fixpoint endswith (s p : string) : bool :=
  if String.eqb s p then true
  else match s with
       | EmptyString => false
       | String _ s' => endswith s' p
       end.

(** [c in s] for a one-character [c] *)
Fixpoint contains (c : ascii) (s : string) : bool :=
  match s with
  | EmptyString => false
  | String d s' => Ascii.eqb c d || contains c s'
  end.

(** [s.replace(old, new)]: every non-overlapping occurrence, left to
    right; [skip] counts the characters of a matched occurrence that are
    still to be dropped. *)
Fixpoint replace_from (old new : string) (skip : nat) (s : string) : string :=
  match s with
  | EmptyString => EmptyString
  | String c s' =>
      match skip with
      | S k => replace_from old new k s'
      | O =>
          if String.prefix old s
          then new +:+ replace_from old new (String.length old - 1) s'
          else String c (replace_from old new 0 s')
      end
  end.

Fixpoint intersperse (new s : string) : string :=
  match s with
  | EmptyString => new
  | String c s' => new +:+ String c (intersperse new s')
  end.

Definition replace (old new s : string) : string :=
  if String.eqb old "" then intersperse new s else replace_from old new 0 s.

(** [s.split(sep)] for a one-character separator *)
Fixpoint split (sep : ascii) (s : string) : list string :=
  match s with
  | EmptyString => [EmptyString]
  | String c s' =>
      if Ascii.eqb c sep then EmptyString :: split sep s'
      else match split sep s' with
           | [] => [String c EmptyString]
           | h :: t => String c h :: t
           end
  end.

(** [s.split(sep, 1)] *)
Fixpoint split1 (sep : ascii) (s : string) : list string :=
  match s with
  | EmptyString => [EmptyString]
  | String c s' =>
      if Ascii.eqb c sep then [EmptyString; s']
      else match split1 sep s' with
           | [] => [String c EmptyString]
           | h :: t => String c h :: t
           end
  end.

(** [sep.join(l)] *)
Fixpoint join (sep : string) (l : list string) : string :=
  match l with
  | [] => ""
  | [x] => x
  | x :: rest => x +:+ sep +:+ join sep rest
  end.

(** [s.rfind(sub)]: the highest index of an occurrence, or -1 *)
Fixpoint rfind_nat (sub s : string) : option nat :=
  match s with
  | EmptyString => if String.eqb sub "" then Some 0%nat else None
  | String _ s' =>
      match rfind_nat sub s' with
      | Some i => Some (S i)
      | None => if String.prefix sub s then Some 0%nat else None
      end
  end.

Definition rfind (sub s : string) : Z :=
  match rfind_nat sub s with
  | Some i => Z.of_nat i
  | None => (-1)%Z
  end.

Fixpoint drop (n : nat) (s : string) : string :=
  match n, s with
  | O, _ => s
  | S _, EmptyString => EmptyString
  | S k, String _ s' => drop k s'
  end.

(** [s[i:]]; a negative index counts from the end *)
Definition slice_from (i : Z) (s : string) : string :=
  if (i <? 0)%Z
  then drop (Z.to_nat (Z.of_nat (String.length s) + i)) s
  else drop (Z.to_nat i) s.

(** [s[:n]] for [n >= 0] *)
Definition slice_to (n : nat) (s : string) : string := String.substring 0 n s.

(** [len(s)] as a Python integer *)
Definition len (s : string) : Z := Z.of_nat (String.length s).

(** Truth value of a string, and of a value that may be [None] *)
Definition truthy (s : string) : bool := negb (String.eqb s "").
Definition truthy_opt (o : option string) : bool :=
  match o with
  | Some s => truthy s
  | None => false
  end.

End PyStr.

(* ================================================================== *)
(** * [posixpath]: [os.path.join], [normpath], [abspath], [basename] *)
(* ================================================================== *)

Module PosixPath.
Import PyStr.

Definition isabs (p : string) : bool := startswith p "/".

Definition join (a b : string) : string :=
  if startswith b "/" then b
  else if negb (truthy a) || endswith a "/" then a +:+ b
  else a +:+ "/" +:+ b.

Definition is_dotdot (s : string) : bool := String.eqb s "..".

(** One iteration of the component loop of [normpath]. *)
Definition norm_step (initial_slashes : nat) (new_comps : list string)
    (comp : string) : list string :=
  if String.eqb comp "" || String.eqb comp "." then new_comps
  else if negb (is_dotdot comp)
          || (Nat.eqb initial_slashes 0 && Nat.eqb (length new_comps) 0)
          || (negb (Nat.eqb (length new_comps) 0)
              && is_dotdot (List.last new_comps ""))
  then new_comps ++ [comp]
  else if negb (Nat.eqb (length new_comps) 0) then removelast new_comps
  else new_comps.

Definition slashes (n : nat) : string :=
  match n with
  | O => ""
  | 1%nat => "/"
  | _ => "//"
  end.

Definition normpath (path : string) : string :=
  if negb (truthy path) then "."
  else
    let initial_slashes :=
      if startswith path "/"
      then if startswith path "//" && negb (startswith path "///")
           then 2%nat else 1%nat
      else 0%nat in
    let comps := split "/" path in
    let new_comps := fold_left (norm_step initial_slashes) comps [] in
    let path' := slashes initial_slashes +:+ PyStr.join "/" new_comps in
    if truthy path' then path' else ".".

(** [os.path.abspath], with the current directory made explicit. *)
Definition abspath (cwd path : string) : string :=
  normpath (if isabs path then path else join cwd path).

(** [os.path.basename]: what follows the last slash. *)
Definition basename (p : string) : string :=
  slice_from (rfind "/" p + 1) p.

(** [f] is the last of the components of [p] between slashes. *)
Definition ends_in (f p : string) : Prop :=
  exists comps, split "/" p = (comps ++ [f])%list.

(** [d] is empty or ends with a slash. *)
Definition dir_prefix (d : string) : Prop :=
  d = "" \/ exists d', d = d' +:+ "/".

End PosixPath.

(* ================================================================== *)
(** * Digest encodings: [hexdigest] and [base64.b64encode] *)
(* ================================================================== *)

Module Codec.
Local Open Scope N_scope.

(** ** Hexadecimal, lower case *)

Definition hexchar (n : N) : ascii :=
  if n <? 10 then ascii_of_N (48 + n) else ascii_of_N (87 + n).

Definition hexval (c : ascii) : option N :=
  let k := N_of_ascii c in
  if (48 <=? k) && (k <=? 57) then Some (k - 48)
  else if (97 <=? k) && (k <=? 102) then Some (k - 87)
  else None.

Fixpoint hexencode (l : list byte) : string :=
  match l with
  | [] => ""
  | b :: rest =>
      let n := Byte.to_N b in
      String (hexchar (n / 16)) (String (hexchar (n mod 16)) (hexencode rest))
  end.

(** The inverse of [hexencode], used to state the round trip of a digest. *)
Fixpoint hexdecode (s : string) : option (list byte) :=
  match s with
  | EmptyString => Some []
  | String c1 (String c2 rest) =>
      match hexval c1, hexval c2, hexdecode rest with
      | Some h, Some l, Some bs =>
          match Byte.of_N (h * 16 + l) with
          | Some b => Some (b :: bs)
          | None => None
          end
      | _, _, _ => None
      end
  | String _ EmptyString => None
  end.

(** ** Base64 (RFC 4648, standard alphabet, with padding) *)

Definition b64char (n : N) : ascii :=
  if n <? 26 then ascii_of_N (65 + n)
  else if n <? 52 then ascii_of_N (71 + n)
  else if n <? 62 then ascii_of_N (n - 4)
  else if n =? 62 then "+"%char
  else "/"%char.

Definition b64val (c : ascii) : option N :=
  let k := N_of_ascii c in
  if (65 <=? k) && (k <=? 90) then Some (k - 65)
  else if (97 <=? k) && (k <=? 122) then Some (k - 71)
  else if (48 <=? k) && (k <=? 57) then Some (k + 4)
  else if k =? 43 then Some 62
  else if k =? 47 then Some 63
  else None.

Fixpoint b64encode (l : list byte) : string :=
  match l with
  | [] => ""
  | [x] =>
      let a := Byte.to_N x in
      String (b64char (a / 4)) (String (b64char (a mod 4 * 16)) "==")
  | [x; y] =>
      let a := Byte.to_N x in
      let b := Byte.to_N y in
      String (b64char (a / 4))
        (String (b64char (a mod 4 * 16 + b / 16))
           (String (b64char (b mod 16 * 4)) "="))
  | x :: y :: z :: rest =>
      let a := Byte.to_N x in
      let b := Byte.to_N y in
      let c := Byte.to_N z in
      String (b64char (a / 4))
        (String (b64char (a mod 4 * 16 + b / 16))
           (String (b64char (b mod 16 * 4 + c / 64))
              (String (b64char (c mod 64)) (b64encode rest))))
  end.

Definition is_pad (c : ascii) : bool := Ascii.eqb c "="%char.

Definition byte_of (n : N) (k : list byte -> option (list byte))
    (rest : list byte) : option (list byte) :=
  match Byte.of_N n with
  | Some b => k (b :: rest)
  | None => None
  end.

(** The inverse of [b64encode], used to state the round trip of a digest:
    groups of four characters, padding allowed in the last group only. *)
Fixpoint b64decode (s : string) : option (list byte) :=
  match s with
  | EmptyString => Some []
  | String c0 (String c1 (String c2 (String c3 rest))) =>
      match b64val c0, b64val c1 with
      | Some s0, Some s1 =>
          let x := s0 * 4 + s1 / 16 in
          if is_pad c2 then
            if is_pad c3 && String.eqb rest ""
            then byte_of x Some []
            else None
          else
            match b64val c2 with
            | Some s2 =>
                let y := s1 mod 16 * 16 + s2 / 4 in
                if is_pad c3 then
                  if String.eqb rest ""
                  then byte_of y (byte_of x Some) []
                  else None
                else
                  match b64val c3, b64decode rest with
                  | Some s3, Some bs =>
                      let z := s2 mod 4 * 64 + s3 in
                      byte_of z (byte_of y (byte_of x Some)) bs
                  | _, _ => None
                  end
            | None => None
            end
      | _, _ => None
      end
  | _ => None
  end.

End Codec.

(* ================================================================== *)
(** * Exceptions, outcomes and the state-and-error monad *)
(* ================================================================== *)

(** The payload of the two [ValueError]s the scripts raise themselves, and
    of the one an unpacking assignment raises. *)
Inductive value_error : Type :=
| Sha512Mismatch (expected got : string)
| NotUnique (group name version : string)
| UnpackError.

Inductive exn : Type :=
| FileNotFoundError (path : string)
| JSONDecodeError
| UnicodeDecodeError                     (* bytes that are not UTF-8 text *)
| AttributeError                         (* [.get] on a value that is no dict *)
| OSError (errno : Z)
| RequestException                       (* connection, timeout, broken stream *)
| HTTPError (status : Z) (text : string) (* [raise_for_status] *)
| ValueError (v : value_error).

Inductive outcome (A : Type) : Type :=
| Ok (a : A)
| Raise (e : exn).
Arguments Ok {A} a.
Arguments Raise {A} e.

Definition M (S A : Type) : Type := S -> outcome A * S.

Definition ret {S A} (a : A) : M S A := fun s => (Ok a, s).

Definition bind {S A B} (m : M S A) (k : A -> M S B) : M S B :=
  fun s =>
    match m s with
    | (Ok a, s') => k a s'
    | (Raise e, s') => (Raise e, s')
    end.

Definition raise {S A} (e : exn) : M S A := fun s => (Raise e, s).

(** [try: body except Exception as e: handler(e)] *)
Definition try_except {S A} (body : M S A) (handler : exn -> M S A) : M S A :=
  fun s =>
    match body s with
    | (Ok a, s') => (Ok a, s')
    | (Raise e, s') => handler e s'
    end.

Definition modify {S} (f : S -> S) : M S unit := fun s => (Ok tt, f s).

Declare Scope py_scope.
Delimit Scope py_scope with py.
Notation "x <- c1 ;; c2" := (bind c1 (fun x => c2))
  (at level 100, c1 at next level, right associativity) : py_scope.
Notation "c1 ;; c2" := (bind c1 (fun _ => c2))
  (at level 100, right associativity) : py_scope.

(** [for x in l: body(x)] *)
Fixpoint for_each {S A} (l : list A) (body : A -> M S unit) : M S unit :=
  match l with
  | [] => ret tt
  | x :: rest => bind (body x) (fun _ => for_each rest body)
  end.

(** [requests]: an error status makes [raise_for_status] raise. *)
Definition is_error_status (status : Z) : bool :=
  ((400 <=? status) && (status <? 600))%Z.

(** [for x in l: acc = body(acc, x)], a loop that updates local variables *)
Fixpoint for_fold {S A B} (l : list A) (acc : B) (body : B -> A -> M S B) : M S B :=
  match l with
  | [] => ret acc
  | x :: rest => bind (body acc x) (fun acc' => for_fold rest acc' body)
  end.

(* ================================================================== *)
(** * The manifest entry handed from the download to the upload phase *)
(* ================================================================== *)

Module Meta.
(** The dictionary [meta_entry] built by [download_package] and read back
    as [package_meta] by [NexusUploader]. *)
Record meta_entry : Type := {
  group : string;
  name : string;
  version : string;
  nexus_search_name : string;
  download_url : string;
  local_path : string;
  sha512_hex : string
}.
End Meta.

(* ================================================================== *)
(** * download_packages.py *)
(* ================================================================== *)

Module Download.
Import PyStr.
Local Open Scope py_scope.

(** ** Data *)

(** One value of the lockfile's ['packages'] mapping; the three keys are
    read with [.get]. *)
Record lock_entry : Type := {
  resolved : option string;
  integrity : option string;
  version : option string
}.

(** The parsed lockfile; ['packages'] is read with [.get('packages', {})]
    and iterated in document order. *)
Record lockfile : Type := {
  packages : option (list (string * lock_entry))
}.

(** The dictionaries appended to [packages_to_download]. *)
Record package_details : Type := {
  pd_name : string;
  pd_version : string;
  pd_resolved : string;
  pd_sha512_b64 : string
}.

(** The [Downloader] section of [config.ini] as [configparser] returns its
    options: ['use_resolved_url'] is the boolean [getboolean] reads. *)
Record downloader_cfg : Type := {
  download_dir : option string;
  use_resolved_url : option bool;
  mirror_registry : option string
}.

(** ** The world: JSON loader, network, directory creation *)

(** What [open] and [json.load] give for a path: an exception, a document
    that is an object, or a document that is some other JSON value (an
    array, a string, a number, [true], [false] or [null]). *)
Inductive load_result : Type :=
| LoadRaises (e : exn)
| Loaded (data : lockfile)
| LoadedOther.

(** The answer to a streamed [requests.get]: an exception, or a status
    with the chunks [iter_content] yields and, optionally, the exception
    it raises after them. *)
Inductive get_result : Type :=
| GetRaises (e : exn)
| GetResponse (status : Z) (text : string) (chunks : list (list byte))
    (broken : option exn).

Record world : Type := {
  cwd : string;
  json_load : string -> load_result;
  mkdir : string -> option exn;
  http_get : string -> get_result
}.

(** Everything the two functions print. *)
Inductive event : Type :=
| LogParsing (path : string)
| LogLockfileNotFound (path : string)
| LogLockfileBadFormat (path : string)
| LogPackagesEmpty
| LogSkipInvalid (path : string)
| LogNoSha512 (name version : string)
| LogParsed (count : nat)
| LogDownloadFailed (name version : string) (e : exn).

(** The state: the files on disk and the printed lines. *)
Record state : Type := {
  files : gmap string (list byte);
  log : list event
}.

Definition print (e : event) : M state unit :=
  modify (fun s => {| files := files s; log := (log s ++ [e])%list |}).

(** ** File operations *)

Definition os_path_exists (path : string) : M state bool :=
  fun s => (Ok (bool_decide (is_Some (files s !! path))), s).

(** [open(path, 'rb')] followed by reading to the end *)
Definition read_file (path : string) : M state (list byte) :=
  fun s =>
    match files s !! path with
    | Some content => (Ok content, s)
    | None => (Raise (FileNotFoundError path), s)
    end.

(** [open(path, 'wb')]: create or truncate. The directory of [path] is
    taken to exist, as it does for a file name without slash once the
    download directory has been created. *)
Definition open_wb (path : string) : M state unit :=
  modify (fun s => {| files := <[path := []]> (files s); log := log s |}).

(** [f.write(chunk)] on a file opened for writing *)
Definition write (path : string) (chunk : list byte) : M state unit :=
  modify (fun s =>
    {| files := alter (fun content => (content ++ chunk)%list) path (files s);
       log := log s |}).

Definition os_remove (path : string) : M state unit :=
  fun s =>
    match files s !! path with
    | Some _ => (Ok tt, {| files := delete path (files s); log := log s |})
    | None => (Raise (FileNotFoundError path), s)
    end.

Definition path_mkdir (w : world) (dir : string) : M state unit :=
  match mkdir w dir with
  | Some e => raise e
  | None => ret tt
  end.

(** The successive results of [f.read(size)] until the empty one:
    [cur] is the chunk being filled, [room] what it can still take. *)
Fixpoint chunks_from (size room : nat) (cur l : list byte) : list (list byte) :=
  match l with
  | [] => match cur with [] => [] | _ => [cur] end
  | x :: l' =>
      match room with
      | S (S r) => chunks_from size (S r) (cur ++ [x])%list l'
      | _ => (cur ++ [x])%list :: chunks_from size size [] l'
      end
  end.

Definition chunk_size : nat := Z.to_nat 8192.

Definition read_chunks (content : list byte) : list (list byte) :=
  chunks_from chunk_size chunk_size [] content.

(** ** The hash object: [update] accumulates, [digest] hashes it all *)

Definition hasher : Type := list byte.
Definition hashlib_sha512 : hasher := [].
Definition update (h : hasher) (chunk : list byte) : hasher := (h ++ chunk)%list.
Definition digest (h : hasher) : list byte := SHA512.sha512 h.
Definition hexdigest (h : hasher) : string := Codec.hexencode (digest h).

(** ** parse_package_lock *)

Definition val (o : option string) : string :=
  match o with
  | Some s => s
  | None => ""
  end.

(** The body of the loop over [all_packages.items()]; [acc] is
    [packages_to_download]. *)
Definition parse_item (acc : list package_details)
    (item : string * lock_entry) : M state (list package_details) :=
  let '(path, details) := item in
  if negb (truthy path) then ret acc
  else
    let name :=
      slice_from (rfind "node_modules/" path + len "node_modules/") path in
    if negb (forallb (fun b : bool => b)
               [truthy_opt (resolved details); truthy_opt (integrity details);
                truthy_opt (version details); truthy name])
    then print (LogSkipInvalid path) ;; ret acc
    else
      let sha512_b64 :=
        match List.find (fun s => startswith s "sha512-")
                (split " " (val (integrity details))) with
        | Some s => Some (replace "sha512-" "" s)
        | None => None
        end in
      if negb (truthy_opt sha512_b64)
      then print (LogNoSha512 name (val (version details))) ;; ret acc
      else ret (acc ++ [ {| pd_name := name;
                            pd_version := val (version details);
                            pd_resolved := val (resolved details);
                            pd_sha512_b64 := val sha512_b64 |} ])%list.

(** The value bound to [data] after the [try]: an object, or another JSON
    value, on which [data.get] raises. *)
Inductive document : Type :=
| JObject (data : lockfile)
| JOther.

Definition parse_package_lock (w : world) (lockfile_path : string)
    : M state (list package_details) :=
  print (LogParsing lockfile_path) ;;
  loaded <- try_except
    (match json_load w lockfile_path with
     | Loaded data => ret (Some (JObject data))
     | LoadedOther => ret (Some JOther)
     | LoadRaises e => raise e
     end)
    (fun e =>
       match e with
       | FileNotFoundError _ =>
           print (LogLockfileNotFound lockfile_path) ;; ret None
       | JSONDecodeError =>
           print (LogLockfileBadFormat lockfile_path) ;; ret None
       | _ => raise e
       end) ;;
  match loaded with
  | None => ret []
  | Some JOther => raise AttributeError
  | Some (JObject data) =>
      let all_packages :=
        match packages data with
        | Some p => p
        | None => []
        end in
      match all_packages with
      | [] => print LogPackagesEmpty ;; ret []
      | _ =>
          packages_to_download <- for_fold all_packages [] parse_item ;;
          print (LogParsed (length packages_to_download)) ;;
          ret packages_to_download
      end
  end.

(** The three ways the lockfile yields nothing, and the line printed for
    each. *)
Inductive lock_failure : Type :=
| Absent
| Malformed
| NoPackages.

(** The lockfile is absent; it is not valid JSON, be it that its bytes are
    no UTF-8 text or that the text is no JSON document; or the document has
    no ['packages'] or an empty one, an object without the key and a value
    that is no object included. *)
Definition fails_with (w : world) (lockfile_path : string) (c : lock_failure)
    : Prop :=
  match c with
  | Absent => exists p, json_load w lockfile_path = LoadRaises (FileNotFoundError p)
  | Malformed =>
      json_load w lockfile_path = LoadRaises JSONDecodeError \/
      json_load w lockfile_path = LoadRaises UnicodeDecodeError
  | NoPackages =>
      json_load w lockfile_path = LoadedOther \/
      exists data, json_load w lockfile_path = Loaded data /\
                   (packages data = None \/ packages data = Some [])
  end.

(** The cases among them that [parse_package_lock] has a branch for: the
    two exceptions with an [except] clause, and an object whose
    ['packages'] is missing or empty. *)
Definition answered (w : world) (lockfile_path : string) (c : lock_failure)
    : Prop :=
  match c with
  | Absent => exists p, json_load w lockfile_path = LoadRaises (FileNotFoundError p)
  | Malformed => json_load w lockfile_path = LoadRaises JSONDecodeError
  | NoPackages =>
      exists data, json_load w lockfile_path = Loaded data /\
                   (packages data = None \/ packages data = Some [])
  end.

Definition diagnostic (lockfile_path : string) (c : lock_failure) : event :=
  match c with
  | Absent => LogLockfileNotFound lockfile_path
  | Malformed => LogLockfileBadFormat lockfile_path
  | NoPackages => LogPackagesEmpty
  end.

(** ** download_package *)

Section WithUrljoin.
(** [urllib.parse.urljoin], on the URLs it accepts *)
Variable urljoin : string -> string -> string.

Definition download_url_of (pd : package_details) (cfg : downloader_cfg)
    : string :=
  let use_resolved := default true (use_resolved_url cfg) in
  if negb use_resolved && truthy_opt (mirror_registry cfg)
  then
    let pkg_filename_base := List.last (split "/" (pd_name pd)) "" in
    let pkg_filename := pkg_filename_base +:+ "-" +:+ pd_version pd +:+ ".tgz" in
    urljoin (val (mirror_registry cfg)) (pd_name pd +:+ "/-/" +:+ pkg_filename)
  else pd_resolved pd.

Definition tgz_path_of (pd : package_details) (cfg : downloader_cfg)
    : string :=
  let pkg_filename_base := replace "\" "#" (replace "/" "#" (pd_name pd)) in
  let pkg_filename := pkg_filename_base +:+ "-" +:+ pd_version pd +:+ ".tgz" in
  PosixPath.join (default "npm_tgz" (download_dir cfg)) pkg_filename.

(** The [else] branch of the cache test: stream the response to disk. *)
Definition download_to (w : world) (download_url tgz_path : string)
    (downloaded_hash : hasher) : M state hasher :=
  match http_get w download_url with
  | GetRaises e => raise e
  | GetResponse status text chunks broken =>
      if is_error_status status then raise (HTTPError status text)
      else
        open_wb tgz_path ;;
        h <- for_fold chunks downloaded_hash
               (fun h chunk => write tgz_path chunk ;; ret (update h chunk)) ;;
        match broken with
        | Some e => raise e
        | None => ret h
        end
  end.

(** Lines 117-135: the hash of the cached file, or of the bytes streamed
    to disk. *)
Definition hash_artifact (w : world) (download_url tgz_path : string)
    : M state hasher :=
  let downloaded_hash := hashlib_sha512 in
  present <- os_path_exists tgz_path ;;
  if present : bool
  then content <- read_file tgz_path ;;
       ret (fold_left update (read_chunks content) downloaded_hash)
  else download_to w download_url tgz_path downloaded_hash.

(** Lines 137-164: the comparison with the expected digest, then the
    metadata. *)
Definition verify_and_describe (w : world) (package_details : package_details)
    (download_url tgz_path : string) (downloaded_hash : hasher)
    : M state (option Meta.meta_entry) :=
  let name := pd_name package_details in
  let version := pd_version package_details in
  let expected_sha512_b64 := pd_sha512_b64 package_details in
  let downloaded_hash_b64 := Codec.b64encode (digest downloaded_hash) in
  let downloaded_hash_hex := hexdigest downloaded_hash in
  if negb (String.eqb downloaded_hash_b64 expected_sha512_b64)
  then os_remove tgz_path ;;
       raise (ValueError (Sha512Mismatch expected_sha512_b64
                            downloaded_hash_b64))
  else
    split_name <-
      (if contains "/" name
       then match split1 "/" name with
            | [g; n] => ret (g, n)
            | _ => raise (ValueError UnpackError)
            end
       else ret ("", name)) ;;
    let '(group, pkg_name) := split_name in
    let nexus_search_name := pkg_name +:+ "-" +:+ version in
    ret (Some {| Meta.group := group;
                 Meta.name := pkg_name;
                 Meta.version := version;
                 Meta.nexus_search_name := nexus_search_name;
                 Meta.download_url := download_url;
                 Meta.local_path := PosixPath.abspath (cwd w) tgz_path;
                 Meta.sha512_hex := downloaded_hash_hex |}).

Definition download_package (w : world) (package_details : package_details)
    (config : downloader_cfg) : M state (option Meta.meta_entry) :=
  let name := pd_name package_details in
  let version := pd_version package_details in
  let download_dir := default "npm_tgz" (download_dir config) in
  let download_url := download_url_of package_details config in
  let tgz_path := tgz_path_of package_details config in
  path_mkdir w download_dir ;;
  try_except
    (downloaded_hash <- hash_artifact w download_url tgz_path ;;
     verify_and_describe w package_details download_url tgz_path
       downloaded_hash)
    (fun e => print (LogDownloadFailed name version e) ;; ret None).

(** The lockfile of the documented scenario: one scoped package
    [@scope/pkg] at version 1.2.3, with its resolved URL and a sha512
    integrity token. *)
Definition scoped_lock (url sha512_b64 : string) : lockfile :=
  {| packages :=
       Some [("node_modules/@scope/pkg",
              {| resolved := Some url;
                 integrity := Some ("sha512-" +:+ sha512_b64);
                 version := Some "1.2.3" |})] |}.

Definition scoped_details (url sha512_b64 : string) : package_details :=
  {| pd_name := "@scope/pkg";
     pd_version := "1.2.3";
     pd_resolved := url;
     pd_sha512_b64 := sha512_b64 |}.

(** The scenario as the documentation words it: the fetched entry has
    group [scope] and a local path ending in [scope#pkg-1.2.3.tgz]. *)
Definition scoped_scenario_documented (w : world) (config : downloader_cfg)
    (lockfile_path url sha512_b64 : string) (s : state) : Prop :=
  fst (parse_package_lock w lockfile_path s)
    = Ok [scoped_details url sha512_b64] /\
  forall s1 r,
    fst (download_package w (scoped_details url sha512_b64) config s1)
      = Ok (Some r) ->
    Meta.group r = "scope" /\
    Meta.name r = "pkg" /\
    Meta.nexus_search_name r = "pkg-1.2.3" /\
    endswith (Meta.local_path r) "scope#pkg-1.2.3.tgz" = true.

(** The bytes that get hashed when nothing fails on the way: the cached
    file if there is one, else the complete body of a successful response. *)
Definition obtained_bytes (w : world) (package_details : package_details)
    (config : downloader_cfg) (s : state) : option (list byte) :=
  match files s !! tgz_path_of package_details config with
  | Some content => Some content
  | None =>
      match http_get w (download_url_of package_details config) with
      | GetResponse status _ chunks None =>
          if is_error_status status then None else Some (concat chunks)
      | _ => None
      end
  end.
End WithUrljoin.

End Download.

(* ================================================================== *)
(** * upload_to_nexus.py *)
(* ================================================================== *)

Module Upload.
Import PyStr.
Local Open Scope py_scope.

(** ** Data: the JSON of the component search *)

(** [asset['checksum']], read with [.get('sha512')] *)
Record checksums : Type := {
  checksum_sha512 : option string
}.

(** One element of [component['assets']]; both keys are read with [.get]. *)
Record asset : Type := {
  asset_path : option string;
  asset_checksum : option checksums
}.

(** One element of [data['items']]: ['id'] and ['repository'] are read
    with a subscript, ['assets'] is tested with [in]. *)
Record component : Type := {
  comp_id : string;
  comp_repository : string;
  comp_assets : option (list asset)
}.

(** The body of a search response; ['items'] is read with [.get]. *)
Record search_body : Type := {
  items : option (list component)
}.

(** The query parameters of the search request. *)
Record search_params : Type := {
  p_repository : string;
  p_name : string;
  p_version : string;
  p_group : string
}.

(** ** The world: the remote store and the local disk *)

(** The answer to a search: an exception raised by the request, or a
    status with the decoded body ([None] when [r.json()] raises). *)
Inductive search_result : Type :=
| SearchRaises (e : exn)
| SearchResponse (status : Z) (text : string) (body : option search_body).

Inductive http_result : Type :=
| ReqRaises (e : exn)
| Response (status : Z) (text : string).

Record remote : Type := {
  http_search : string -> search_params -> search_result;
  http_delete : string -> http_result;
  http_post : string -> string -> http_result;
  os_path_exists : string -> bool
}.

(** ** The uploader object *)

Record NexusUploader : Type := {
  base_url : string;
  upload_repo : string;
  check_repos : list string;
  upload_url : string;
  components_url : string;
  search_components_url : string
}.

(** The URL fields as [__init__] builds them, from a base URL without
    trailing slash and the check repositories already split at the commas
    and stripped. *)
Definition init (base_url upload_repo : string) (check_repos : list string)
    : NexusUploader :=
  {| base_url := base_url;
     upload_repo := upload_repo;
     check_repos := check_repos;
     upload_url :=
       base_url +:+ "/service/rest/v1/components?repository=" +:+ upload_repo;
     components_url := base_url +:+ "/service/rest/v1/components";
     search_components_url := base_url +:+ "/service/rest/v1/search" |}.

(** ** Effects: calls of the client's operations, requests, printed lines *)

Inductive call : Type :=
| CallFind (repo group name version : string)
| CallDelete (component_id : string)
| CallUpload (package_meta : Meta.meta_entry)
| HttpGet (url : string) (params : search_params)
| HttpDelete (url : string)
| HttpPost (url : string) (file : string).

Inductive event : Type :=
| LogProcessing (pkg_id : string)
| LogFindError (repo : string) (e : exn)
| LogFindUnexpected (repo : string) (e : exn)
| LogFound (repo : string)
| LogShaMatch
| LogShaMismatch (local remote : string)
| LogDeleting (upload_repo : string)
| LogOtherRepo (repo upload_repo : string)
| LogDuplicateWarning
| LogPreparing (upload_repo : string)
| LogDeleteOk (component_id : string)
| LogDeleteFailed (component_id : string) (e : exn)
| LogFileMissing (local_path : string)
| LogUploadOk (name version : string)
| LogUploadFailed (name : string) (e : exn)
| LogUploadResponse (text : string)
| LogSevere (name : string) (e : exn).

Record state : Type := {
  trace : list call;
  log : list event
}.

Definition init_state : state := {| trace := []; log := [] |}.

Definition print (e : event) : M state unit :=
  modify (fun s => {| trace := trace s; log := (log s ++ [e])%list |}).

Definition record (c : call) : M state unit :=
  modify (fun s => {| trace := (trace s ++ [c])%list; log := log s |}).

(** The exception, if any, that [r = session.<method>(...)] followed by
    [r.raise_for_status()] raises. *)
Definition failure (r : http_result) : option exn :=
  match r with
  | ReqRaises e => Some e
  | Response status text =>
      if is_error_status status then Some (HTTPError status text) else None
  end.

Definition checked (r : http_result) : M state unit :=
  match failure r with
  | Some e => raise e
  | None => ret tt
  end.

(** The two-character string of two double quotes that stands for the
    empty group in a query. *)
Definition empty_group : string := String "034"%char (String "034"%char "").

Section Methods.
Variable self : NexusUploader.
Variable w : remote.

Definition _find_component (repo group name version : string)
    : M state (option component) :=
  record (CallFind repo group name version) ;;
  let params :=
    {| p_repository := repo;
       p_name := name;
       p_version := version;
       p_group := if truthy group then replace "@" "" group
                  else empty_group |} in
  try_except
    (record (HttpGet (search_components_url self) params) ;;
     match http_search w (search_components_url self) params with
     | SearchRaises e => raise e
     | SearchResponse status text body =>
         if is_error_status status then raise (HTTPError status text)
         else
           match body with
           | None => raise JSONDecodeError
           | Some data =>
               match items data with
               | Some (first :: rest) =>
                   if negb (Nat.eqb (length (first :: rest)) 1)
                   then raise (ValueError (NotUnique group name version))
                   else ret (Some first)
               | _ => ret None
               end
           end
     end)
    (fun e =>
       match e with
       | HTTPError status _ =>
           if (status =? 404)%Z then ret None
           else print (LogFindError repo e) ;; ret None
       | _ => print (LogFindUnexpected repo e) ;; ret None
       end).

Definition _get_remote_sha512_hex (component : component) : option string :=
  match comp_assets component with
  | None => None
  | Some assets =>
      match List.find (fun a => endswith (default "" (asset_path a)) ".tgz")
              assets with
      | Some a =>
          checksum_sha512
            (default {| checksum_sha512 := None |} (asset_checksum a))
      | None => None
      end
  end.

Definition _delete_component (component_id : string) : M state bool :=
  record (CallDelete component_id) ;;
  let delete_url := components_url self +:+ "/" +:+ component_id in
  try_except
    (record (HttpDelete delete_url) ;;
     checked (http_delete w delete_url) ;;
     print (LogDeleteOk component_id) ;;
     ret true)
    (fun e => print (LogDeleteFailed component_id e) ;; ret false).

(** The file, once found to exist, is taken to open for reading. *)
Definition _upload_package (package_meta : Meta.meta_entry) : M state bool :=
  record (CallUpload package_meta) ;;
  let local_path := Meta.local_path package_meta in
  if negb (os_path_exists w local_path)
  then print (LogFileMissing local_path) ;; ret false
  else
    try_except
      (record (HttpPost (upload_url self) local_path) ;;
       checked (http_post w (upload_url self) local_path) ;;
       print (LogUploadOk (Meta.name package_meta)
                (Meta.version package_meta)) ;;
       ret true)
      (fun e =>
         print (LogUploadFailed (Meta.name package_meta) e) ;;
         match e with
         | HTTPError _ text => print (LogUploadResponse text)
         | _ => ret tt
         end ;;
         ret false).

(** [str(x)[:10]] for a value that may be [None] *)
Definition str10 (x : option string) : string :=
  slice_to 10 (default "None" x).

(** The loop over [self.check_repos], with its [break]; it returns the
    final values of [found_component] and [sha_matches]. *)
Fixpoint search_check_repos (repos : list string)
    (group name version local_sha512_hex : string)
    : M state (option component * bool) :=
  match repos with
  | [] => ret (None, false)
  | repo :: rest =>
      component <- _find_component repo group name version ;;
      match component with
      | Some c =>
          print (LogFound repo) ;;
          let remote_sha512_hex := _get_remote_sha512_hex c in
          if bool_decide (remote_sha512_hex = Some local_sha512_hex)
          then print LogShaMatch ;; ret (Some c, true)
          else print (LogShaMismatch (slice_to 10 local_sha512_hex)
                        (str10 remote_sha512_hex)) ;;
               ret (Some c, false)
      | None => search_check_repos rest group name version local_sha512_hex
      end
  end.

Definition process_package (package_meta : Meta.meta_entry) : M state unit :=
  let group := Meta.group package_meta in
  let name := Meta.name package_meta in
  let version := Meta.version package_meta in
  let local_sha512_hex := Meta.sha512_hex package_meta in
  let pkg_id :=
    if truthy group then group +:+ "/" +:+ name +:+ "@" +:+ version
    else name +:+ "@" +:+ version in
  print (LogProcessing pkg_id) ;;
  searched <- search_check_repos (check_repos self) group name version
                local_sha512_hex ;;
  let '(found_component, sha_matches) := searched in
  if sha_matches : bool then ret tt
  else
    match found_component with
    | Some c =>
        if String.eqb (comp_repository c) (upload_repo self)
        then print (LogDeleting (upload_repo self)) ;;
             _delete_component (comp_id c) ;;
             ret tt
        else print (LogOtherRepo (comp_repository c) (upload_repo self)) ;;
             print LogDuplicateWarning
    | None => ret tt
    end ;;
    print (LogPreparing (upload_repo self)) ;;
    _upload_package package_meta ;;
    ret tt.

(** The loop of [main_upload]: an exception of one entry is printed and
    the loop goes on. *)
Definition process_all (meta_info_list : list Meta.meta_entry) : M state unit :=
  for_each meta_info_list (fun package_meta =>
    try_except (process_package package_meta)
      (fun e => print (LogSevere (Meta.name package_meta) e))).
End Methods.

(** ** Reading a trace *)

Definition is_mutation (c : call) : bool :=
  match c with
  | CallDelete _ | CallUpload _ => true
  | _ => false
  end.

Definition is_request (c : call) : bool :=
  match c with
  | HttpDelete _ | HttpPost _ _ => true
  | _ => false
  end.

(** The delete and upload operations of a run, in order. *)
Definition mutations (tr : list call) : list call := List.filter is_mutation tr.

(** The DELETE and POST requests of a run, in order. *)
Definition write_requests (tr : list call) : list call :=
  List.filter is_request tr.

(** What [_find_component] returns and prints; the state it starts from
    plays no part in either. *)
Definition find_result (self : NexusUploader) (w : remote)
    (repo group name version : string) : outcome (option component) :=
  fst (_find_component self w repo group name version init_state).

Definition find_log (self : NexusUploader) (w : remote)
    (repo group name version : string) : list event :=
  log (snd (_find_component self w repo group name version init_state)).

(** The component of the first repository, in the order of the list, whose
    search returns one. *)
Fixpoint first_found (self : NexusUploader) (w : remote) (repos : list string)
    (group name version : string) : option component :=
  match repos with
  | [] => None
  | repo :: rest =>
      match find_result self w repo group name version with
      | Ok (Some c) => Some c
      | _ => first_found self w rest group name version
      end
  end.

(** The calls [_find_component] records: itself and its one request. *)
Definition find_calls (self : NexusUploader)
    (repo group name version : string) : list call :=
  [CallFind repo group name version;
   HttpGet (search_components_url self)
     {| p_repository := repo;
        p_name := name;
        p_version := version;
        p_group := if truthy group then replace "@" "" group
                   else empty_group |}].

(** The URL [_delete_component] sends its request to. *)
Definition delete_url (self : NexusUploader) (component_id : string) : string :=
  components_url self +:+ "/" +:+ component_id.

(** The request [_upload_package] sends: none when the local file is gone. *)
Definition upload_requests (self : NexusUploader) (w : remote)
    (package_meta : Meta.meta_entry) : list call :=
  if os_path_exists w (Meta.local_path package_meta)
  then [HttpPost (upload_url self) (Meta.local_path package_meta)]
  else [].

(** The decision procedure of the design, as a pure function of what the
    search finds: skip, replace then upload, upload beside a copy held by
    another repository, or plain upload. *)
Inductive decision : Type :=
| Skip
| ReplaceThenUpload (component_id : string)
| UploadBeside (repository : string)
| UploadNew.

Definition decide_action (self : NexusUploader) (w : remote)
    (package_meta : Meta.meta_entry) : decision :=
  match first_found self w (check_repos self) (Meta.group package_meta)
          (Meta.name package_meta) (Meta.version package_meta) with
  | None => UploadNew
  | Some c =>
      if bool_decide (_get_remote_sha512_hex c
                      = Some (Meta.sha512_hex package_meta))
      then Skip
      else if String.eqb (comp_repository c) (upload_repo self)
           then ReplaceThenUpload (comp_id c)
           else UploadBeside (comp_repository c)
  end.

(** What each decision calls, requests and prints before the upload. *)
Definition planned_mutations (package_meta : Meta.meta_entry) (d : decision)
    : list call :=
  match d with
  | Skip => []
  | ReplaceThenUpload component_id =>
      [CallDelete component_id; CallUpload package_meta]
  | UploadBeside _ | UploadNew => [CallUpload package_meta]
  end.

Definition planned_requests (self : NexusUploader) (w : remote)
    (package_meta : Meta.meta_entry) (d : decision) : list call :=
  match d with
  | Skip => []
  | ReplaceThenUpload component_id =>
      HttpDelete (delete_url self component_id)
        :: upload_requests self w package_meta
  | UploadBeside _ | UploadNew => upload_requests self w package_meta
  end.

Definition delete_line (self : NexusUploader) (w : remote)
    (component_id : string) : event :=
  match failure (http_delete w (delete_url self component_id)) with
  | Some e => LogDeleteFailed component_id e
  | None => LogDeleteOk component_id
  end.

Definition planned_lines (self : NexusUploader) (w : remote) (d : decision)
    : list event :=
  match d with
  | ReplaceThenUpload component_id =>
      [LogDeleting (upload_repo self); delete_line self w component_id]
  | UploadBeside repository =>
      [LogOtherRepo repository (upload_repo self); LogDuplicateWarning]
  | Skip | UploadNew => []
  end.

(** The calls and the printed lines of a run from the initial state. *)
Definition calls_of {A} (m : M state A) : list call := trace (snd (m init_state)).
Definition log_of {A} (m : M state A) : list event := log (snd (m init_state)).
Definition result_of {A} (m : M state A) : outcome A := fst (m init_state).

(** The skip rule as the documentation words it: a matching digest in
    some check repository is enough for no delete and no upload. *)
Definition skip_documented (self : NexusUploader) (w : remote)
    (package_meta : Meta.meta_entry) : Prop :=
  (exists repo c,
      In repo (check_repos self) /\
      find_result self w repo (Meta.group package_meta)
        (Meta.name package_meta) (Meta.version package_meta) = Ok (Some c) /\
      _get_remote_sha512_hex c = Some (Meta.sha512_hex package_meta)) ->
  mutations (calls_of (process_package self w package_meta)) = [].

End Upload.

(* ================================================================== *)
(** * Vocabulary for the properties of the two phases *)
(* ================================================================== *)

Module Fetcher.
Import PyStr Download.

(** The exception, if any, that [requests.get] followed by
    [raise_for_status] raises, before any byte of the body is read. *)
Definition request_error (g : get_result) : option exn :=
  match g with
  | GetRaises e => Some e
  | GetResponse status text _ _ =>
      if is_error_status status then Some (HTTPError status text) else None
  end.

(** The exceptions [parse_package_lock] has an [except] clause for. *)
Definition handled (e : exn) : bool :=
  match e with
  | FileNotFoundError _ | JSONDecodeError => true
  | _ => false
  end.


(** The installation-root marker of the path keys. *)
Definition marker : string := "node_modules/".

(** The package name [parse_package_lock] reads off a path key. *)
Definition derived_name (path : string) : string :=
  slice_from (rfind "node_modules/" path + len "node_modules/") path.

(** The descriptor built from a path key and the three fields of its
    entry, for the integrity token [token]. *)
Definition details_of (path url token version : string) : package_details :=
  {| pd_name := derived_name path;
     pd_version := version;
     pd_resolved := url;
     pd_sha512_b64 := replace "sha512-" "" token |}.

(** The file name [download_package] stores a package under. *)
Definition flat_name (d : package_details) : string :=
  replace "\" "#" (replace "/" "#" (pd_name d))
  +:+ "-" +:+ pd_version d +:+ ".tgz".

End Fetcher.

Module Reconciler.
Import PyStr Upload.

(** The repositories a trace records a search of, in order. *)
Fixpoint finds (tr : list call) : list string :=
  match tr with
  | [] => []
  | CallFind repo _ _ _ :: rest => repo :: finds rest
  | _ :: rest => finds rest
  end.

(** The repositories of the list up to and including the first one whose
    search returns a component. *)
Fixpoint searched (self : NexusUploader) (w : remote) (repos : list string)
    (group name version : string) : list string :=
  match repos with
  | [] => []
  | repo :: rest =>
      match find_result self w repo group name version with
      | Ok (Some _) => [repo]
      | _ => repo :: searched self w rest group name version
      end
  end.

(** A search that gives no component: the request raises, the status is an
    error, the body is not JSON, or it lists no item. *)
Definition fruitless (r : search_result) : bool :=
  match r with
  | SearchRaises _ => true
  | SearchResponse status _ body =>
      is_error_status status
      || match body with
         | None => true
         | Some data =>
             match items data with
             | None | Some [] => true
             | Some (_ :: _) => false
             end
         end
  end.

(** The parameters [_find_component] sends for a repository. *)
Definition query (repo group name version : string) : search_params :=
  {| p_repository := repo;
     p_name := name;
     p_version := version;
     p_group := if truthy group then replace "@" "" group else empty_group |}.

(** What [_upload_package] prints. *)
Definition upload_lines (self : NexusUploader) (w : remote)
    (package_meta : Meta.meta_entry) : list event :=
  let local_path := Meta.local_path package_meta in
  if os_path_exists w local_path
  then match failure (http_post w (upload_url self) local_path) with
       | Some e =>
           LogUploadFailed (Meta.name package_meta) e
             :: match e with
                | HTTPError _ text => [LogUploadResponse text]
                | _ => []
                end
       | None =>
           [LogUploadOk (Meta.name package_meta) (Meta.version package_meta)]
       end
  else [LogFileMissing local_path].

(** Every call and request a decision leads to, after the search. *)
Definition planned_calls (self : NexusUploader) (w : remote)
    (package_meta : Meta.meta_entry) (d : decision) : list call :=
  match d with
  | Skip => []
  | ReplaceThenUpload component_id =>
      CallDelete component_id
        :: HttpDelete (delete_url self component_id)
        :: CallUpload package_meta
        :: upload_requests self w package_meta
  | UploadBeside _ | UploadNew =>
      CallUpload package_meta :: upload_requests self w package_meta
  end.

(** What is printed after the lines of the decision. *)
Definition final_lines (self : NexusUploader) (w : remote)
    (package_meta : Meta.meta_entry) (d : decision) : list event :=
  match d with
  | Skip => []
  | _ => LogPreparing (upload_repo self) :: upload_lines self w package_meta
  end.

(** No asset of the component is an archive. *)
Definition no_archive (c : component) : Prop :=
  match comp_assets c with
  | None => True
  | Some assets =>
      Forall (fun a => endswith (default "" (asset_path a)) ".tgz" = false)
        assets
  end.

End Reconciler.

(* ================================================================== *)
(** * Concrete worlds for the examples *)
(* ================================================================== *)

Module Example.

(** ** Download side *)

Definition archive : list byte := list_byte_of_string "abc".
Definition tampered : list byte := list_byte_of_string "abd".

(** SHA-512 of [archive], in the two encodings. *)
Definition archive_b64 : string :=
  "3a81oZNherrMQXNJriBBMRLm+k6JqX6iCp7u5ktV05ohkpkqJ0/BqDa6PCOj/uu9RU1EI2Q86A4qmslPpUyknw==".
Definition archive_hex : string :=
  "ddaf35a193617abacc417349ae20413112e6fa4e89a97ea20a9eeee64b55d39a2192992a274fc1a836ba3c23a3feebbd454d4423643ce80e2a9ac94fa54ca49f".

(** SHA-512 of the empty byte string, standing for some other content. *)
Definition other_hex : string :=
  "cf83e1357eefb8bdf1542850d66d8007d620e4050b5715dc83f4a921d36ce9ce47d0d13c5d85f2b0ff8318d2877eec2f63b931bd47417a81a538327af927da3e".

Definition url : string :=
  "https://registry.npmjs.org/@scope/pkg/-/pkg-1.2.3.tgz".

(** [urljoin] for a base that ends with a slash and a relative path. *)
Definition urljoin (base rel : string) : string := base +:+ rel.

Definition cfg : Download.downloader_cfg :=
  {| Download.download_dir := None;
     Download.use_resolved_url := None;
     Download.mirror_registry := None |}.

(** A registry that answers every request with the given chunks, and
    breaks the stream after them when [broken] says so. *)
Definition registry (chunks : list (list byte)) (broken : option exn)
    : Download.world :=
  {| Download.cwd := "/home/ci/project";
     Download.json_load := fun p =>
       if String.eqb p "package-lock.json"
       then Download.Loaded (Download.scoped_lock url archive_b64)
       else Download.LoadRaises (FileNotFoundError p);
     Download.mkdir := fun _ => None;
     Download.http_get := fun _ => Download.GetResponse 200 "" chunks broken |}.

(** A working directory whose lockfile is absent, malformed or has no
    packages, by name. *)
Definition broken_locks : Download.world :=
  {| Download.cwd := "/home/ci/project";
     Download.json_load := fun p =>
       if String.eqb p "malformed.json" then Download.LoadRaises JSONDecodeError
       else if String.eqb p "v1.json"
            then Download.Loaded {| Download.packages := None |}
            else Download.LoadRaises (FileNotFoundError p);
     Download.mkdir := fun _ => None;
     Download.http_get := fun _ => Download.GetRaises RequestException |}.

Definition empty_disk : Download.state :=
  {| Download.files := ∅; Download.log := [] |}.

Definition scoped : Download.package_details :=
  Download.scoped_details url archive_b64.

(** What fetching [scoped] from a registry serving [archive] returns. *)
Definition scoped_entry : Meta.meta_entry :=
  {| Meta.group := "@scope";
     Meta.name := "pkg";
     Meta.version := "1.2.3";
     Meta.nexus_search_name := "pkg-1.2.3";
     Meta.download_url := url;
     Meta.local_path := "/home/ci/project/npm_tgz/@scope#pkg-1.2.3.tgz";
     Meta.sha512_hex := archive_hex |}.

(** ** Upload side *)

Definition entry : Meta.meta_entry :=
  {| Meta.group := "";
     Meta.name := "left-pad";
     Meta.version := "1.3.0";
     Meta.nexus_search_name := "left-pad-1.3.0";
     Meta.download_url := "https://registry.npmjs.org/left-pad/-/left-pad-1.3.0.tgz";
     Meta.local_path := "/home/ci/project/npm_tgz/left-pad-1.3.0.tgz";
     Meta.sha512_hex := archive_hex |}.

Definition tgz_asset (hex : string) : Upload.asset :=
  {| Upload.asset_path := Some "left-pad/-/left-pad-1.3.0.tgz";
     Upload.asset_checksum := Some {| Upload.checksum_sha512 := Some hex |} |}.

Definition held (component_id repository hex : string) : Upload.component :=
  {| Upload.comp_id := component_id;
     Upload.comp_repository := repository;
     Upload.comp_assets := Some [tgz_asset hex] |}.

Definition stale_hosted : Upload.component := held "aG9zdGVkOjE" "npm-hosted" other_hex.
Definition fresh_hosted : Upload.component := held "aG9zdGVkOjI" "npm-hosted" archive_hex.
Definition stale_proxy : Upload.component := held "cHJveHk6MQ" "npm-proxy" other_hex.
Definition fresh_proxy : Upload.component := held "cHJveHk6Mg" "npm-proxy" archive_hex.

(** A store whose search answers with the components [answers] lists for
    the repository asked, and whose delete answers [deleted]. *)
Definition nexus (answers : string -> list Upload.component)
    (deleted : Upload.http_result) : Upload.remote :=
  {| Upload.http_search := fun _ p =>
       Upload.SearchResponse 200 ""
         (Some {| Upload.items := Some (answers (Upload.p_repository p)) |});
     Upload.http_delete := fun _ => deleted;
     Upload.http_post := fun _ _ => Upload.Response 204 "";
     Upload.os_path_exists := fun _ => true |}.

Definition in_repo (repository : string) (l : list Upload.component)
    : string -> list Upload.component :=
  fun repo => if String.eqb repo repository then l else [].

Definition uploader : Upload.NexusUploader :=
  Upload.init "http://nexus.local" "npm-hosted" ["npm-hosted"; "npm-proxy"].

(** Stores that hold the given components in one repository only. *)
Definition hosted_only (l : list Upload.component) : Upload.remote :=
  nexus (in_repo "npm-hosted" l) (Upload.Response 204 "").

Definition proxy_only (l : list Upload.component) : Upload.remote :=
  nexus (in_repo "npm-proxy" l) (Upload.Response 204 "").

(** A store whose upload repository holds a stale copy and refuses to
    delete it. *)
Definition refusing_delete : Upload.remote :=
  nexus (in_repo "npm-hosted" [stale_hosted])
    (Upload.Response 500 "Internal Server Error").

(** Stale copy in the hosted repository, fresh copy in the proxy. *)
Definition stale_then_fresh : Upload.remote :=
  nexus (fun repo => if String.eqb repo "npm-hosted" then [stale_hosted]
                     else [fresh_proxy])
    (Upload.Response 204 "").

(** ** Further worlds *)

(** A registry that serves [archive] in two chunks. *)
Definition served : Download.world :=
  registry [list_byte_of_string "a"; list_byte_of_string "bc"] None.

(** The disk once [scoped] has been fetched. *)
Definition cached_disk : Download.state :=
  {| Download.files := <[Download.tgz_path_of scoped cfg := archive]> ∅;
     Download.log := [] |}.

(** A registry that answers every request with the given error status. *)
Definition refusing (status : Z) (text : string) : Download.world :=
  {| Download.cwd := "/home/ci/project";
     Download.json_load := fun p => Download.LoadRaises (FileNotFoundError p);
     Download.mkdir := fun _ => None;
     Download.http_get := fun _ => Download.GetResponse status text [] None |}.

(** A working directory whose lockfile was saved as UTF-16: its first
    byte, FF, starts no UTF-8 sequence. *)
Definition utf16_lock : Download.world :=
  {| Download.cwd := "/home/ci/project";
     Download.json_load := fun _ => Download.LoadRaises UnicodeDecodeError;
     Download.mkdir := fun _ => None;
     Download.http_get := fun _ => Download.GetRaises RequestException |}.

(** A working directory whose lockfile holds the JSON document [[]]. *)
Definition array_lock : Download.world :=
  {| Download.cwd := "/home/ci/project";
     Download.json_load := fun _ => Download.LoadedOther;
     Download.mkdir := fun _ => None;
     Download.http_get := fun _ => Download.GetRaises RequestException |}.

(** A working directory in which no directory can be created. *)
Definition readonly_cwd : Download.world :=
  {| Download.cwd := "/home/ci/project";
     Download.json_load := fun p => Download.LoadRaises (FileNotFoundError p);
     Download.mkdir := fun _ => Some (OSError 13);
     Download.http_get := fun _ => Download.GetResponse 200 "" [archive] None |}.

(** A working directory whose lockfile cannot be opened. *)
Definition unreadable_lock : Download.world :=
  {| Download.cwd := "/home/ci/project";
     Download.json_load := fun _ => Download.LoadRaises (OSError 13);
     Download.mkdir := fun _ => None;
     Download.http_get := fun _ => Download.GetRaises RequestException |}.

Definition cfg_mirror : Download.downloader_cfg :=
  {| Download.download_dir := None;
     Download.use_resolved_url := Some false;
     Download.mirror_registry := Some "https://registry.npmmirror.com/" |}.

(** An integrity token of another algorithm (SHA-1 of the empty string). *)
Definition sha1_token : string := "sha1-2jmj7l5rSw0yVb/vlWAYkK/YBwk=".

(** A store that cannot be reached. *)
Definition unreachable : Upload.remote :=
  {| Upload.http_search := fun _ _ => Upload.SearchRaises RequestException;
     Upload.http_delete := fun _ => Upload.ReqRaises RequestException;
     Upload.http_post := fun _ _ => Upload.ReqRaises RequestException;
     Upload.os_path_exists := fun _ => true |}.

(** A store that answers every search with the given status. *)
Definition answering (status : Z) (text : string) : Upload.remote :=
  {| Upload.http_search := fun _ _ => Upload.SearchResponse status text None;
     Upload.http_delete := fun _ => Upload.Response 204 "";
     Upload.http_post := fun _ _ => Upload.Response 204 "";
     Upload.os_path_exists := fun _ => true |}.

(** The store of [hosted_only], seen from a machine whose download
    directory has been emptied. *)
Definition file_gone (l : list Upload.component) : Upload.remote :=
  {| Upload.http_search := Upload.http_search (hosted_only l);
     Upload.http_delete := Upload.http_delete (hosted_only l);
     Upload.http_post := Upload.http_post (hosted_only l);
     Upload.os_path_exists := fun _ => false |}.

(** An empty store that refuses uploads. *)
Definition refusing_upload : Upload.remote :=
  {| Upload.http_search := fun _ _ =>
       Upload.SearchResponse 200 "" (Some {| Upload.items := Some [] |});
     Upload.http_delete := fun _ => Upload.Response 204 "";
     Upload.http_post := fun _ _ => Upload.Response 403 "Forbidden";
     Upload.os_path_exists := fun _ => true |}.

(** A component listed without assets. *)
Definition bare_hosted : Upload.component :=
  {| Upload.comp_id := "aG9zdGVkOjM";
     Upload.comp_repository := "npm-hosted";
     Upload.comp_assets := None |}.

(** A component whose first asset is not an archive. *)
Definition readme_asset : Upload.asset :=
  {| Upload.asset_path := Some "left-pad/README.md";
     Upload.asset_checksum :=
       Some {| Upload.checksum_sha512 := Some other_hex |} |}.

Definition two_assets : Upload.component :=
  {| Upload.comp_id := "aG9zdGVkOjQ";
     Upload.comp_repository := "npm-hosted";
     Upload.comp_assets := Some [readme_asset; tgz_asset archive_hex] |}.

(** An uploader that checks three repositories. *)
Definition uploader3 : Upload.NexusUploader :=
  Upload.init "http://nexus.local" "npm-hosted"
    ["npm-hosted"; "npm-proxy"; "npm-group"].

End Example.

(* ================================================================== *)
(** * Properties *)
(* ================================================================== *)

(** ** The digest *)

Module SHA512Facts.
Import SHA512.

Lemma round_length (st : list Z) (kw : Z * Z) :
  length st = 8 -> length (round st kw) = 8.
Proof.
  intros H. do 9 (destruct st as [|? st]; try discriminate H). reflexivity.
Qed.

Lemma rounds_length (l : list (Z * Z)) (st : list Z) :
  length st = 8 -> length (fold_left round l st) = 8.
Proof.
  revert st. induction l as [|kw l IH]; intros st H; simpl; [exact H|].
  apply IH, round_length, H.
Qed.

Lemma compress_length (h block : list Z) :
  length h = 8 -> length (compress h block) = 8.
Proof.
  intros H. unfold compress.
  rewrite length_map, length_combine, rounds_length, H by exact H.
  reflexivity.
Qed.

Lemma blocks_length (blocks : list (list Z)) (h : list Z) :
  length h = 8 -> length (fold_left compress blocks h) = 8.
Proof.
  revert h. induction blocks as [|b blocks IH]; intros h H; simpl; [exact H|].
  apply IH, compress_length, H.
Qed.

Lemma Z_to_be_length (n : nat) (x : Z) : length (Z_to_be n x) = n.
Proof.
  revert x. induction n as [|n IH]; intros x; simpl; [reflexivity|].
  rewrite length_app, IH. simpl. lia.
Qed.

Lemma words_to_bytes_length (h : list Z) :
  length (flat_map (Z_to_be 8) h) = 8 * length h.
Proof.
  induction h as [|x h IH]; [reflexivity|].
  cbn [flat_map]. rewrite length_app, Z_to_be_length, IH. simpl. lia.
Qed.

(** A digest has 64 bytes, that is 512 bits. *)
Lemma sha512_length (msg : list byte) : length (sha512 msg) = 64.
Proof.
  unfold sha512. rewrite length_map, words_to_bytes_length, blocks_length;
    reflexivity.
Qed.
End SHA512Facts.

(** ** The two encodings of a digest can be decoded *)

Module CodecFacts.
Import Codec.
Local Open Scope N_scope.

Ltac divmod_lia := zify; Z.to_euclidean_division_equations; lia.
Ltac cases_N :=
  repeat match goal with
    | |- context [N.ltb ?a ?b] => destruct (N.ltb_spec a b); try lia
    | |- context [N.leb ?a ?b] => destruct (N.leb_spec a b); try lia
    | |- context [N.eqb ?a ?b] => destruct (N.eqb_spec a b); try lia
    end.

Lemma b64val_b64char (n : N) : n < 64 -> b64val (b64char n) = Some n.
Proof.
  intros Hn. unfold b64char.
  destruct (N.ltb_spec n 26); [|destruct (N.ltb_spec n 52);
    [|destruct (N.ltb_spec n 62); [|destruct (N.eqb_spec n 62)]]];
    unfold b64val; rewrite ?N_ascii_embedding by lia.
  - cases_N. simpl. f_equal. lia.
  - cases_N. simpl. f_equal. lia.
  - cases_N. simpl. f_equal. lia.
  - subst n. reflexivity.
  - assert (n = 63) by lia. subst n. reflexivity.
Qed.

Lemma b64char_not_pad (n : N) : n < 64 -> is_pad (b64char n) = false.
Proof.
  intros Hn. unfold is_pad. apply Ascii.eqb_neq. intros Heq.
  pose proof (b64val_b64char n Hn) as Hv. rewrite Heq in Hv. discriminate.
Qed.

Lemma sextets (a b c : N) :
  a < 256 -> b < 256 -> c < 256 ->
  a / 4 < 64 /\ a mod 4 * 16 + b / 16 < 64 /\ b mod 16 * 4 + c / 64 < 64 /\
  c mod 64 < 64 /\ a mod 4 * 16 < 64 /\ b mod 16 * 4 < 64 /\
  a / 4 * 4 + (a mod 4 * 16 + b / 16) / 16 = a /\
  (a mod 4 * 16 + b / 16) mod 16 * 16 + (b mod 16 * 4 + c / 64) / 4 = b /\
  (b mod 16 * 4 + c / 64) mod 4 * 64 + c mod 64 = c /\
  a / 4 * 4 + (a mod 4 * 16) / 16 = a /\
  (a mod 4 * 16 + b / 16) mod 16 * 16 + (b mod 16 * 4) / 4 = b.
Proof. intros. repeat split; divmod_lia. Qed.

Lemma byte_of_to_N (b : byte) (k : list byte -> option (list byte))
    (rest : list byte) (n : N) :
  n = Byte.to_N b -> byte_of n k rest = k (b :: rest).
Proof. intros ->. unfold byte_of. now rewrite Byte.of_to_N. Qed.

Lemma to_N_lt (b : byte) : Byte.to_N b < 256.
Proof. pose proof (Byte.to_N_bounded b). lia. Qed.

Lemma b64decode_b64encode_le (n : nat) (l : list byte) :
  (length l <= n)%nat -> b64decode (b64encode l) = Some l.
Proof.
  revert l. induction n as [|n IH]; intros l Hlen.
  - destruct l; [reflexivity | simpl in Hlen; lia].
  - destruct l as [|x [|y [|z rest]]]; [reflexivity | | |].
    + destruct (sextets _ _ _ (to_N_lt x) (to_N_lt x) (to_N_lt x))
        as (H0 & _ & _ & _ & H1 & _ & _ & _ & _ & Ha & _).
      cbn [b64encode b64decode].
      rewrite (b64val_b64char _ H0), (b64val_b64char _ H1).
      cbn [is_pad Ascii.eqb Bool.eqb andb String.eqb].
      now apply byte_of_to_N.
    + destruct (sextets _ _ _ (to_N_lt x) (to_N_lt y) (to_N_lt y))
        as (H0 & H1 & _ & _ & _ & H2 & Ha & _ & _ & _ & Hb).
      cbn [b64encode b64decode].
      rewrite (b64val_b64char _ H0), (b64val_b64char _ H1),
        (b64char_not_pad _ H2), (b64val_b64char _ H2).
      cbn [is_pad Ascii.eqb Bool.eqb andb String.eqb].
      rewrite (byte_of_to_N y) by exact Hb.
      now apply byte_of_to_N.
    + destruct (sextets _ _ _ (to_N_lt x) (to_N_lt y) (to_N_lt z))
        as (H0 & H1 & H2 & H3 & _ & _ & Ha & Hb & Hc & _ & _).
      cbn [b64encode b64decode].
      rewrite (b64val_b64char _ H0), (b64val_b64char _ H1),
        (b64char_not_pad _ H2), (b64val_b64char _ H2),
        (b64char_not_pad _ H3), (b64val_b64char _ H3).
      rewrite IH by (simpl in Hlen; lia).
      rewrite (byte_of_to_N z) by exact Hc.
      rewrite (byte_of_to_N y) by exact Hb.
      now apply byte_of_to_N.
Qed.

Lemma b64decode_b64encode (l : list byte) : b64decode (b64encode l) = Some l.
Proof. apply (b64decode_b64encode_le (length l)). lia. Qed.

Lemma hexval_hexchar (n : N) : n < 16 -> hexval (hexchar n) = Some n.
Proof.
  intros Hn. unfold hexval, hexchar.
  destruct (N.ltb_spec n 10).
  - rewrite N_ascii_embedding by lia.
    replace (48 <=? 48 + n) with true by (symmetry; apply N.leb_le; lia).
    replace (48 + n <=? 57) with true by (symmetry; apply N.leb_le; lia).
    simpl. f_equal. lia.
  - rewrite N_ascii_embedding by lia.
    replace (48 <=? 87 + n) with true by (symmetry; apply N.leb_le; lia).
    replace (87 + n <=? 57) with false by (symmetry; apply N.leb_gt; lia).
    replace (97 <=? 87 + n) with true by (symmetry; apply N.leb_le; lia).
    replace (87 + n <=? 102) with true by (symmetry; apply N.leb_le; lia).
    simpl. f_equal. lia.
Qed.

Lemma byte_split16 (b : byte) :
  Byte.to_N b / 16 < 16 /\ Byte.to_N b mod 16 < 16 /\
  Byte.of_N (Byte.to_N b / 16 * 16 + Byte.to_N b mod 16) = Some b.
Proof.
  pose proof (Byte.to_N_bounded b) as Hb.
  split; [|split].
  - apply N.Div0.div_lt_upper_bound; lia.
  - apply N.mod_lt; lia.
  - rewrite (N.mul_comm _ 16), <- N.div_mod by lia. apply Byte.of_to_N.
Qed.

Lemma hexdecode_hexencode (l : list byte) : hexdecode (hexencode l) = Some l.
Proof.
  induction l as [|b l IH]; [reflexivity|].
  destruct (byte_split16 b) as (Hh & Hl & Hb).
  cbn [hexencode hexdecode].
  rewrite (hexval_hexchar _ Hh), (hexval_hexchar _ Hl), IH, Hb.
  reflexivity.
Qed.
End CodecFacts.

(** ** Paths *)

Module PathFacts.
Import PyStr PosixPath.

Local Arguments String.append : simpl nomatch.

Lemma sapp_assoc (a b c : string) : (a +:+ b) +:+ c = a +:+ (b +:+ c).
Proof. induction a as [|x a IH]; simpl; [reflexivity | now rewrite IH]. Qed.

Lemma sapp_nil_r (a : string) : a +:+ "" = a.
Proof. induction a as [|x a IH]; simpl; [reflexivity | now rewrite IH]. Qed.

Lemma truthy_false (a : string) : truthy a = false -> a = "".
Proof.
  unfold truthy. destruct (String.eqb_spec a ""); [auto | discriminate].
Qed.

Lemma endswith_app (a p : string) :
  endswith a p = true -> exists a', a = a' +:+ p.
Proof.
  induction a as [|x a IH]; cbn [endswith].
  - destruct (String.eqb_spec "" p) as [<-|_]; [|discriminate].
    exists "". reflexivity.
  - destruct (String.eqb_spec (String x a) p) as [<-|_].
    + exists "". reflexivity.
    + intros H. destruct (IH H) as [a' ->]. exists (String x a'). reflexivity.
Qed.

(** *** [split] *)

Lemma split_nonempty (sep : ascii) (s : string) : split sep s <> [].
Proof.
  destruct s as [|c s]; simpl; [discriminate|].
  destruct (Ascii.eqb c sep); [discriminate|].
  destruct (split sep s); discriminate.
Qed.

Lemma split_no_sep (sep : ascii) (f : string) :
  contains sep f = false -> split sep f = [f].
Proof.
  induction f as [|c f IH]; simpl; [reflexivity|].
  intros H. apply orb_false_iff in H as [Hc Hf].
  rewrite Ascii.eqb_sym, Hc, (IH Hf). reflexivity.
Qed.

Lemma split_app (sep : ascii) (a b : string) :
  split sep (a +:+ String sep b) = (split sep a ++ split sep b)%list.
Proof.
  induction a as [|c a IH]; simpl.
  - now rewrite Ascii.eqb_refl.
  - destruct (Ascii.eqb c sep); rewrite IH; [reflexivity|].
    pose proof (split_nonempty sep a) as Hne.
    destruct (split sep a); [contradiction | reflexivity].
Qed.

(** *** The last component of a path, through [join] and [normpath] *)

Section LastComponent.
Variable f : string.
Hypothesis f_no_slash : contains "/" f = false.
Hypothesis f_not_empty : f <> "".
Hypothesis f_not_dot : f <> ".".
Hypothesis f_not_dotdot : f <> "..".

Lemma ends_in_self : ends_in f f.
Proof. exists []. now apply split_no_sep. Qed.

Lemma ends_in_app (a p : string) :
  ends_in f p -> ends_in f (a +:+ "/" +:+ p).
Proof.
  intros [comps H]. exists (split "/" a ++ comps)%list.
  change ("/" +:+ p) with (String "/" p).
  now rewrite split_app, H, app_assoc.
Qed.

Lemma ends_in_join (a p : string) : ends_in f p -> ends_in f (join a p).
Proof.
  intros H. unfold join.
  destruct (startswith p "/"); [exact H|].
  destruct (truthy a) eqn:Ha; simpl.
  - destruct (endswith a "/") eqn:He.
    + destruct (endswith_app _ _ He) as [a' ->].
      rewrite sapp_assoc. now apply ends_in_app.
    + now apply ends_in_app.
  - now rewrite (truthy_false _ Ha).
Qed.

Lemma norm_step_last (k : nat) (new_comps : list string) :
  norm_step k new_comps f = (new_comps ++ [f])%list.
Proof.
  unfold norm_step, is_dotdot.
  destruct (String.eqb_spec f ""); [contradiction|].
  destruct (String.eqb_spec f "."); [contradiction|].
  destruct (String.eqb_spec f ".."); [contradiction|]. reflexivity.
Qed.

Lemma join_snoc (l : list string) :
  exists d, PyStr.join "/" (l ++ [f]) = d +:+ f /\ dir_prefix d.
Proof.
  induction l as [|x l (d & IH & Hd)]; simpl.
  - exists "". split; [reflexivity | now left].
  - rewrite IH. destruct (l ++ [f])%list eqn:Hl.
    + destruct l; discriminate.
    + exists (x +:+ "/" +:+ d). split.
      * now rewrite !sapp_assoc.
      * right. destruct Hd as [->|[d' ->]].
        -- exists x. now rewrite sapp_nil_r.
        -- exists (x +:+ "/" +:+ d'). now rewrite !sapp_assoc.
Qed.

Lemma normpath_ends_in (p : string) :
  ends_in f p -> exists d, normpath p = d +:+ f /\ dir_prefix d.
Proof.
  intros [comps H]. unfold normpath.
  destruct (truthy p) eqn:Hp; simpl.
  2:{ apply truthy_false in Hp. subst p. simpl in H.
      destruct comps as [|? [|? ?]]; simpl in H; congruence. }
  rewrite H, fold_left_app. simpl. rewrite norm_step_last.
  set (k := if startswith p "/" then _ else _).
  destruct (join_snoc (fold_left (norm_step k) comps [])) as (d & -> & Hd).
  assert (Hk : dir_prefix (slashes k +:+ d)).
  { destruct Hd as [->|[d' ->]].
    - rewrite sapp_nil_r. destruct k as [|[|k]]; simpl.
      + now left.
      + right. now exists "".
      + right. now exists "/".
    - right. exists (slashes k +:+ d'). now rewrite sapp_assoc. }
  exists (slashes k +:+ d). rewrite <- sapp_assoc. split; [|exact Hk].
  destruct (truthy (_ +:+ f)) eqn:Ht; [reflexivity|].
  apply truthy_false in Ht.
  destruct (slashes k +:+ d); simpl in Ht; [contradiction | discriminate].
Qed.

Lemma abspath_ends_in (cwd p : string) :
  ends_in f p -> exists d, abspath cwd p = d +:+ f /\ dir_prefix d.
Proof.
  intros H. unfold abspath. apply normpath_ends_in.
  destruct (isabs p); [exact H | now apply ends_in_join].
Qed.

(** *** [basename] *)

Lemma rfind_no_slash : rfind_nat "/" f = None.
Proof.
  revert f_no_slash. clear.
  induction f as [|c s IH]; cbn [contains rfind_nat]; [reflexivity|].
  intros H. apply orb_false_iff in H as [Hc Hs]. rewrite (IH Hs).
  cbn [String.prefix].
  destruct (ascii_dec "/" c) as [<-|_]; [|reflexivity].
  rewrite Ascii.eqb_refl in Hc. discriminate.
Qed.

Lemma rfind_last_slash (d : string) :
  rfind_nat "/" (d +:+ "/" +:+ f) = Some (String.length d).
Proof.
  induction d as [|c d IH].
  - change ("" +:+ "/" +:+ f) with (String "/" f). cbn [rfind_nat].
    rewrite rfind_no_slash. destruct f; reflexivity.
  - change (String c d +:+ "/" +:+ f) with (String c (d +:+ "/" +:+ f)).
    cbn [rfind_nat String.length]. now rewrite IH.
Qed.

Lemma drop_app (a b : string) : drop (String.length a) (a +:+ b) = b.
Proof. induction a as [|c a IH]; simpl; [now destruct b | exact IH]. Qed.

Lemma basename_dir_prefix (d : string) :
  dir_prefix d -> basename (d +:+ f) = f.
Proof.
  intros [->|[d' ->]]; unfold basename, rfind; simpl.
  - rewrite rfind_no_slash. reflexivity.
  - rewrite sapp_assoc, rfind_last_slash. unfold slice_from.
    destruct (Z.ltb_spec (Z.of_nat (String.length d') + 1) 0); [lia|].
    replace (Z.to_nat (Z.of_nat (String.length d') + 1))
      with (String.length (d' +:+ "/")).
    + rewrite <- sapp_assoc. apply drop_app.
    + clear. induction d' as [|c d' IH]; simpl; [reflexivity|].
      rewrite IH. lia.
Qed.

(** The absolute path of a file joined to any directory keeps its name. *)
Lemma basename_abspath_join (cwd dir : string) :
  basename (abspath cwd (join dir f)) = f.
Proof.
  destruct (abspath_ends_in cwd (join dir f)) as (d & -> & Hd).
  - apply ends_in_join, ends_in_self.
  - now apply basename_dir_prefix.
Qed.
End LastComponent.
End PathFacts.

(** ** The archive fetcher *)

Module DownloadFacts.
Import PyStr Download.

Arguments SHA512.sha512 : simpl never.
Arguments Codec.b64encode : simpl never.
Arguments Codec.hexencode : simpl never.

(** *** Reading a file in chunks *)

Lemma concat_chunks_from (size room : nat) (l cur : list byte) :
  concat (chunks_from size room cur l) = (cur ++ l)%list.
Proof.
  revert room cur. induction l as [|x l IH]; intros room cur; simpl.
  - destruct cur; simpl; [reflexivity | now rewrite !app_nil_r].
  - destruct room as [|[|r]]; simpl; rewrite IH; simpl;
      now rewrite <- app_assoc.
Qed.

Lemma fold_update (chunks : list (list byte)) (h : hasher) :
  fold_left update chunks h = (h ++ concat chunks)%list.
Proof.
  revert h. induction chunks as [|c chunks IH]; intros h; simpl.
  - now rewrite app_nil_r.
  - rewrite IH. unfold update. now rewrite app_assoc.
Qed.

(** The read loop hashes the whole file, whatever its length. *)
Lemma hash_cached_file (content : list byte) :
  fold_left update (read_chunks content) hashlib_sha512 = content.
Proof.
  rewrite fold_update. unfold read_chunks. now rewrite concat_chunks_from.
Qed.

(** *** Streaming a response to disk *)

Lemma write_loop (path : string) (chunks : list (list byte)) (h : hasher)
    (c0 : list byte) (fs : gmap string (list byte)) (lg : list event) :
  for_fold chunks h
    (fun h chunk => bind (write path chunk) (fun _ => ret (update h chunk)))
    {| files := <[path := c0]> fs; log := lg |}
  = (Ok (h ++ concat chunks)%list,
     {| files := <[path := (c0 ++ concat chunks)%list]> fs; log := lg |}).
Proof.
  revert h c0. induction chunks as [|c chunks IH]; intros h c0; simpl.
  - unfold ret. now rewrite !app_nil_r.
  - unfold bind at 1. unfold bind at 1. unfold write, modify, ret. simpl.
    rewrite alter_insert_eq. rewrite IH. unfold update.
    now rewrite !app_assoc.
Qed.

Lemma download_to_run (w : world) (url path : string) (s : state)
    (status : Z) (text : string) (chunks : list (list byte))
    (broken : option exn) :
  http_get w url = GetResponse status text chunks broken ->
  is_error_status status = false ->
  download_to w url path hashlib_sha512 s
  = (match broken with
     | Some e => Raise e
     | None => Ok (concat chunks)
     end,
     {| files := <[path := concat chunks]> (files s); log := log s |}).
Proof.
  intros Hget Hst. unfold download_to. rewrite Hget, Hst.
  unfold bind at 1. unfold open_wb, modify. 
  unfold bind at 1. rewrite write_loop. simpl.
  destruct broken; reflexivity.
Qed.

Lemma hash_artifact_cached (w : world) (url path : string) (s : state)
    (content : list byte) :
  files s !! path = Some content ->
  hash_artifact w url path s = (Ok content, s).
Proof.
  intros Hf. unfold hash_artifact, bind, os_path_exists, read_file.
  rewrite Hf. rewrite bool_decide_eq_true_2 by eauto.
  rewrite Hf. unfold ret. now rewrite hash_cached_file.
Qed.

Lemma hash_artifact_streamed (w : world) (url path : string) (s : state)
    (status : Z) (text : string) (chunks : list (list byte))
    (broken : option exn) :
  files s !! path = None ->
  http_get w url = GetResponse status text chunks broken ->
  is_error_status status = false ->
  hash_artifact w url path s
  = (match broken with
     | Some e => Raise e
     | None => Ok (concat chunks)
     end,
     {| files := <[path := concat chunks]> (files s); log := log s |}).
Proof.
  intros Hf Hget Hst. unfold hash_artifact, bind at 1, os_path_exists.
  rewrite Hf. rewrite bool_decide_eq_false_2 by (intros [? ?]; discriminate).
  now apply (download_to_run w url path s status text).
Qed.

Section Fetch.
Variable urljoin : string -> string -> string.
Variable w : world.
Variable pd : package_details.
Variable cfg : downloader_cfg.

Let url := download_url_of urljoin pd cfg.
Let path := tgz_path_of pd cfg.

Lemma hash_artifact_obtained (s : state) (bs : list byte) :
  obtained_bytes urljoin w pd cfg s = Some bs ->
  exists s1,
    hash_artifact w url path s = (Ok bs, s1) /\
    files s1 !! path = Some bs /\
    delete path (files s1) = delete path (files s) /\
    log s1 = log s.
Proof.
  unfold obtained_bytes. fold url path.
  destruct (files s !! path) as [content|] eqn:Hf.
  - intros [= ->]. exists s. now rewrite (hash_artifact_cached _ _ _ _ _ Hf).
  - destruct (http_get w url) as [|status text chunks [e|]] eqn:Hget;
      try discriminate.
    destruct (is_error_status status) eqn:Hst; [discriminate|].
    intros [= <-].
    rewrite (hash_artifact_streamed _ _ _ _ _ _ _ _ Hf Hget Hst).
    eexists. split; [reflexivity|]. simpl.
    rewrite lookup_insert_eq, delete_insert_eq. auto.
Qed.

Lemma verify_mismatch (s1 : state) (h : hasher) (content : list byte) :
  files s1 !! path = Some content ->
  Codec.b64encode (SHA512.sha512 h) <> pd_sha512_b64 pd ->
  verify_and_describe w pd url path h s1
  = (Raise (ValueError (Sha512Mismatch (pd_sha512_b64 pd)
                          (Codec.b64encode (SHA512.sha512 h)))),
     {| files := delete path (files s1); log := log s1 |}).
Proof.
  intros Hf Hne. unfold verify_and_describe, digest.
  apply String.eqb_neq in Hne. rewrite Hne. simpl.
  unfold bind, os_remove. now rewrite Hf.
Qed.

(** C2. When the bytes that get hashed (the cached file, or the complete
    body of the download) have a SHA-512 digest whose base64 form differs
    from the expected one, [download_package] returns [None], no file is left
    at the artifact's path, and the printed failure carries both digests. *)
Theorem mismatch_fails_and_removes_file (s : state) (bs : list byte) :
  mkdir w (default "npm_tgz" (download_dir cfg)) = None ->
  obtained_bytes urljoin w pd cfg s = Some bs ->
  Codec.b64encode (SHA512.sha512 bs) <> pd_sha512_b64 pd ->
  exists s',
    download_package urljoin w pd cfg s = (Ok None, s') /\
    files s' !! tgz_path_of pd cfg = None /\
    log s' = (log s ++
      [LogDownloadFailed (pd_name pd) (pd_version pd)
         (ValueError (Sha512Mismatch (pd_sha512_b64 pd)
                        (Codec.b64encode (SHA512.sha512 bs))))])%list.
Proof.
  intros Hmk Hob Hne.
  destruct (hash_artifact_obtained s bs Hob) as (s1 & Hrun & Hf & Hdel & Hlog).
  unfold download_package, path_mkdir. rewrite Hmk.
  unfold bind at 1, ret at 1, try_except, bind at 1.
  fold url path. rewrite Hrun.
  rewrite (verify_mismatch s1 bs bs Hf Hne).
  unfold bind, print, modify, ret. simpl.
  eexists. split; [reflexivity|]. simpl.
  rewrite lookup_delete_eq, Hlog. auto.
Qed.

(** C10. When the stream of the download breaks after the chunks received
    so far have been written, [download_package] returns [None] and the file
    with these chunks is still on disk: only the mismatch branch removes it. *)
Theorem broken_stream_leaves_partial_file (s : state) (status : Z)
    (text : string) (chunks : list (list byte)) (e : exn) :
  mkdir w (default "npm_tgz" (download_dir cfg)) = None ->
  files s !! tgz_path_of pd cfg = None ->
  http_get w (download_url_of urljoin pd cfg)
    = GetResponse status text chunks (Some e) ->
  is_error_status status = false ->
  exists s',
    download_package urljoin w pd cfg s = (Ok None, s') /\
    files s' !! tgz_path_of pd cfg = Some (concat chunks) /\
    log s' = (log s ++ [LogDownloadFailed (pd_name pd) (pd_version pd) e])%list.
Proof.
  intros Hmk Hf Hget Hst.
  unfold download_package, path_mkdir. rewrite Hmk.
  unfold bind at 1, ret at 1, try_except, bind at 1.
  rewrite (hash_artifact_streamed _ _ _ _ _ _ _ _ Hf Hget Hst).
  unfold bind, print, modify, ret. simpl.
  eexists. split; [reflexivity|]. simpl.
  rewrite lookup_insert_eq. auto.
Qed.

(** What a successful verification says about the entry it returns. *)
Lemma verify_success (h : hasher) (s1 s2 : state) (r : Meta.meta_entry) :
  verify_and_describe w pd url path h s1 = (Ok (Some r), s2) ->
  Codec.b64encode (SHA512.sha512 h) = pd_sha512_b64 pd /\
  Meta.sha512_hex r = Codec.hexencode (SHA512.sha512 h) /\
  (if contains "/" (pd_name pd)
   then split1 "/" (pd_name pd) = [Meta.group r; Meta.name r]
   else Meta.group r = "" /\ Meta.name r = pd_name pd) /\
  Meta.version r = pd_version pd /\
  Meta.nexus_search_name r = Meta.name r +:+ "-" +:+ pd_version pd /\
  Meta.download_url r = url /\
  Meta.local_path r = PosixPath.abspath (cwd w) path /\
  s2 = s1.
Proof.
  unfold verify_and_describe, digest, hexdigest.
  destruct (String.eqb_spec (Codec.b64encode (SHA512.sha512 h))
              (pd_sha512_b64 pd)) as [Heq|Hne]; simpl.
  - destruct (contains "/" (pd_name pd)).
    + destruct (split1 "/" (pd_name pd)) as [|g [|n [|x l]]];
        unfold bind, raise, ret; try discriminate.
      intros [= <- <-]. simpl. auto 10.
    + unfold bind, ret. intros [= <- <-]. simpl. auto 10.
  - unfold bind, os_remove, raise.
    destruct (files s1 !! path); discriminate.
Qed.

Lemma download_package_success (s s' : state) (r : Meta.meta_entry) :
  download_package urljoin w pd cfg s = (Ok (Some r), s') ->
  exists h s1,
    hash_artifact w url path s = (Ok h, s1) /\
    verify_and_describe w pd url path h s1 = (Ok (Some r), s').
Proof.
  unfold download_package, path_mkdir.
  destruct (mkdir w _); [discriminate|].
  unfold bind at 1, ret at 1, try_except, bind at 1. fold url path.
  destruct (hash_artifact w url path s) as [[h|e] s1].
  - destruct (verify_and_describe w pd url path h s1) as [[o|e] s2] eqn:Hv.
    + intros [= -> ->]. eauto.
    + unfold bind, print, modify, ret. discriminate.
  - unfold bind, print, modify, ret. discriminate.
Qed.

(** C4. On success, the expected hash (base64) and the returned
    [sha512_hex] (hexadecimal) decode to one and the same 64-byte digest. *)
Theorem verified_hex_is_expected_digest (s s' : state) (r : Meta.meta_entry) :
  download_package urljoin w pd cfg s = (Ok (Some r), s') ->
  exists d : list byte,
    length d = 64 /\
    Codec.b64decode (pd_sha512_b64 pd) = Some d /\
    Codec.hexdecode (Meta.sha512_hex r) = Some d.
Proof.
  intros Hrun.
  destruct (download_package_success _ _ _ Hrun) as (h & s1 & _ & Hv).
  destruct (verify_success _ _ _ _ Hv) as (Hb64 & Hhex & _).
  exists (SHA512.sha512 h). rewrite <- Hb64, Hhex.
  rewrite CodecFacts.b64decode_b64encode, CodecFacts.hexdecode_hexencode.
  auto using SHA512Facts.sha512_length.
Qed.
End Fetch.
End DownloadFacts.

(** ** The lockfile parser *)

Module ParserFacts.
Import PyStr Download.
Local Arguments String.append : simpl nomatch.

(** X27. When opening the lockfile raises [FileNotFoundError], loading it
    raises [JSONDecodeError], or the document is an object with no or an
    empty ['packages'], [parse_package_lock] returns the empty list without
    raising, after printing the line of that case; the three lines differ. *)
Theorem parse_failure_returns_empty (w : world) (lockfile_path : string)
    (s : state) (c : lock_failure) :
  answered w lockfile_path c ->
  parse_package_lock w lockfile_path s
  = (Ok [], {| files := files s;
               log := (log s ++ [LogParsing lockfile_path;
                                 diagnostic lockfile_path c])%list |}) /\
  forall c', diagnostic lockfile_path c' = diagnostic lockfile_path c -> c' = c.
Proof.
  intros Hc. split.
  - unfold parse_package_lock, bind, try_except, print, modify, ret, raise.
    destruct c; simpl in Hc.
    + destruct Hc as [p ->]. simpl. now rewrite <- app_assoc.
    + rewrite Hc. simpl. now rewrite <- app_assoc.
    + destruct Hc as (data & -> & [Hp|Hp]); rewrite Hp; simpl;
        now rewrite <- app_assoc.
  - intros c'. destruct c, c'; simpl; congruence.
Qed.

Lemma prefix_app (p s : string) :
  String.prefix p s = true -> exists r, s = p +:+ r.
Proof.
  revert s. induction p as [|a p IH]; intros s; cbn [String.prefix].
  - exists s. reflexivity.
  - destruct s as [|b s]; cbn [String.prefix]; [discriminate|].
    destruct (ascii_dec a b) as [<-|]; [|discriminate].
    intros H. destruct (IH _ H) as [r ->]. exists r. reflexivity.
Qed.

(** A text without a hyphen has no occurrence of the algorithm prefix. *)
Lemma replace_from_no_hyphen (h : string) :
  contains "-" h = false -> replace_from "sha512-" "" 0 h = h.
Proof.
  induction h as [|c h IH]; [reflexivity|].
  intros Hc. cbn [replace_from].
  destruct (String.prefix "sha512-" (String c h)) eqn:Hp.
  - destruct (prefix_app _ _ Hp) as [r Hr]. rewrite Hr in Hc.
    vm_compute in Hc. discriminate.
  - cbn [contains] in Hc. apply orb_false_iff in Hc as [_ Hc].
    now rewrite (IH Hc).
Qed.

Lemma prefix_self (p r : string) : String.prefix p (p +:+ r) = true.
Proof.
  induction p as [|a p IH]; [now destruct r|].
  change (String a p +:+ r) with (String a (p +:+ r)). cbn [String.prefix].
  destruct (ascii_dec a a); [exact IH | contradiction].
Qed.

Section Scoped.
Variables url h : string.
Hypothesis url_given : truthy url = true.
Hypothesis h_given : truthy h = true.
Hypothesis h_no_blank : contains " " h = false.
Hypothesis h_no_hyphen : contains "-" h = false.

Lemma integrity_token :
  List.find (fun s => startswith s "sha512-") (split " " ("sha512-" +:+ h))
  = Some ("sha512-" +:+ h).
Proof.
  rewrite PathFacts.split_no_sep.
  - cbn [List.find]. unfold startswith. now rewrite prefix_self.
  - exact h_no_blank.
Qed.

Lemma integrity_digest : replace "sha512-" "" ("sha512-" +:+ h) = h.
Proof.
  unfold replace. change (String.eqb "sha512-" "") with false. cbv iota.
  pose proof (prefix_self "sha512-" h) as Hp.
  change ("sha512-" +:+ h)
    with (String "s" (String "h" (String "a" (String "5" (String "1"
            (String "2" (String "-" h))))))) in *.
  cbn [replace_from]. rewrite Hp.
  change (String.length "sha512-" - 1) with 6. cbn [replace_from].
  change ("" +:+ replace_from "sha512-" "" 0 h)
    with (replace_from "sha512-" "" 0 h).
  now apply replace_from_no_hyphen.
Qed.

Lemma parse_item_scoped (s : state) :
  parse_item []
    ("node_modules/@scope/pkg",
     {| resolved := Some url;
        integrity := Some ("sha512-" +:+ h);
        version := Some "1.2.3" |}) s
  = (Ok [scoped_details url h], s).
Proof.
  unfold parse_item.
  change (truthy "node_modules/@scope/pkg") with true.
  change (slice_from (rfind "node_modules/" "node_modules/@scope/pkg"
                      + len "node_modules/") "node_modules/@scope/pkg")
    with "@scope/pkg".
  cbn [negb resolved integrity version val truthy_opt forallb].
  rewrite url_given.
  change (truthy ("sha512-" +:+ h)) with true.
  change (truthy "1.2.3") with true.
  change (truthy "@scope/pkg") with true.
  cbn [andb negb].
  rewrite integrity_token, integrity_digest.
  cbn [truthy_opt val]. rewrite h_given. reflexivity.
Qed.

Lemma parse_scoped_lock (w : world) (lockfile_path : string) (s : state) :
  json_load w lockfile_path = Loaded (scoped_lock url h) ->
  fst (parse_package_lock w lockfile_path s) = Ok [scoped_details url h].
Proof.
  intros Hload. unfold parse_package_lock, bind at 1, print, modify.
  unfold bind at 1, try_except. rewrite Hload. unfold ret at 1.
  cbn [packages scoped_lock for_fold].
  unfold bind at 1, bind at 1. rewrite parse_item_scoped.
  reflexivity.
Qed.

(** C3, amended. The lockfile with the one scoped package [@scope/pkg] at
    1.2.3 parses to one descriptor named [@scope/pkg]; a successful fetch of
    it returns group [@scope] (with its at sign), name [pkg], search key
    [pkg-1.2.3] and a local path whose file name is [@scope#pkg-1.2.3.tgz]. *)
Theorem scoped_package_scenario (urljoin : string -> string -> string)
    (w : world) (config : downloader_cfg) (lockfile_path : string) (s : state) :
  json_load w lockfile_path = Loaded (scoped_lock url h) ->
  fst (parse_package_lock w lockfile_path s) = Ok [scoped_details url h] /\
  forall s1 r,
    fst (download_package urljoin w (scoped_details url h) config s1)
      = Ok (Some r) ->
    Meta.group r = "@scope" /\
    Meta.name r = "pkg" /\
    Meta.nexus_search_name r = "pkg-1.2.3" /\
    PosixPath.basename (Meta.local_path r) = "@scope#pkg-1.2.3.tgz".
Proof.
  intros Hload. split; [now apply parse_scoped_lock|].
  intros s1 r Hrun.
  destruct (download_package urljoin w (scoped_details url h) config s1)
    as [o s2] eqn:E.
  simpl in Hrun. subst o.
  destruct (DownloadFacts.download_package_success _ _ _ _ _ _ _ E)
    as (hh & s3 & _ & Hv).
  destruct (DownloadFacts.verify_success _ _ _ _ _ _ _ _ Hv)
    as (_ & _ & Hsplit & _ & Hkey & _ & Hpath & _).
  change (contains "/" (pd_name (scoped_details url h))) with true in Hsplit.
  change (split1 "/" (pd_name (scoped_details url h)))
    with ["@scope"; "pkg"] in Hsplit.
  injection Hsplit as Hg Hn.
  rewrite Hkey, Hpath, <- Hg, <- Hn.
  repeat split; try reflexivity.
  change (tgz_path_of (scoped_details url h) config)
    with (PosixPath.join (default "npm_tgz" (download_dir config))
            "@scope#pkg-1.2.3.tgz").
  apply PathFacts.basename_abspath_join; [reflexivity | discriminate..].
Qed.
End Scoped.
End ParserFacts.

(** ** The remote repository client and the reconciliation *)

Module UploadFacts.
Import PyStr Upload.

Section Client.
Variable self : NexusUploader.
Variable w : remote.

(** *** The operations of the client, one by one *)

Lemma find_component_run (repo group name version : string) (s : state) :
  _find_component self w repo group name version s
  = (find_result self w repo group name version,
     {| trace := (trace s ++ find_calls self repo group name version)%list;
        log := (log s ++ find_log self w repo group name version)%list |}).
Proof.
  unfold find_result, find_log, find_calls, _find_component.
  unfold bind, try_except, record, print, modify, ret, raise. simpl.
  destruct (http_search w _ _) as [e|status text [data|]].
  - destruct e; simpl; try (now rewrite <- app_assoc).
    destruct (status =? 404)%Z; simpl; rewrite <- app_assoc; simpl;
      now rewrite ?app_nil_r.
  - destruct (is_error_status status); simpl.
    + destruct (status =? 404)%Z; simpl; rewrite <- app_assoc; simpl;
        now rewrite ?app_nil_r.
    + destruct (items data) as [[|first [|second rest]]|]; simpl;
        rewrite <- app_assoc; simpl; now rewrite ?app_nil_r.
  - destruct (is_error_status status); simpl.
    + destruct (status =? 404)%Z; simpl; rewrite <- app_assoc; simpl;
        now rewrite ?app_nil_r.
    + now rewrite <- app_assoc.
Qed.

(** Every exception of the search is caught inside [_find_component]. *)
Lemma find_never_raises (repo group name version : string) :
  exists o, find_result self w repo group name version = Ok o.
Proof.
  unfold find_result, _find_component.
  unfold bind, try_except, record, print, modify, ret, raise. simpl.
  destruct (http_search w _ _) as [e|status text [data|]].
  - destruct e; simpl; eauto. destruct (status =? 404)%Z; simpl; eauto.
  - destruct (is_error_status status); simpl.
    + destruct (status =? 404)%Z; simpl; eauto.
    + destruct (items data) as [[|first [|second rest]]|]; simpl; eauto.
  - destruct (is_error_status status); simpl; eauto.
    destruct (status =? 404)%Z; simpl; eauto.
Qed.

(** More than one item: the [ValueError] is raised, caught by the
    function's own handler and printed; the caller gets [None]. *)
Lemma find_not_unique (repo group name version : string) (status : Z)
    (text : string) (first second : component) (rest : list component) :
  http_search w (search_components_url self)
    {| p_repository := repo;
       p_name := name;
       p_version := version;
       p_group := if truthy group then replace "@" "" group else empty_group |}
  = SearchResponse status text
      (Some {| items := Some (first :: second :: rest) |}) ->
  is_error_status status = false ->
  find_result self w repo group name version = Ok None /\
  find_log self w repo group name version
  = [LogFindUnexpected repo (ValueError (NotUnique group name version))].
Proof.
  intros Hs Hst. unfold find_result, find_log, _find_component.
  unfold bind, try_except, record, print, modify, ret, raise. simpl.
  rewrite Hs, Hst. simpl. auto.
Qed.

Lemma delete_component_run (component_id : string) (s : state) :
  _delete_component self w component_id s
  = (Ok (bool_decide (failure (http_delete w (delete_url self component_id)) = None)),
     {| trace := (trace s ++ [CallDelete component_id;
                              HttpDelete (delete_url self component_id)])%list;
        log := (log s ++ [delete_line self w component_id])%list |}).
Proof.
  unfold _delete_component, checked, delete_line, delete_url.
  unfold bind, try_except, record, print, modify, ret, raise. simpl.
  destruct (failure _); simpl; now rewrite <- app_assoc.
Qed.

Lemma upload_package_run (package_meta : Meta.meta_entry) (s : state) :
  exists (b : bool) (lines : list event),
    _upload_package self w package_meta s
    = (Ok b,
       {| trace := (trace s ++ CallUpload package_meta
                            :: upload_requests self w package_meta)%list;
          log := (log s ++ lines)%list |}).
Proof.
  unfold _upload_package, upload_requests, checked.
  unfold bind, try_except, record, print, modify, ret, raise. simpl.
  destruct (os_path_exists w _); simpl.
  - destruct (failure _) as [e|]; simpl.
    + destruct e; simpl; do 2 eexists; rewrite <- !app_assoc; simpl;
        rewrite <- ?app_assoc; reflexivity.
    + do 2 eexists. rewrite <- !app_assoc. reflexivity.
  - do 2 eexists. reflexivity.
Qed.

(** *** The search loop *)

Lemma mutations_app (a b : list call) :
  mutations (a ++ b) = (mutations a ++ mutations b)%list.
Proof. apply List.filter_app. Qed.

Lemma write_requests_app (a b : list call) :
  write_requests (a ++ b) = (write_requests a ++ write_requests b)%list.
Proof. apply List.filter_app. Qed.

Lemma search_check_repos_run (repos : list string)
    (group name version local_sha512_hex : string) (s : state) :
  exists s' lines,
    search_check_repos self w repos group name version local_sha512_hex s
    = (Ok (first_found self w repos group name version,
           match first_found self w repos group name version with
           | Some c => bool_decide (_get_remote_sha512_hex c
                                    = Some local_sha512_hex)
           | None => false
           end), s') /\
    mutations (trace s') = mutations (trace s) /\
    write_requests (trace s') = write_requests (trace s) /\
    log s' = (log s ++ lines)%list.
Proof.
  revert s. induction repos as [|repo rest IH]; intros s.
  - exists s, []. cbn. now rewrite app_nil_r.
  - cbn [search_check_repos first_found]. unfold bind at 1.
    rewrite find_component_run.
    destruct (find_never_raises repo group name version) as [[c|] Ho];
      rewrite Ho.
    + unfold bind, print, modify, ret. simpl.
      destruct (bool_decide _); simpl; do 2 eexists;
        (split; [reflexivity|]); simpl; (split; [|split]);
        [ rewrite mutations_app; apply app_nil_r
        | rewrite write_requests_app; apply app_nil_r
        | rewrite <- !app_assoc; reflexivity
        | rewrite mutations_app; apply app_nil_r
        | rewrite write_requests_app; apply app_nil_r
        | rewrite <- !app_assoc; reflexivity ].
    + edestruct IH as (s' & lines & -> & Hm & Hr & Hl).
      exists s', (find_log self w repo group name version ++ lines)%list.
      split; [reflexivity|]. rewrite Hm, Hr, Hl. simpl.
      rewrite mutations_app, write_requests_app, <- !app_assoc.
      cbn. rewrite !app_nil_r. auto.
Qed.

(** *** The reconciliation of one entry follows the decision procedure *)

(** The last step: announce, then upload. *)
Lemma upload_step_run (package_meta : Meta.meta_entry) (s : state) :
  exists s' lines,
    bind (print (LogPreparing (upload_repo self)))
      (fun _ => bind (_upload_package self w package_meta)
                  (fun _ => ret tt)) s
    = (Ok tt, s') /\
    trace s' = (trace s ++ CallUpload package_meta
                        :: upload_requests self w package_meta)%list /\
    log s' = (log s ++ LogPreparing (upload_repo self) :: lines)%list.
Proof.
  unfold bind at 1, print, modify. unfold bind at 1.
  edestruct (upload_package_run package_meta) as (b & ls & ->).
  unfold ret. do 2 eexists. split; [reflexivity|]. simpl.
  split; [reflexivity|]. rewrite <- app_assoc. reflexivity.
Qed.

Lemma mutations_upload (package_meta : Meta.meta_entry) :
  mutations (CallUpload package_meta :: upload_requests self w package_meta)
  = [CallUpload package_meta].
Proof. unfold upload_requests. now destruct (os_path_exists w _). Qed.

Lemma write_requests_upload (package_meta : Meta.meta_entry) :
  write_requests (CallUpload package_meta
                    :: upload_requests self w package_meta)
  = upload_requests self w package_meta.
Proof. unfold upload_requests. now destruct (os_path_exists w _). Qed.

Lemma process_package_run (package_meta : Meta.meta_entry) (s : state) :
  let d := decide_action self w package_meta in
  exists s' before after,
    process_package self w package_meta s = (Ok tt, s') /\
    mutations (trace s')
    = (mutations (trace s) ++ planned_mutations package_meta d)%list /\
    write_requests (trace s')
    = (write_requests (trace s) ++ planned_requests self w package_meta d)%list /\
    log s' = (log s ++ before ++ planned_lines self w d ++ after)%list.
Proof.
  unfold process_package, decide_action.
  set (group := Meta.group package_meta).
  set (name := Meta.name package_meta).
  set (version := Meta.version package_meta).
  set (pkg_id := if truthy group then _ else _).
  unfold bind at 1, print at 1, modify. unfold bind at 1.
  edestruct (search_check_repos_run (check_repos self) group name version
               (Meta.sha512_hex package_meta))
    as (s1 & lines & -> & Hm & Hr & Hl).
  simpl in Hm, Hr, Hl.
  destruct (first_found self w (check_repos self) group name version)
    as [c|].
  - destruct (bool_decide _).
    + exists s1, (LogProcessing pkg_id :: lines), []. unfold ret. cbn.
      rewrite Hm, Hr, Hl, !app_nil_r, <- app_assoc. auto.
    + destruct (String.eqb (comp_repository c) (upload_repo self)).
      * unfold bind at 1. unfold bind at 1. unfold print at 1, modify.
        cbv beta iota. unfold bind at 1. rewrite delete_component_run.
        cbv beta iota. unfold ret at 1. cbv beta iota.
        match goal with
        | |- context [bind (print (LogPreparing _)) _ ?st] =>
            destruct (upload_step_run package_meta st)
              as (s2 & ls & Hrun & Ht & Hg)
        end.
        rewrite Hrun.
        exists s2, (LogProcessing pkg_id :: lines),
          (LogPreparing (upload_repo self) :: ls).
        split; [reflexivity|]. rewrite Ht, Hg. cbn.
        rewrite !mutations_app, !write_requests_app, Hm, Hr, Hl.
        rewrite mutations_upload, write_requests_upload. cbn.
        rewrite <- !app_assoc. cbn. auto.
      * unfold bind at 1. unfold bind at 1. unfold print at 1, modify.
        cbv beta iota. unfold print at 1, modify. cbv beta iota.
        match goal with
        | |- context [bind (print (LogPreparing _)) _ ?st] =>
            destruct (upload_step_run package_meta st)
              as (s2 & ls & Hrun & Ht & Hg)
        end.
        rewrite Hrun.
        exists s2, (LogProcessing pkg_id :: lines),
          (LogPreparing (upload_repo self) :: ls).
        split; [reflexivity|]. rewrite Ht, Hg. cbn.
        rewrite !mutations_app, !write_requests_app, Hm, Hr, Hl.
        rewrite mutations_upload, write_requests_upload. cbn.
        rewrite <- !app_assoc. cbn. auto.
  - unfold bind at 1, ret at 1. cbv beta iota.
    match goal with
    | |- context [bind (print (LogPreparing _)) _ ?st] =>
        destruct (upload_step_run package_meta st)
          as (s2 & ls & Hrun & Ht & Hg)
    end.
    rewrite Hrun.
    exists s2, (LogProcessing pkg_id :: lines),
      (LogPreparing (upload_repo self) :: ls).
    split; [reflexivity|]. rewrite Ht, Hg. cbn.
    rewrite !mutations_app, !write_requests_app, Hm, Hr, Hl.
    rewrite mutations_upload, write_requests_upload. cbn.
    rewrite <- !app_assoc. cbn. auto.
Qed.

Lemma reconcile_follows_decision (package_meta : Meta.meta_entry) :
  let run := process_package self w package_meta in
  let d := decide_action self w package_meta in
  result_of run = Ok tt /\
  mutations (calls_of run) = planned_mutations package_meta d /\
  write_requests (calls_of run) = planned_requests self w package_meta d /\
  exists before after,
    log_of run = (before ++ planned_lines self w d ++ after)%list.
Proof.
  destruct (process_package_run package_meta init_state)
    as (s' & before & after & Hrun & Hm & Hr & Hl).
  unfold result_of, calls_of, log_of. cbv zeta. rewrite Hrun. simpl.
  split; [reflexivity|]. split; [exact Hm|]. split; [exact Hr|].
  exists before, after. exact Hl.
Qed.

Section Found.
Variable package_meta : Meta.meta_entry.
Variable c : component.
Hypothesis first :
  first_found self w (check_repos self) (Meta.group package_meta)
    (Meta.name package_meta) (Meta.version package_meta) = Some c.

Lemma decide_skip :
  _get_remote_sha512_hex c = Some (Meta.sha512_hex package_meta) ->
  decide_action self w package_meta = Skip.
Proof.
  intros H. unfold decide_action. rewrite first.
  now rewrite bool_decide_eq_true_2.
Qed.

Lemma decide_replace :
  _get_remote_sha512_hex c <> Some (Meta.sha512_hex package_meta) ->
  comp_repository c = upload_repo self ->
  decide_action self w package_meta = ReplaceThenUpload (comp_id c).
Proof.
  intros H Hrepo. unfold decide_action. rewrite first.
  rewrite bool_decide_eq_false_2 by exact H.
  now rewrite Hrepo, String.eqb_refl.
Qed.

Lemma decide_beside :
  _get_remote_sha512_hex c <> Some (Meta.sha512_hex package_meta) ->
  comp_repository c <> upload_repo self ->
  decide_action self w package_meta = UploadBeside (comp_repository c).
Proof.
  intros H Hrepo. unfold decide_action. rewrite first.
  rewrite bool_decide_eq_false_2 by exact H.
  apply String.eqb_neq in Hrepo. now rewrite Hrepo.
Qed.

(** C5, amended. When the first component found, in the order of the check
    repositories, has the local digest, [process_package] calls neither
    delete nor upload. *)
Theorem first_found_match_skips :
  _get_remote_sha512_hex c = Some (Meta.sha512_hex package_meta) ->
  result_of (process_package self w package_meta) = Ok tt /\
  mutations (calls_of (process_package self w package_meta)) = [] /\
  write_requests (calls_of (process_package self w package_meta)) = [].
Proof.
  intros H.
  destruct (reconcile_follows_decision package_meta) as (Hres & Hm & Hr & _).
  rewrite (decide_skip H) in Hm, Hr. auto.
Qed.

(** C6. When the first component found has another digest and lies in the
    upload repository, [process_package] calls delete once, on that
    component's id, then upload once. *)
Theorem mismatch_in_upload_repo_replaces :
  _get_remote_sha512_hex c <> Some (Meta.sha512_hex package_meta) ->
  comp_repository c = upload_repo self ->
  result_of (process_package self w package_meta) = Ok tt /\
  mutations (calls_of (process_package self w package_meta))
  = [CallDelete (comp_id c); CallUpload package_meta] /\
  write_requests (calls_of (process_package self w package_meta))
  = HttpDelete (delete_url self (comp_id c))
      :: upload_requests self w package_meta.
Proof.
  intros H Hrepo.
  destruct (reconcile_follows_decision package_meta) as (Hres & Hm & Hr & _).
  rewrite (decide_replace H Hrepo) in Hm, Hr. auto.
Qed.

(** C7. When the first component found has another digest and lies in a
    repository other than the upload repository, [process_package] calls no
    delete, prints the duplication warning and calls upload once. *)
Theorem mismatch_elsewhere_uploads_without_delete :
  _get_remote_sha512_hex c <> Some (Meta.sha512_hex package_meta) ->
  comp_repository c <> upload_repo self ->
  result_of (process_package self w package_meta) = Ok tt /\
  mutations (calls_of (process_package self w package_meta))
  = [CallUpload package_meta] /\
  write_requests (calls_of (process_package self w package_meta))
  = upload_requests self w package_meta /\
  In LogDuplicateWarning (log_of (process_package self w package_meta)).
Proof.
  intros H Hrepo.
  destruct (reconcile_follows_decision package_meta)
    as (Hres & Hm & Hr & before & after & Hl).
  rewrite (decide_beside H Hrepo) in Hm, Hr, Hl.
  repeat split; auto.
  rewrite Hl. apply in_or_app. right. simpl. auto.
Qed.

(** C9. In the replace-then-upload case, a failing delete is printed and
    its result dropped: the one upload call still follows. *)
Theorem failed_delete_still_uploads (e : exn) :
  _get_remote_sha512_hex c <> Some (Meta.sha512_hex package_meta) ->
  comp_repository c = upload_repo self ->
  failure (http_delete w (delete_url self (comp_id c))) = Some e ->
  result_of (process_package self w package_meta) = Ok tt /\
  mutations (calls_of (process_package self w package_meta))
  = [CallDelete (comp_id c); CallUpload package_meta] /\
  In (LogDeleteFailed (comp_id c) e)
    (log_of (process_package self w package_meta)).
Proof.
  intros H Hrepo Hfail.
  destruct (reconcile_follows_decision package_meta)
    as (Hres & Hm & _ & before & after & Hl).
  rewrite (decide_replace H Hrepo) in Hm, Hl.
  repeat split; auto.
  rewrite Hl. apply in_or_app. right. simpl.
  unfold delete_line. rewrite Hfail. auto.
Qed.
End Found.
End Client.
End UploadFacts.

(** ** The theorems at concrete worlds *)

Module Checks.
Import Example.

(** *** The digest model agrees with the published test vector *)

Example sha512_abc :
  Codec.hexencode (SHA512.sha512 archive) = archive_hex /\
  Codec.b64encode (SHA512.sha512 archive) = archive_b64 /\
  Codec.hexencode (SHA512.sha512 []) = other_hex.
Proof. vm_compute. auto. Qed.

Example scoped_fetch :
  fst (Download.download_package urljoin
         (registry [list_byte_of_string "a"; list_byte_of_string "bc"] None)
         scoped cfg empty_disk)
  = Ok (Some scoped_entry).
Proof. vm_compute. reflexivity. Qed.

(** C2, at a registry that serves other bytes than the lockfile expects. *)
Lemma mismatch_fails_and_removes_file_witness :
  exists s',
    Download.download_package urljoin (registry [tampered] None) scoped cfg
      empty_disk = (Ok None, s') /\
    Download.files s' !! Download.tgz_path_of scoped cfg = None /\
    Download.log s' =
      (Download.log empty_disk ++
       [Download.LogDownloadFailed (Download.pd_name scoped)
          (Download.pd_version scoped)
          (ValueError (Sha512Mismatch (Download.pd_sha512_b64 scoped)
             (Codec.b64encode (SHA512.sha512 tampered))))])%list.
Proof.
  apply (DownloadFacts.mismatch_fails_and_removes_file urljoin
           (registry [tampered] None) scoped cfg empty_disk tampered).
  - reflexivity.
  - vm_compute. reflexivity.
  - vm_compute. discriminate.
Defined.

(** C10, at a registry whose stream breaks after the first chunk. *)
Lemma broken_stream_leaves_partial_file_witness :
  exists s',
    Download.download_package urljoin
      (registry [list_byte_of_string "a"] (Some RequestException))
      scoped cfg empty_disk = (Ok None, s') /\
    Download.files s' !! Download.tgz_path_of scoped cfg
      = Some (concat [list_byte_of_string "a"]) /\
    Download.log s' =
      (Download.log empty_disk ++
       [Download.LogDownloadFailed (Download.pd_name scoped)
          (Download.pd_version scoped) RequestException])%list.
Proof.
  apply (DownloadFacts.broken_stream_leaves_partial_file urljoin
           (registry [list_byte_of_string "a"] (Some RequestException))
           scoped cfg empty_disk 200 "").
  - reflexivity.
  - vm_compute. reflexivity.
  - reflexivity.
  - reflexivity.
Defined.

(** C4, at the successful fetch of [scoped]. *)
Lemma verified_hex_is_expected_digest_witness :
  exists d : list byte,
    length d = 64 /\
    Codec.b64decode (Download.pd_sha512_b64 scoped) = Some d /\
    Codec.hexdecode (Meta.sha512_hex scoped_entry) = Some d.
Proof.
  apply (DownloadFacts.verified_hex_is_expected_digest urljoin
           (registry [archive] None) scoped cfg empty_disk
           {| Download.files :=
                <[Download.tgz_path_of scoped cfg := archive]> ∅;
              Download.log := [] |}).
  vm_compute. reflexivity.
Defined.

(** C3 as documented fails: the group of the fetched entry keeps its
    at sign. *)
Lemma scoped_scenario_documented_fails :
  ~ Download.scoped_scenario_documented urljoin
      (registry [list_byte_of_string "a"; list_byte_of_string "bc"] None)
      cfg "package-lock.json" url archive_b64 empty_disk.
Proof.
  intros [_ H].
  destruct (H empty_disk scoped_entry scoped_fetch) as [Hgroup _].
  discriminate Hgroup.
Qed.

(** C3, amended, at the same registry. *)
Lemma scoped_package_scenario_witness :
  fst (Download.parse_package_lock (registry [archive] None)
         "package-lock.json" empty_disk)
    = Ok [Download.scoped_details url archive_b64] /\
  forall s1 r,
    fst (Download.download_package urljoin (registry [archive] None)
           (Download.scoped_details url archive_b64) cfg s1) = Ok (Some r) ->
    Meta.group r = "@scope" /\
    Meta.name r = "pkg" /\
    Meta.nexus_search_name r = "pkg-1.2.3" /\
    PosixPath.basename (Meta.local_path r) = "@scope#pkg-1.2.3.tgz".
Proof.
  apply (ParserFacts.scoped_package_scenario url archive_b64);
    reflexivity.
Defined.

(** X27, at the three kinds of unusable lockfile. *)
Lemma parse_failure_returns_empty_witness :
  Download.parse_package_lock broken_locks "package-lock.json" empty_disk
  = (Ok [],
     {| Download.files := ∅;
        Download.log :=
          [Download.LogParsing "package-lock.json";
           Download.LogLockfileNotFound "package-lock.json"] |}) /\
  Download.parse_package_lock broken_locks "malformed.json" empty_disk
  = (Ok [],
     {| Download.files := ∅;
        Download.log :=
          [Download.LogParsing "malformed.json";
           Download.LogLockfileBadFormat "malformed.json"] |}) /\
  Download.parse_package_lock broken_locks "v1.json" empty_disk
  = (Ok [],
     {| Download.files := ∅;
        Download.log :=
          [Download.LogParsing "v1.json"; Download.LogPackagesEmpty] |}).
Proof.
  split; [|split].
  - refine (proj1 (ParserFacts.parse_failure_returns_empty broken_locks
                     "package-lock.json" empty_disk Download.Absent _)).
    simpl. eauto.
  - refine (proj1 (ParserFacts.parse_failure_returns_empty broken_locks
                     "malformed.json" empty_disk Download.Malformed _)).
    reflexivity.
  - refine (proj1 (ParserFacts.parse_failure_returns_empty broken_locks
                     "v1.json" empty_disk Download.NoPackages _)).
    simpl. eauto.
Defined.

(** C8: a lockfile that is not valid JSON because its bytes are not UTF-8
    text (one saved as UTF-16, say) is not answered with the empty list:
    [UnicodeDecodeError] has no [except] clause and leaves
    [parse_package_lock]. Nor is a document without ['packages'] that is
    an array: [data.get], after the [try], raises [AttributeError]. In
    both runs the first line is all that has been printed. *)
Theorem undecodable_lockfile_raises :
  Download.fails_with utf16_lock "package-lock.json" Download.Malformed /\
  Download.parse_package_lock utf16_lock "package-lock.json" empty_disk
  = (Raise UnicodeDecodeError,
     {| Download.files := ∅;
        Download.log := [Download.LogParsing "package-lock.json"] |}) /\
  Download.fails_with array_lock "package-lock.json" Download.NoPackages /\
  Download.parse_package_lock array_lock "package-lock.json" empty_disk
  = (Raise AttributeError,
     {| Download.files := ∅;
        Download.log := [Download.LogParsing "package-lock.json"] |}).
Proof.
  split; [|split; [|split]].
  - right. reflexivity.
  - reflexivity.
  - left. reflexivity.
  - reflexivity.
Qed.

(** *** Reconciliation *)

(** C1: two items for one name and version. The error is raised and
    caught inside the search; the caller sees an absent component and the
    package is uploaded. *)
Theorem non_unique_search_reported_absent :
  Upload.find_result uploader (hosted_only [stale_hosted; fresh_hosted])
    "npm-hosted" "" "left-pad" "1.3.0" = Ok None /\
  Upload.find_log uploader (hosted_only [stale_hosted; fresh_hosted])
    "npm-hosted" "" "left-pad" "1.3.0"
  = [Upload.LogFindUnexpected "npm-hosted"
       (ValueError (NotUnique "" "left-pad" "1.3.0"))] /\
  Upload.result_of
    (Upload.process_all uploader (hosted_only [stale_hosted; fresh_hosted])
       [entry]) = Ok tt /\
  Upload.mutations
    (Upload.calls_of
       (Upload.process_all uploader (hosted_only [stale_hosted; fresh_hosted])
          [entry])) = [Upload.CallUpload entry] /\
  ~ In (Upload.LogSevere "left-pad"
          (ValueError (NotUnique "" "left-pad" "1.3.0")))
      (Upload.log_of
         (Upload.process_all uploader
            (hosted_only [stale_hosted; fresh_hosted]) [entry])).
Proof.
  split; [|split; [|split; [|split]]]; try (vm_compute; reflexivity).
  vm_compute. intuition discriminate.
Qed.

(** C5 as documented fails: the stale copy found first is replaced although
    the second repository holds a matching one. *)
Lemma skip_documented_fails :
  ~ Upload.skip_documented uploader stale_then_fresh entry.
Proof.
  intros H.
  assert (Hsome : exists repo c,
             In repo (Upload.check_repos uploader) /\
             Upload.find_result uploader stale_then_fresh repo
               (Meta.group entry) (Meta.name entry) (Meta.version entry)
             = Ok (Some c) /\
             Upload._get_remote_sha512_hex c = Some (Meta.sha512_hex entry)).
  { exists "npm-proxy", fresh_proxy. split; [|split].
    - simpl. auto.
    - vm_compute. reflexivity.
    - reflexivity. }
  specialize (H Hsome). vm_compute in H. discriminate H.
Qed.

(** C5, amended, at a store whose first copy found matches. *)
Lemma first_found_match_skips_witness :
  Upload.result_of (Upload.process_package uploader
                      (hosted_only [fresh_hosted]) entry) = Ok tt /\
  Upload.mutations
    (Upload.calls_of (Upload.process_package uploader
                        (hosted_only [fresh_hosted]) entry)) = [] /\
  Upload.write_requests
    (Upload.calls_of (Upload.process_package uploader
                        (hosted_only [fresh_hosted]) entry)) = [].
Proof.
  apply (UploadFacts.first_found_match_skips uploader
           (hosted_only [fresh_hosted]) entry fresh_hosted);
    vm_compute; reflexivity.
Defined.

(** C6, at a store whose upload repository holds a stale copy. *)
Lemma mismatch_in_upload_repo_replaces_witness :
  Upload.result_of (Upload.process_package uploader
                      (hosted_only [stale_hosted]) entry) = Ok tt /\
  Upload.mutations
    (Upload.calls_of (Upload.process_package uploader
                        (hosted_only [stale_hosted]) entry))
  = [Upload.CallDelete (Upload.comp_id stale_hosted); Upload.CallUpload entry] /\
  Upload.write_requests
    (Upload.calls_of (Upload.process_package uploader
                        (hosted_only [stale_hosted]) entry))
  = Upload.HttpDelete (Upload.delete_url uploader (Upload.comp_id stale_hosted))
      :: Upload.upload_requests uploader (hosted_only [stale_hosted]) entry.
Proof.
  apply (UploadFacts.mismatch_in_upload_repo_replaces uploader
           (hosted_only [stale_hosted]) entry stale_hosted).
  - vm_compute. reflexivity.
  - vm_compute. discriminate.
  - reflexivity.
Defined.

(** C7, at a store whose proxy repository holds a stale copy. *)
Lemma mismatch_elsewhere_uploads_without_delete_witness :
  Upload.result_of (Upload.process_package uploader
                      (proxy_only [stale_proxy]) entry) = Ok tt /\
  Upload.mutations
    (Upload.calls_of (Upload.process_package uploader
                        (proxy_only [stale_proxy]) entry))
  = [Upload.CallUpload entry] /\
  Upload.write_requests
    (Upload.calls_of (Upload.process_package uploader
                        (proxy_only [stale_proxy]) entry))
  = Upload.upload_requests uploader (proxy_only [stale_proxy]) entry /\
  In Upload.LogDuplicateWarning
    (Upload.log_of (Upload.process_package uploader
                      (proxy_only [stale_proxy]) entry)).
Proof.
  apply (UploadFacts.mismatch_elsewhere_uploads_without_delete uploader
           (proxy_only [stale_proxy]) entry stale_proxy).
  - vm_compute. reflexivity.
  - vm_compute. discriminate.
  - vm_compute. discriminate.
Defined.

(** C9, at a store that answers the delete with a server error. *)
Lemma failed_delete_still_uploads_witness :
  Upload.result_of (Upload.process_package uploader refusing_delete entry)
  = Ok tt /\
  Upload.mutations
    (Upload.calls_of (Upload.process_package uploader refusing_delete entry))
  = [Upload.CallDelete (Upload.comp_id stale_hosted); Upload.CallUpload entry] /\
  In (Upload.LogDeleteFailed (Upload.comp_id stale_hosted)
        (HTTPError 500 "Internal Server Error"))
    (Upload.log_of (Upload.process_package uploader refusing_delete entry)).
Proof.
  refine (UploadFacts.failed_delete_still_uploads uploader refusing_delete
            entry stale_hosted _ (HTTPError 500 "Internal Server Error")
            _ _ _).
  - vm_compute. reflexivity.
  - vm_compute. discriminate.
  - reflexivity.
  - reflexivity.
Defined.
End Checks.

(** ** The archive fetcher, beyond the integrity check *)

Module FetcherFacts.
Import PyStr Download Fetcher.
Local Arguments String.append : simpl nomatch.

(** *** Strings *)

Lemma split1_first (g n : string) :
  contains "/" g = false -> split1 "/" (g +:+ "/" +:+ n) = [g; n].
Proof.
  induction g as [|c g IH]; intros H.
  - reflexivity.
  - cbn [contains] in H. apply orb_false_iff in H as [Hc Hg].
    change (String c g +:+ "/" +:+ n) with (String c (g +:+ "/" +:+ n)).
    cbn [split1]. rewrite Ascii.eqb_sym, Hc, (IH Hg). reflexivity.
Qed.

Lemma contains_app (c : ascii) (a b : string) :
  contains c (a +:+ b) = contains c a || contains c b.
Proof.
  induction a as [|x a IH]; [reflexivity|].
  change (String x a +:+ b) with (String x (a +:+ b)). cbn [contains].
  now rewrite IH, orb_assoc.
Qed.

Lemma split1_pair (name : string) :
  contains "/" name = true ->
  exists g n, split1 "/" name = [g; n] /\ name = g +:+ "/" +:+ n /\
              contains "/" g = false.
Proof.
  induction name as [|c name IH]; [discriminate|].
  cbn [contains split1]. rewrite Ascii.eqb_sym.
  destruct (Ascii.eqb_spec c "/") as [->|Hc].
  - intros _. exists "", name. auto.
  - simpl. intros H. destruct (IH H) as (g & n & -> & -> & Hg).
    exists (String c g), n. repeat split. cbn [contains].
    rewrite Hg, orb_false_r. apply Ascii.eqb_neq. congruence.
Qed.

Lemma prefix_empty (s : string) : String.prefix "" s = true.
Proof. now destruct s. Qed.

(** Replacing one character by another goes character by character. *)
Lemma replace_char_cons (a b c : ascii) (s : string) :
  replace (String a "") (String b "") (String c s)
  = String (if Ascii.eqb a c then b else c)
      (replace (String a "") (String b "") s).
Proof.
  unfold replace. change (String.eqb (String a "") "") with false. cbv iota.
  cbn [replace_from String.prefix].
  destruct (ascii_dec a c) as [->|Hne].
  - rewrite prefix_empty, Ascii.eqb_refl. reflexivity.
  - apply Ascii.eqb_neq in Hne. now rewrite Hne.
Qed.

Lemma replace_char_removes (a b : ascii) (s : string) :
  a <> b -> contains a (replace (String a "") (String b "") s) = false.
Proof.
  intros Hab. induction s as [|c s IH]; [reflexivity|].
  rewrite replace_char_cons. cbn [contains]. rewrite IH, orb_false_r.
  destruct (Ascii.eqb_spec a c) as [->|Hc]; apply Ascii.eqb_neq; congruence.
Qed.

Lemma replace_char_keeps_absent (a b x : ascii) (s : string) :
  x <> b -> contains x s = false ->
  contains x (replace (String a "") (String b "") s) = false.
Proof.
  intros Hxb. induction s as [|c s IH]; [reflexivity|].
  cbn [contains]. intros H. apply orb_false_iff in H as [Hc Hs].
  rewrite replace_char_cons. cbn [contains]. rewrite (IH Hs), orb_false_r.
  destruct (Ascii.eqb a c); [apply Ascii.eqb_neq; congruence | exact Hc].
Qed.

Lemma length_sapp (a b : string) :
  String.length (a +:+ b) = String.length a + String.length b.
Proof.
  induction a as [|c a IH]; [reflexivity|].
  change (String c a +:+ b) with (String c (a +:+ b)). simpl. now rewrite IH.
Qed.

(** *** The two halves of [download_package], in every outcome *)

Lemma hash_artifact_refused (w : world) (url path : string) (s : state)
    (e : exn) :
  files s !! path = None ->
  request_error (http_get w url) = Some e ->
  hash_artifact w url path s = (Raise e, s).
Proof.
  intros Hf He. unfold hash_artifact, bind at 1, os_path_exists.
  rewrite Hf. rewrite bool_decide_eq_false_2 by (intros [? ?]; discriminate).
  unfold download_to, request_error in *.
  destruct (http_get w url) as [e'|status text chunks broken].
  - now injection He as ->.
  - destruct (is_error_status status); [|discriminate].
    now injection He as <-.
Qed.

Lemma hash_artifact_frame (w : world) (url path : string) (s s1 : state)
    (o : outcome hasher) :
  hash_artifact w url path s = (o, s1) ->
  log s1 = log s /\
  (forall p, p <> path -> files s1 !! p = files s !! p) /\
  (forall h, o = Ok h -> files s1 !! path = Some h).
Proof.
  destruct (files s !! path) as [content|] eqn:Hf.
  - rewrite (DownloadFacts.hash_artifact_cached _ _ _ _ _ Hf).
    intros [= <- <-]. repeat split; auto. now intros h [= <-].
  - destruct (request_error (http_get w url)) as [e|] eqn:He.
    + rewrite (hash_artifact_refused _ _ _ _ _ Hf He).
      intros [= <- <-]. repeat split; auto. discriminate.
    + unfold request_error in He.
      destruct (http_get w url) as [|status text chunks broken] eqn:Hget;
        [discriminate|].
      destruct (is_error_status status) eqn:Hst; [discriminate|].
      rewrite (DownloadFacts.hash_artifact_streamed _ _ _ _ _ _ _ _
                 Hf Hget Hst).
      intros [= <- <-]. simpl. repeat split.
      * intros p Hp. now rewrite lookup_insert_ne.
      * intros h Ho. rewrite lookup_insert_eq.
        destruct broken; [discriminate|]. now injection Ho as <-.
Qed.

Lemma verify_frame (w : world) (pd : package_details) (url path : string)
    (h : hasher) (s1 s2 : state) (o : outcome (option Meta.meta_entry)) :
  verify_and_describe w pd url path h s1 = (o, s2) ->
  log s2 = log s1 /\
  (forall p, p <> path -> files s2 !! p = files s1 !! p) /\
  (forall r, o = Ok (Some r) -> s2 = s1).
Proof.
  unfold verify_and_describe.
  destruct (negb _).
  - unfold bind, os_remove, raise. destruct (files s1 !! path).
    + intros [= <- <-]. simpl. repeat split; [|discriminate].
      intros p Hp. now rewrite lookup_delete_ne.
    + intros [= <- <-]. repeat split; auto.
  - destruct (contains "/" (pd_name pd)).
    + destruct (split1 "/" (pd_name pd)) as [|g [|n [|x l]]];
        unfold bind, raise, ret; intros [= <- <-]; repeat split; auto.
    + unfold bind, ret. intros [= <- <-]. repeat split; auto.
Qed.

(** A matching digest always yields an entry: the unpacking of the split
    name cannot fail. *)
Lemma verify_match (w : world) (pd : package_details) (url path : string)
    (h : hasher) (s1 : state) :
  Codec.b64encode (SHA512.sha512 h) = pd_sha512_b64 pd ->
  exists r, verify_and_describe w pd url path h s1 = (Ok (Some r), s1).
Proof.
  intros Heq. unfold verify_and_describe, digest. rewrite Heq, String.eqb_refl.
  simpl. destruct (contains "/" (pd_name pd)) eqn:Hc.
  - destruct (split1_pair _ Hc) as (g & n & -> & _). unfold bind, ret. eauto.
  - unfold bind, ret. eauto.
Qed.

Section Fetch.
Variable urljoin : string -> string -> string.
Variable w : world.
Variable pd : package_details.
Variable cfg : downloader_cfg.

Let url := download_url_of urljoin pd cfg.
Let path := tgz_path_of pd cfg.
Let dir := default "npm_tgz" (download_dir cfg).

Lemma download_package_body (s : state) :
  mkdir w dir = None ->
  download_package urljoin w pd cfg s
  = try_except
      (bind (hash_artifact w url path)
            (verify_and_describe w pd url path))
      (fun e => bind (print (LogDownloadFailed (pd_name pd) (pd_version pd) e))
                  (fun _ => ret None)) s.
Proof.
  intros Hmk. unfold download_package, path_mkdir. fold dir. rewrite Hmk.
  reflexivity.
Qed.

(** X6. A download directory that cannot be created makes [download_package]
    raise: [mkdir] runs before the [try], so its exception is not turned
    into [None] by the handler, nothing is printed and no file is touched.
    Stated for the resolved URL, where nothing calls [urljoin] before. *)
Theorem failed_mkdir_escapes_the_handler (s : state) (e : exn) :
  negb (default true (use_resolved_url cfg))
    && truthy_opt (mirror_registry cfg) = false ->
  mkdir w (default "npm_tgz" (download_dir cfg)) = Some e ->
  download_package urljoin w pd cfg s = (Raise e, s).
Proof.
  intros _ Hmk. unfold download_package, path_mkdir, bind.
  rewrite Hmk. reflexivity.
Qed.

(** X7. [download_package] never changes a file other than the artifact's own,
    whatever the outcome. *)
Theorem other_files_untouched (s s' : state)
    (o : outcome (option Meta.meta_entry)) (p : string) :
  download_package urljoin w pd cfg s = (o, s') ->
  p <> tgz_path_of pd cfg ->
  files s' !! p = files s !! p.
Proof.
  intros Hrun Hp. destruct (mkdir w dir) as [e|] eqn:Hmk.
  - unfold download_package, path_mkdir in Hrun. fold dir in Hrun.
    rewrite Hmk in Hrun. now injection Hrun as _ <-.
  - rewrite (download_package_body s Hmk) in Hrun.
    unfold try_except, bind at 1 in Hrun.
    destruct (hash_artifact w url path s) as [[h|e] s1] eqn:Hh;
      destruct (hash_artifact_frame _ _ _ _ _ _ Hh) as (_ & Hf1 & _).
    + destruct (verify_and_describe w pd url path h s1) as [[r|e] s2] eqn:Hv;
        destruct (verify_frame _ _ _ _ _ _ _ _ Hv) as (_ & Hf2 & _).
      * injection Hrun as _ <-. now rewrite Hf2, Hf1.
      * unfold bind, print, modify, ret in Hrun. injection Hrun as _ <-.
        simpl. now rewrite Hf2, Hf1.
    + unfold bind, print, modify, ret in Hrun. injection Hrun as _ <-.
      simpl. now rewrite Hf1.
Qed.

(** X3. Whenever [download_package] returns an entry, the file at the artifact's
    path exists, its SHA-512 is the expected digest in base64 and the
    entry's [sha512_hex] in hexadecimal, and nothing was printed. *)
Theorem success_leaves_verified_file (s s' : state) (r : Meta.meta_entry) :
  download_package urljoin w pd cfg s = (Ok (Some r), s') ->
  exists content,
    files s' !! tgz_path_of pd cfg = Some content /\
    Codec.b64encode (SHA512.sha512 content) = pd_sha512_b64 pd /\
    Codec.hexencode (SHA512.sha512 content) = Meta.sha512_hex r /\
    log s' = log s.
Proof.
  intros Hrun.
  destruct (DownloadFacts.download_package_success _ _ _ _ _ _ _ Hrun)
    as (h & s1 & Hh & Hv).
  destruct (hash_artifact_frame _ _ _ _ _ _ Hh) as (Hl & _ & Hfile).
  destruct (DownloadFacts.verify_success _ _ _ _ _ _ _ _ Hv)
    as (Hb64 & Hhex & _ & _ & _ & _ & _ & ->).
  exists h. split; [exact (Hfile h eq_refl) | auto].
Qed.

(** X2. A cached file whose digest is the expected one is reused: the entry is
    returned, disk and log are left as they were, and the network plays no
    part (the same result in any other world with the same current
    directory), so a second fetch returns the same entry. *)
Theorem cached_verified_file_is_reused (w' : world) (s : state)
    (content : list byte) :
  cwd w' = cwd w ->
  mkdir w (default "npm_tgz" (download_dir cfg)) = None ->
  mkdir w' (default "npm_tgz" (download_dir cfg)) = None ->
  files s !! tgz_path_of pd cfg = Some content ->
  Codec.b64encode (SHA512.sha512 content) = pd_sha512_b64 pd ->
  exists r,
    download_package urljoin w pd cfg s = (Ok (Some r), s) /\
    download_package urljoin w' pd cfg s = (Ok (Some r), s) /\
    Meta.sha512_hex r = Codec.hexencode (SHA512.sha512 content).
Proof.
  intros Hcwd Hmk Hmk' Hf Heq.
  destruct (verify_match w pd url path content s Heq) as [r Hv].
  exists r.
  assert (Hv' : verify_and_describe w' pd url path content s
                = (Ok (Some r), s)).
  { revert Hv. unfold verify_and_describe. now rewrite Hcwd. }
  split; [|split].
  - rewrite (download_package_body s Hmk). unfold try_except, bind.
    rewrite (DownloadFacts.hash_artifact_cached _ _ _ _ _ Hf). now rewrite Hv.
  - unfold download_package, path_mkdir. rewrite Hmk'.
    unfold bind at 1, ret at 1, try_except, bind. fold url path.
    rewrite (DownloadFacts.hash_artifact_cached _ _ _ _ _ Hf). now rewrite Hv'.
  - now destruct (DownloadFacts.verify_success _ _ _ _ _ _ _ _ Hv)
      as (_ & -> & _).
Qed.

(** X4. When nothing is cached and the request raises, or answers with an error
    status, [download_package] returns [None], creates no file and prints
    the exception. *)
Theorem refused_request_leaves_disk_unchanged (s : state) (e : exn) :
  mkdir w (default "npm_tgz" (download_dir cfg)) = None ->
  files s !! tgz_path_of pd cfg = None ->
  request_error (http_get w (download_url_of urljoin pd cfg)) = Some e ->
  download_package urljoin w pd cfg s
  = (Ok None,
     {| files := files s;
        log := (log s ++ [LogDownloadFailed (pd_name pd) (pd_version pd) e])%list |}).
Proof.
  intros Hmk Hf He. rewrite (download_package_body s Hmk).
  unfold try_except, bind at 1.
  now rewrite (hash_artifact_refused w url path s e Hf He).
Qed.

(** X8. The entry of a fetched package splits the name at its first slash: the
    part before it is the group, the rest is the name; a name without slash
    has the empty group; the search key is name, hyphen, version. *)
Theorem name_splits_at_first_slash (s s' : state) (r : Meta.meta_entry) :
  download_package urljoin w pd cfg s = (Ok (Some r), s') ->
  (forall g n, pd_name pd = g +:+ "/" +:+ n -> contains "/" g = false ->
               Meta.group r = g /\ Meta.name r = n) /\
  (contains "/" (pd_name pd) = false ->
   Meta.group r = "" /\ Meta.name r = pd_name pd) /\
  Meta.version r = pd_version pd /\
  Meta.nexus_search_name r = Meta.name r +:+ "-" +:+ pd_version pd.
Proof.
  intros Hrun.
  destruct (DownloadFacts.download_package_success _ _ _ _ _ _ _ Hrun)
    as (h & s1 & _ & Hv).
  destruct (DownloadFacts.verify_success _ _ _ _ _ _ _ _ Hv)
    as (_ & _ & Hsplit & Hver & Hkey & _).
  repeat split; auto.
  - destruct (contains "/" (pd_name pd)) eqn:Hc.
    + rewrite H, split1_first in Hsplit by assumption. congruence.
    + rewrite H, contains_app in Hc. cbn in Hc.
      rewrite orb_true_r in Hc. discriminate.
  - destruct (contains "/" (pd_name pd)) eqn:Hc.
    + rewrite H, split1_first in Hsplit by assumption. congruence.
    + rewrite H, contains_app in Hc. cbn in Hc.
      rewrite orb_true_r in Hc. discriminate.
  - rewrite H in Hsplit. tauto.
  - rewrite H in Hsplit. tauto.
Qed.

Lemma flat_name_no_slash :
  contains "/" (pd_version pd) = false -> contains "/" (flat_name pd) = false.
Proof.
  intros Hv. unfold flat_name. rewrite !contains_app, Hv.
  rewrite replace_char_keeps_absent; [reflexivity | discriminate |].
  apply replace_char_removes. discriminate.
Qed.

Lemma flat_name_long : 4 <= String.length (flat_name pd).
Proof. unfold flat_name. rewrite !length_sapp. simpl. lia. Qed.

(** X9. For a version without slash, the file name of a fetched package has no
    slash either (slashes and backslashes of the name become [#]), the file
    lies directly in the download directory, and the entry's local path ends
    in that file name. *)
Theorem stored_under_flat_name (s s' : state) (r : Meta.meta_entry) :
  contains "/" (pd_version pd) = false ->
  download_package urljoin w pd cfg s = (Ok (Some r), s') ->
  contains "/" (flat_name pd) = false /\
  tgz_path_of pd cfg
  = PosixPath.join (default "npm_tgz" (download_dir cfg)) (flat_name pd) /\
  PosixPath.basename (Meta.local_path r) = flat_name pd.
Proof.
  intros Hver Hrun.
  destruct (DownloadFacts.download_package_success _ _ _ _ _ _ _ Hrun)
    as (h & s1 & _ & Hv).
  destruct (DownloadFacts.verify_success _ _ _ _ _ _ _ _ Hv)
    as (_ & _ & _ & _ & _ & _ & Hpath & _).
  pose proof flat_name_long as Hlen.
  split; [now apply flat_name_no_slash|]. split; [reflexivity|].
  rewrite Hpath.
  apply PathFacts.basename_abspath_join.
  - now apply flat_name_no_slash.
  - intros E. rewrite E in Hlen. simpl in Hlen. lia.
  - intros E. rewrite E in Hlen. simpl in Hlen. lia.
  - intros E. rewrite E in Hlen. simpl in Hlen. lia.
Qed.

(** X10. With [use_resolved_url] off and a mirror configured, the URL of a scoped
    package [g/n] is the mirror joined with [g/n/-/n-version.tgz]: the file
    name uses the part after the last slash only. *)
Theorem mirror_url_uses_unscoped_tail (m g n : string) :
  use_resolved_url cfg = Some false ->
  mirror_registry cfg = Some m ->
  truthy m = true ->
  pd_name pd = g +:+ "/" +:+ n ->
  contains "/" n = false ->
  download_url_of urljoin pd cfg
  = urljoin m (g +:+ "/" +:+ n +:+ "/-/" +:+ n +:+ "-" +:+ pd_version pd
               +:+ ".tgz").
Proof.
  intros Hu Hm Ht Hname Hn. unfold download_url_of.
  rewrite Hu, Hm. cbn [default negb andb truthy_opt val]. rewrite Ht, Hname.
  change ("/" +:+ n) with (String "/" n).
  rewrite PathFacts.split_app, (PathFacts.split_no_sep _ _ Hn), last_last.
  now rewrite !PathFacts.sapp_assoc.
Qed.


(** X5. After a download interrupted in mid stream, the next fetch of the same
    package fails as well, whatever the network then answers: it takes the
    partial file for a cached one, finds its digest wrong and removes it.
    Only then is the disk as before the first attempt. *)
Theorem interrupted_download_fails_the_next_fetch_too (w2 : world) (s : state)
    (status : Z) (text : string) (chunks : list (list byte)) (e : exn) :
  mkdir w (default "npm_tgz" (download_dir cfg)) = None ->
  mkdir w2 (default "npm_tgz" (download_dir cfg)) = None ->
  files s !! tgz_path_of pd cfg = None ->
  http_get w (download_url_of urljoin pd cfg)
    = GetResponse status text chunks (Some e) ->
  is_error_status status = false ->
  Codec.b64encode (SHA512.sha512 (concat chunks)) <> pd_sha512_b64 pd ->
  exists s1 s2,
    download_package urljoin w pd cfg s = (Ok None, s1) /\
    download_package urljoin w2 pd cfg s1 = (Ok None, s2) /\
    files s2 = files s.
Proof.
  intros Hmk Hmk2 Hf Hget Hst Hne.
  set (s1 := {| files := <[path := concat chunks]> (files s);
                log := (log s ++ [LogDownloadFailed (pd_name pd)
                                    (pd_version pd) e])%list |}).
  assert (Hf1 : files s1 !! path = Some (concat chunks))
    by apply lookup_insert_eq.
  exists s1. eexists. split; [|split].
  - rewrite (download_package_body s Hmk). unfold try_except, bind at 1.
    rewrite (DownloadFacts.hash_artifact_streamed w url path s status text
               chunks (Some e) Hf Hget Hst).
    reflexivity.
  - unfold download_package, path_mkdir. rewrite Hmk2.
    unfold bind at 1, ret at 1, try_except, bind at 1. fold url path.
    rewrite (DownloadFacts.hash_artifact_cached _ _ _ _ _ Hf1).
    pose proof (DownloadFacts.verify_mismatch urljoin w2 pd cfg s1
                  (concat chunks) (concat chunks) Hf1 Hne) as Hv.
    fold url path in Hv. rewrite Hv. reflexivity.
  - simpl. rewrite delete_insert_eq. apply delete_id. exact Hf.
Qed.
End Fetch.
End FetcherFacts.

(** ** The lockfile parser, entry by entry *)

Module LockFacts.
Import PyStr Download Fetcher.
Local Arguments String.append : simpl nomatch.

(** *** One entry of the lockfile *)

Section Item.
Variable acc : list package_details.
Variable path : string.
Variable e : lock_entry.
Variable s : state.

(** The entry is dropped, with a line, when a field or the name is empty. *)
Lemma parse_item_invalid :
  truthy path = true ->
  truthy_opt (resolved e) && truthy_opt (integrity e)
  && truthy_opt (version e) && truthy (derived_name path) = false ->
  parse_item acc (path, e) s
  = (Ok acc, {| files := files s;
                log := (log s ++ [LogSkipInvalid path])%list |}).
Proof.
  intros Hp Hall. unfold parse_item. rewrite Hp. cbn [negb forallb].
  fold (derived_name path).
  rewrite andb_true_r, !andb_assoc, Hall. reflexivity.
Qed.

Lemma parse_item_checked (url i v : string) :
  truthy path = true ->
  resolved e = Some url -> integrity e = Some i -> version e = Some v ->
  truthy url = true -> truthy i = true -> truthy v = true ->
  truthy (derived_name path) = true ->
  parse_item acc (path, e) s
  = match List.find (fun t => startswith t "sha512-") (split " " i) with
    | Some token =>
        if truthy (replace "sha512-" "" token)
        then (Ok (acc ++ [details_of path url token v])%list, s)
        else (Ok acc,
              {| files := files s;
                 log := (log s ++ [LogNoSha512 (derived_name path) v])%list |})
    | None =>
        (Ok acc,
         {| files := files s;
            log := (log s ++ [LogNoSha512 (derived_name path) v])%list |})
    end.
Proof.
  intros Hp Hr Hi Hv Hu Hti Htv Hn. unfold parse_item. rewrite Hp.
  cbn [negb forallb]. fold (derived_name path).
  rewrite Hr, Hi, Hv. cbn [truthy_opt val]. rewrite Hu, Hti, Htv, Hn.
  cbn [andb negb].
  destruct (List.find _ _) as [token|]; cbn [truthy_opt val].
  - destruct (truthy (replace "sha512-" "" token)); reflexivity.
  - reflexivity.
Qed.
End Item.

(** *** The whole document *)





(** X12. An exception of the loader other than [FileNotFoundError] and
    [JSONDecodeError] (a permission error, say) is not caught: it leaves
    [parse_package_lock], after the first line has been printed. *)
Theorem unhandled_load_error_escapes (w : world) (lockfile_path : string)
    (e : exn) (s : state) :
  json_load w lockfile_path = LoadRaises e ->
  handled e = false ->
  parse_package_lock w lockfile_path s
  = (Raise e, {| files := files s;
                 log := (log s ++ [LogParsing lockfile_path])%list |}).
Proof.
  intros Hload He. unfold parse_package_lock, bind at 1, print, modify.
  unfold bind at 1, try_except. rewrite Hload. unfold raise at 1.
  destruct e; try discriminate He; reflexivity.
Qed.

(** *** The name read off a path key *)

Lemma prefix_head_ne (a c : ascii) (p t : string) :
  a <> c -> String.prefix (String a p) (String c t) = false.
Proof.
  intros H. cbn [String.prefix]. destruct (ascii_dec a c); [contradiction|].
  reflexivity.
Qed.

Lemma rfind_marker_here (n : string) :
  rfind_nat marker n = None -> rfind_nat marker (marker +:+ n) = Some 0.
Proof.
  intros Hn. unfold marker in *.
  pose proof (ParserFacts.prefix_self "node_modules/" n) as Hp.
  change ("node_modules/" +:+ n)
    with (String "n" (String "o" (String "d" (String "e" (String "_"
           (String "m" (String "o" (String "d" (String "u" (String "l"
             (String "e" (String "s" (String "/" n))))))))))))) in *.
  cbn [rfind_nat]. rewrite Hn.
  rewrite !prefix_head_ne by discriminate. now rewrite Hp.
Qed.

Lemma rfind_marker_last (p n : string) :
  rfind_nat marker n = None ->
  rfind_nat marker (p +:+ marker +:+ n) = Some (String.length p).
Proof.
  intros Hn. induction p as [|c p IH].
  - now apply rfind_marker_here.
  - change (String c p +:+ marker +:+ n) with (String c (p +:+ marker +:+ n)).
    cbn [rfind_nat String.length]. now rewrite IH.
Qed.

Lemma derived_name_nested (p n : string) :
  rfind_nat marker n = None -> derived_name (p +:+ marker +:+ n) = n.
Proof.
  intros Hn. unfold derived_name, rfind. fold marker.
  rewrite (rfind_marker_last p n Hn). unfold slice_from, len.
  destruct (Z.ltb_spec (Z.of_nat (String.length p)
                        + Z.of_nat (String.length marker)) 0); [lia|].
  rewrite <- Nat2Z.inj_add, Nat2Z.id, <- FetcherFacts.length_sapp.
  rewrite <- PathFacts.sapp_assoc. apply PathFacts.drop_app.
Qed.

Lemma derived_name_unmarked (path : string) :
  rfind_nat marker path = None -> derived_name path = drop 12 path.
Proof.
  intros H. unfold derived_name, rfind. fold marker. now rewrite H.
Qed.

Lemma truthy_sapp_r (a b : string) : truthy b = true -> truthy (a +:+ b) = true.
Proof.
  destruct a; [auto|]. reflexivity.
Qed.

(** *** The integrity tokens *)

Lemma split_join (l : list string) :
  l <> [] -> Forall (fun t => contains " " t = false) l ->
  split " " (PyStr.join " " l) = l.
Proof.
  induction l as [|x l IH]; [contradiction|]. intros _ Hall.
  inversion Hall as [|? ? Hx Hl]; subst.
  destruct l as [|y l].
  - now apply PathFacts.split_no_sep.
  - change (PyStr.join " " (x :: y :: l))
      with (x +:+ String " " (PyStr.join " " (y :: l))).
    rewrite PathFacts.split_app, (PathFacts.split_no_sep _ _ Hx), IH;
      [reflexivity | discriminate | assumption].
Qed.

Lemma find_first (f : string -> bool) (pre post : list string) (t : string) :
  Forall (fun x => f x = false) pre -> f t = true ->
  List.find f (pre ++ t :: post) = Some t.
Proof.
  induction pre as [|x pre IH]; intros Hpre Ht; simpl.
  - now rewrite Ht.
  - inversion Hpre; subst. rewrite H1. now apply IH.
Qed.

Lemma find_none (f : string -> bool) (l : list string) :
  Forall (fun x => f x = false) l -> List.find f l = None.
Proof.
  induction 1 as [|x l Hx _ IH]; simpl; [reflexivity|]. now rewrite Hx.
Qed.

Section Entry.
Variable acc : list package_details.
Variable s : state.
Variables url v h : string.
Hypothesis url_given : truthy url = true.
Hypothesis v_given : truthy v = true.
Hypothesis h_given : truthy h = true.
Hypothesis h_no_blank : contains " " h = false.
Hypothesis h_no_hyphen : contains "-" h = false.

(** X13. The name of an entry is what follows the last [node_modules/] of its
    key: a nested key names the innermost package. *)
Theorem nested_key_names_innermost_package (p n : string) :
  rfind_nat marker n = None ->
  truthy n = true ->
  parse_item acc
    (p +:+ "node_modules/" +:+ n,
     {| resolved := Some url;
        integrity := Some ("sha512-" +:+ h);
        version := Some v |}) s
  = (Ok (acc ++ [ {| pd_name := n;
                     pd_version := v;
                     pd_resolved := url;
                     pd_sha512_b64 := h |} ])%list, s).
Proof.
  intros Hn Htn. fold marker.
  rewrite (parse_item_checked acc _ _ s url ("sha512-" +:+ h) v);
    try reflexivity; auto.
  - rewrite (ParserFacts.integrity_token h h_no_blank).
    unfold details_of.
    rewrite (ParserFacts.integrity_digest h h_no_hyphen), h_given.
    now rewrite (derived_name_nested p n Hn).
  - apply truthy_sapp_r. reflexivity.
  - now rewrite (derived_name_nested p n Hn).
Qed.

(** X14. A key without [node_modules/] gets as name the key without its first
    twelve characters ([rfind] answers -1), and the entry is dropped when
    nothing is left. *)
Theorem unmarked_key_loses_twelve_characters (path : string) :
  rfind_nat marker path = None ->
  truthy path = true ->
  parse_item acc
    (path,
     {| resolved := Some url;
        integrity := Some ("sha512-" +:+ h);
        version := Some v |}) s
  = if truthy (drop 12 path)
    then (Ok (acc ++ [ {| pd_name := drop 12 path;
                          pd_version := v;
                          pd_resolved := url;
                          pd_sha512_b64 := h |} ])%list, s)
    else (Ok acc, {| files := files s;
                     log := (log s ++ [LogSkipInvalid path])%list |}).
Proof.
  intros Hm Hp. destruct (truthy (drop 12 path)) eqn:Hd.
  - rewrite (parse_item_checked acc _ _ s url ("sha512-" +:+ h) v);
      try reflexivity; auto.
    + rewrite (ParserFacts.integrity_token h h_no_blank).
      unfold details_of.
      rewrite (ParserFacts.integrity_digest h h_no_hyphen), h_given.
      now rewrite (derived_name_unmarked path Hm).
    + now rewrite (derived_name_unmarked path Hm).
  - apply parse_item_invalid; [exact Hp|]. cbn [resolved integrity version].
    rewrite (derived_name_unmarked path Hm), Hd. apply andb_false_r.
Qed.

(** X15. Of the blank-separated tokens of the integrity field, the first that
    starts with [sha512-] gives the digest, whatever the other tokens are. *)
Theorem sha512_token_is_selected (path : string) (pre post : list string) :
  truthy path = true ->
  truthy (derived_name path) = true ->
  Forall (fun t => contains " " t = false) (pre ++ post) ->
  Forall (fun t => startswith t "sha512-" = false) pre ->
  parse_item acc
    (path,
     {| resolved := Some url;
        integrity := Some (PyStr.join " " (pre ++ ("sha512-" +:+ h) :: post));
        version := Some v |}) s
  = (Ok (acc ++ [ {| pd_name := derived_name path;
                     pd_version := v;
                     pd_resolved := url;
                     pd_sha512_b64 := h |} ])%list, s).
Proof.
  intros Hp Hn Hblank Hpre.
  assert (Hsplit : split " " (PyStr.join " " (pre ++ ("sha512-" +:+ h) :: post))
                   = (pre ++ ("sha512-" +:+ h) :: post)%list).
  { apply split_join; [now destruct pre|].
    apply Forall_app in Hblank as [H1 H2]. apply Forall_app. split; [exact H1|].
    constructor; [exact h_no_blank | exact H2]. }
  rewrite (parse_item_checked acc path _ s url
             (PyStr.join " " (pre ++ ("sha512-" +:+ h) :: post)) v);
    try reflexivity; auto.
  - rewrite Hsplit, (find_first _ pre post ("sha512-" +:+ h) Hpre).
    + unfold details_of.
      now rewrite (ParserFacts.integrity_digest h h_no_hyphen), h_given.
    + unfold startswith. apply ParserFacts.prefix_self.
  - destruct (PyStr.join " " (pre ++ ("sha512-" +:+ h) :: post)) eqn:E;
      [|reflexivity].
    cbn in Hsplit. destruct pre as [|? [|? ?]]; discriminate Hsplit.
Qed.

(** X16. An entry whose integrity field has no [sha512-] token is dropped with a
    warning, although its fields are all present. *)
Theorem entry_without_sha512_token_is_skipped (path i : string) :
  truthy path = true ->
  truthy (derived_name path) = true ->
  truthy i = true ->
  Forall (fun t => startswith t "sha512-" = false) (split " " i) ->
  parse_item acc
    (path, {| resolved := Some url; integrity := Some i; version := Some v |}) s
  = (Ok acc,
     {| files := files s;
        log := (log s ++ [LogNoSha512 (derived_name path) v])%list |}).
Proof.
  intros Hp Hn Hi Hall.
  rewrite (parse_item_checked acc path _ s url i v); try reflexivity; auto.
  now rewrite (find_none _ _ Hall).
Qed.
End Entry.
End LockFacts.

(** ** The client and the reconciliation, call by call *)

Module ReconcilerFacts.
Import PyStr Upload Reconciler.
Local Arguments String.append : simpl nomatch.

Section Client.
Variable self : NexusUploader.
Variable w : remote.

(** *** The search of one repository *)

Lemma find_calls_query (repo group name version : string) :
  find_calls self repo group name version
  = [CallFind repo group name version;
     HttpGet (search_components_url self) (query repo group name version)].
Proof. reflexivity. Qed.

Lemma fruitless_find (repo group name version : string) :
  fruitless (http_search w (search_components_url self)
               (query repo group name version)) = true ->
  find_result self w repo group name version = Ok None.
Proof.
  unfold find_result, _find_component, query.
  unfold bind, try_except, record, print, modify, ret, raise. simpl.
  destruct (http_search w _ _) as [e|status text [data|]]; simpl.
  - intros _. destruct e; simpl; auto. now destruct (status =? 404)%Z.
  - destruct (is_error_status status); simpl.
    + intros _. now destruct (status =? 404)%Z.
    + destruct (items data) as [[|first rest]|]; simpl; auto. discriminate.
  - intros _. destruct (is_error_status status); simpl; auto.
    now destruct (status =? 404)%Z.
Qed.

(** X17. An error status of the search makes [_find_component] return [None]:
    silently for 404, with a printed line for any other status. *)
Theorem error_status_means_absent (repo group name version : string)
    (status : Z) (text : string) (body : option search_body) :
  http_search w (search_components_url self) (query repo group name version)
  = SearchResponse status text body ->
  is_error_status status = true ->
  find_result self w repo group name version = Ok None /\
  find_log self w repo group name version
  = if (status =? 404)%Z then []
    else [LogFindError repo (HTTPError status text)].
Proof.
  intros Hs Hst. unfold find_result, find_log, _find_component.
  fold (query repo group name version).
  unfold bind, try_except, record, print, modify, ret, raise. simpl.
  rewrite Hs, Hst. simpl. now destruct (status =? 404)%Z.
Qed.

Lemma delete_char_cons (a c : ascii) (t : string) :
  replace (String a "") "" (String c t)
  = if Ascii.eqb a c then replace (String a "") "" t
    else String c (replace (String a "") "" t).
Proof.
  unfold replace. change (String.eqb (String a "") "") with false. cbv iota.
  cbn [replace_from String.prefix].
  destruct (ascii_dec a c) as [->|Hne].
  - rewrite FetcherFacts.prefix_empty, Ascii.eqb_refl. reflexivity.
  - apply Ascii.eqb_neq in Hne. now rewrite Hne.
Qed.

Lemma delete_char_absent (a : ascii) (t : string) :
  contains a t = false -> replace (String a "") "" t = t.
Proof.
  induction t as [|c t IH]; [reflexivity|]. cbn [contains]. intros H.
  apply orb_false_iff in H as [Hc Ht].
  now rewrite delete_char_cons, Hc, (IH Ht).
Qed.

(** X18. The group [@g] of a manifest entry is queried as [g]: the search request
    carries the group without its at sign. *)
Theorem scoped_group_is_queried_without_at_sign (repo g name version : string) :
  contains "@" g = false ->
  calls_of (_find_component self w repo (String "@" g) name version)
  = [CallFind repo (String "@" g) name version;
     HttpGet (search_components_url self)
       {| p_repository := repo;
          p_name := name;
          p_version := version;
          p_group := g |}].
Proof.
  intros Hg. unfold calls_of. rewrite UploadFacts.find_component_run. simpl.
  unfold find_calls. change (truthy (String "@" g)) with true. cbv iota.
  rewrite delete_char_cons, Ascii.eqb_refl, (delete_char_absent _ _ Hg).
  reflexivity.
Qed.

(** *** The digest of a component *)

(** X19. The remote digest is that of the first asset whose path ends in
    [.tgz]; assets before it are passed over, assets after it are never
    looked at, and it is [None] when that asset has no checksum. *)
Theorem first_archive_asset_decides (c : component) (pre post : list asset)
    (a : asset) :
  comp_assets c = Some (pre ++ a :: post)%list ->
  Forall (fun x => endswith (default "" (asset_path x)) ".tgz" = false) pre ->
  endswith (default "" (asset_path a)) ".tgz" = true ->
  _get_remote_sha512_hex c
  = match asset_checksum a with
    | Some sums => checksum_sha512 sums
    | None => None
    end.
Proof.
  intros Hc Hpre Ha. unfold _get_remote_sha512_hex. rewrite Hc.
  assert (Hfind : List.find
            (fun x => endswith (default "" (asset_path x)) ".tgz")
            (pre ++ a :: post) = Some a).
  { clear Hc. induction Hpre as [|x pre Hx _ IH]; simpl.
    - now rewrite Ha.
    - now rewrite Hx. }
  rewrite Hfind. now destruct (asset_checksum a).
Qed.

Lemma no_archive_no_digest (c : component) :
  no_archive c -> _get_remote_sha512_hex c = None.
Proof.
  unfold no_archive, _get_remote_sha512_hex.
  destruct (comp_assets c) as [assets|]; [|reflexivity].
  intros Hall.
  assert (Hfind : List.find
            (fun x => endswith (default "" (asset_path x)) ".tgz") assets
            = None).
  { induction Hall as [|x l Hx _ IH]; simpl; [reflexivity|]. now rewrite Hx. }
  now rewrite Hfind.
Qed.

(** *** Exact runs *)

Lemma upload_package_exact (package_meta : Meta.meta_entry) (s : state) :
  exists b : bool,
    _upload_package self w package_meta s
    = (Ok b,
       {| trace := (trace s ++ CallUpload package_meta
                            :: upload_requests self w package_meta)%list;
          log := (log s ++ upload_lines self w package_meta)%list |}).
Proof.
  unfold _upload_package, upload_requests, upload_lines, checked.
  unfold bind, try_except, record, print, modify, ret, raise. simpl.
  destruct (os_path_exists w _); simpl.
  - destruct (failure _) as [e|]; simpl.
    + destruct e; simpl; eexists; rewrite <- !app_assoc; reflexivity.
    + eexists. rewrite <- !app_assoc. reflexivity.
  - eexists. reflexivity.
Qed.

Lemma search_exact (repos : list string)
    (group name version local_sha512_hex : string) (s : state) :
  exists s' lines,
    search_check_repos self w repos group name version local_sha512_hex s
    = (Ok (first_found self w repos group name version,
           match first_found self w repos group name version with
           | Some c => bool_decide (_get_remote_sha512_hex c
                                    = Some local_sha512_hex)
           | None => false
           end), s') /\
    trace s'
    = (trace s ++ flat_map (fun repo => find_calls self repo group name version)
                    (searched self w repos group name version))%list /\
    log s' = (log s ++ lines)%list.
Proof.
  revert s. induction repos as [|repo rest IH]; intros s.
  - exists s, []. cbn. now rewrite !app_nil_r.
  - cbn [search_check_repos first_found searched]. unfold bind at 1.
    rewrite UploadFacts.find_component_run.
    destruct (UploadFacts.find_never_raises self w repo group name version)
      as [[c|] Ho]; rewrite Ho.
    + unfold bind, print, modify, ret. simpl.
      destruct (bool_decide _); simpl; do 2 eexists;
        (split; [reflexivity|]); simpl; (split; [reflexivity|]);
        rewrite <- !app_assoc; reflexivity.
    + edestruct IH as (s' & lines & -> & Ht & Hl).
      exists s', (find_log self w repo group name version ++ lines)%list.
      split; [reflexivity|]. rewrite Ht, Hl. simpl.
      now rewrite <- !app_assoc.
Qed.

Lemma process_package_exact (package_meta : Meta.meta_entry) (s : state) :
  let d := decide_action self w package_meta in
  exists s' lines,
    process_package self w package_meta s = (Ok tt, s') /\
    trace s'
    = (trace s
       ++ flat_map (fun repo => find_calls self repo (Meta.group package_meta)
                                  (Meta.name package_meta)
                                  (Meta.version package_meta))
            (searched self w (check_repos self) (Meta.group package_meta)
               (Meta.name package_meta) (Meta.version package_meta))
       ++ planned_calls self w package_meta d)%list /\
    log s' = (log s ++ lines ++ planned_lines self w d
              ++ final_lines self w package_meta d)%list.
Proof.
  unfold process_package, decide_action.
  set (group := Meta.group package_meta).
  set (name := Meta.name package_meta).
  set (version := Meta.version package_meta).
  set (pkg_id := if truthy group then _ else _).
  unfold bind at 1, print at 1, modify. unfold bind at 1.
  edestruct (search_exact (check_repos self) group name version
               (Meta.sha512_hex package_meta))
    as (s1 & lines & -> & Ht & Hl).
  simpl in Ht, Hl.
  destruct (first_found self w (check_repos self) group name version)
    as [c|].
  - destruct (bool_decide _).
    + exists s1, (LogProcessing pkg_id :: lines). unfold ret. cbn.
      rewrite Ht, Hl, !app_nil_r, <- app_assoc. auto.
    + destruct (String.eqb (comp_repository c) (upload_repo self)).
      * unfold bind at 1. unfold bind at 1. unfold print at 1, modify.
        cbv beta iota. unfold bind at 1.
        rewrite UploadFacts.delete_component_run.
        cbv beta iota. unfold ret at 1. cbv beta iota.
        unfold bind at 1, print at 1, modify. unfold bind at 1.
        match goal with
        | |- context [_upload_package self w package_meta ?st] =>
            destruct (upload_package_exact package_meta st) as (b & ->)
        end.
        unfold ret. eexists. exists (LogProcessing pkg_id :: lines).
        split; [reflexivity|]. cbn. rewrite Ht, Hl. cbn.
        rewrite <- !app_assoc. cbn. split; reflexivity.
      * unfold bind at 1. unfold bind at 1. unfold print at 1, modify.
        cbv beta iota. unfold print at 1, modify. cbv beta iota.
        unfold bind at 1, print at 1, modify. unfold bind at 1.
        match goal with
        | |- context [_upload_package self w package_meta ?st] =>
            destruct (upload_package_exact package_meta st) as (b & ->)
        end.
        unfold ret. eexists. exists (LogProcessing pkg_id :: lines).
        split; [reflexivity|]. cbn. rewrite Ht, Hl. cbn.
        rewrite <- !app_assoc. cbn. split; reflexivity.
  - unfold bind at 1, ret at 1. cbv beta iota.
    unfold bind at 1, print at 1, modify. unfold bind at 1.
    match goal with
    | |- context [_upload_package self w package_meta ?st] =>
        destruct (upload_package_exact package_meta st) as (b & ->)
    end.
    unfold ret. eexists. exists (LogProcessing pkg_id :: lines).
    split; [reflexivity|]. cbn. rewrite Ht, Hl. cbn.
    rewrite <- !app_assoc. cbn. split; reflexivity.
Qed.

Section Entry.
Variable package_meta : Meta.meta_entry.

Let group := Meta.group package_meta.
Let name := Meta.name package_meta.
Let version := Meta.version package_meta.
Let run := process_package self w package_meta.
Let d := decide_action self w package_meta.

Lemma reconcile_exact :
  result_of run = Ok tt /\
  calls_of run
  = (flat_map (fun repo => find_calls self repo group name version)
       (searched self w (check_repos self) group name version)
     ++ planned_calls self w package_meta d)%list /\
  exists lines,
    log_of run = (lines ++ planned_lines self w d
                  ++ final_lines self w package_meta d)%list.
Proof.
  destruct (process_package_exact package_meta init_state)
    as (s' & lines & Hrun & Ht & Hl).
  unfold result_of, calls_of, log_of, run. rewrite Hrun. simpl.
  split; [reflexivity|]. split; [exact Ht|]. exists lines. exact Hl.
Qed.

(** *** Reading the calls *)

Lemma finds_app (a b : list call) : finds (a ++ b) = (finds a ++ finds b)%list.
Proof.
  induction a as [|c a IH]; [reflexivity|]. destruct c; simpl; now rewrite IH.
Qed.

Lemma finds_find_calls (l : list string) :
  finds (flat_map (fun repo => find_calls self repo group name version) l) = l.
Proof. induction l as [|r l IH]; [reflexivity|]. simpl. now rewrite IH. Qed.

Lemma finds_planned : finds (planned_calls self w package_meta d) = [].
Proof.
  unfold planned_calls, upload_requests.
  destruct d; destruct (os_path_exists w (Meta.local_path package_meta));
    reflexivity.
Qed.

Lemma finds_run :
  finds (calls_of run) = searched self w (check_repos self) group name version.
Proof.
  destruct reconcile_exact as (_ & -> & _).
  now rewrite finds_app, finds_find_calls, finds_planned, app_nil_r.
Qed.

Lemma in_find_calls (x : call) (l : list string) :
  In x (flat_map (fun repo => find_calls self repo group name version) l) ->
  is_request x = false /\ is_mutation x = false.
Proof.
  induction l as [|r l IH]; simpl; [contradiction|].
  intros [<-|[<-|H]]; auto.
Qed.

Lemma searched_hit (pre post : list string) (repo : string) (c : component) :
  (forall r, In r pre -> find_result self w r group name version = Ok None) ->
  find_result self w repo group name version = Ok (Some c) ->
  searched self w (pre ++ repo :: post) group name version
  = (pre ++ [repo])%list /\
  first_found self w (pre ++ repo :: post) group name version = Some c.
Proof.
  intros Hpre Hrepo. induction pre as [|r pre IH]; simpl.
  - now rewrite Hrepo.
  - rewrite (Hpre r) by (now left).
    destruct IH as [-> ->]; [|auto]. intros r' Hr'. apply Hpre. now right.
Qed.

Lemma searched_all (repos : list string) :
  (forall r, In r repos -> find_result self w r group name version = Ok None) ->
  searched self w repos group name version = repos /\
  first_found self w repos group name version = None.
Proof.
  induction repos as [|r repos IH]; intros H; simpl; [auto|].
  rewrite (H r) by (now left).
  destruct IH as [-> ->]; [|auto]. intros r' Hr'. apply H. now right.
Qed.

Lemma decide_replace_inv (component_id : string) :
  d = ReplaceThenUpload component_id ->
  exists c,
    first_found self w (check_repos self) group name version = Some c /\
    _get_remote_sha512_hex c <> Some (Meta.sha512_hex package_meta) /\
    comp_repository c = upload_repo self /\
    component_id = comp_id c.
Proof.
  unfold d, decide_action. fold group name version.
  destruct (first_found _ _ _ _ _ _) as [c|]; [|discriminate].
  destruct (bool_decide_reflect (_get_remote_sha512_hex c
                                 = Some (Meta.sha512_hex package_meta)));
    [discriminate|].
  destruct (String.eqb_spec (comp_repository c) (upload_repo self));
    [|discriminate].
  intros [= <-]. eauto.
Qed.

(** X20. [process_package] searches the check repositories in order and stops at
    the first that returns a component: the repositories after it are not
    queried. *)
Theorem search_stops_at_first_hit (pre post : list string) (repo : string)
    (c : component) :
  check_repos self = (pre ++ repo :: post)%list ->
  (forall r, In r pre ->
     find_result self w r (Meta.group package_meta) (Meta.name package_meta)
       (Meta.version package_meta) = Ok None) ->
  find_result self w repo (Meta.group package_meta) (Meta.name package_meta)
    (Meta.version package_meta) = Ok (Some c) ->
  finds (calls_of (process_package self w package_meta))
  = (pre ++ [repo])%list.
Proof.
  intros Hrepos Hpre Hrepo. fold run. rewrite finds_run, Hrepos.
  now destruct (searched_hit pre post repo c Hpre Hrepo) as [-> _].
Qed.

(** X21. When no search returns a component, be it for an empty answer, an error
    status or an unreachable store, every check repository has been queried
    and [process_package] calls upload once and delete never. *)
Theorem fruitless_searches_lead_to_upload :
  (forall repo, In repo (check_repos self) ->
     fruitless (http_search w (search_components_url self)
                  (query repo (Meta.group package_meta)
                     (Meta.name package_meta) (Meta.version package_meta)))
     = true) ->
  result_of (process_package self w package_meta) = Ok tt /\
  finds (calls_of (process_package self w package_meta)) = check_repos self /\
  mutations (calls_of (process_package self w package_meta))
  = [CallUpload package_meta] /\
  write_requests (calls_of (process_package self w package_meta))
  = upload_requests self w package_meta.
Proof.
  intros Hall.
  destruct (searched_all (check_repos self)) as [Hs Hf].
  { intros r Hr. apply fruitless_find, Hall, Hr. }
  destruct (UploadFacts.reconcile_follows_decision self w package_meta)
    as (Hres & Hm & Hr & _).
  fold run. rewrite finds_run, Hs.
  unfold decide_action in Hm, Hr. fold group name version in Hm, Hr.
  rewrite Hf in Hm, Hr. auto.
Qed.

Section Found.
Variable c : component.
Hypothesis first :
  first_found self w (check_repos self) (Meta.group package_meta)
    (Meta.name package_meta) (Meta.version package_meta) = Some c.

(** X22. When the local file is missing and the upload repository holds a copy
    with another digest, that copy is still deleted: the DELETE is the only
    request sent, and the missing file is printed. *)
Theorem stale_copy_deleted_though_file_is_missing :
  _get_remote_sha512_hex c <> Some (Meta.sha512_hex package_meta) ->
  comp_repository c = upload_repo self ->
  os_path_exists w (Meta.local_path package_meta) = false ->
  write_requests (calls_of (process_package self w package_meta))
  = [HttpDelete (delete_url self (comp_id c))] /\
  In (LogFileMissing (Meta.local_path package_meta))
    (log_of (process_package self w package_meta)).
Proof.
  intros Hne Hrepo Hmiss.
  destruct (UploadFacts.reconcile_follows_decision self w package_meta)
    as (_ & _ & Hr & _).
  destruct reconcile_exact as (_ & _ & lines & Hl).
  fold run in Hr |- *. unfold d in Hl.
  rewrite (UploadFacts.decide_replace self w package_meta c first Hne Hrepo)
    in Hr, Hl.
  split.
  - rewrite Hr. cbn. unfold upload_requests. now rewrite Hmiss.
  - rewrite Hl. apply in_or_app. right. apply in_or_app. right.
    cbn. right. unfold upload_lines. rewrite Hmiss. now left.
Qed.

(** X23. A component found without any archive asset has no digest to compare and
    is never skipped: the package is uploaded, after a delete when the
    component lies in the upload repository. *)
Theorem component_without_archive_is_never_skipped :
  no_archive c ->
  mutations (calls_of (process_package self w package_meta))
  = ((if String.eqb (comp_repository c) (upload_repo self)
      then [CallDelete (comp_id c)] else [])
     ++ [CallUpload package_meta])%list.
Proof.
  intros Hno.
  destruct (UploadFacts.reconcile_follows_decision self w package_meta)
    as (_ & Hm & _).
  rewrite Hm. unfold decide_action. rewrite first.
  rewrite (no_archive_no_digest c Hno).
  rewrite bool_decide_eq_false_2 by discriminate.
  now destruct (String.eqb _ _).
Qed.
End Found.

(** X24. Every DELETE that [process_package] sends targets the first component
    found, and only when it lies in the upload repository with another
    digest. *)
Theorem deletes_only_in_upload_repository (u : string) :
  In (HttpDelete u) (calls_of (process_package self w package_meta)) ->
  exists c,
    first_found self w (check_repos self) (Meta.group package_meta)
      (Meta.name package_meta) (Meta.version package_meta) = Some c /\
    _get_remote_sha512_hex c <> Some (Meta.sha512_hex package_meta) /\
    comp_repository c = upload_repo self /\
    u = delete_url self (comp_id c).
Proof.
  fold run. destruct reconcile_exact as (_ & -> & _).
  intros H. apply in_app_or in H as [H|H].
  - apply in_find_calls in H as [H _]. discriminate.
  - destruct d as [|id| |] eqn:Hd; cbn in H.
    + contradiction.
    + destruct (decide_replace_inv id Hd) as (c & Hf & Hne & Hrepo & ->).
      exists c. repeat split; auto.
      destruct H as [H|[H|[H|H]]]; try discriminate; [congruence|].
      unfold upload_requests in H.
      destruct (os_path_exists w _); [destruct H as [H|[]]; discriminate|].
      contradiction.
    + exfalso. unfold upload_requests in H.
      destruct (os_path_exists w _); destruct H as [H|H]; try discriminate;
        try contradiction.
      destruct H as [H|[]]; discriminate.
    + exfalso. unfold upload_requests in H.
      destruct (os_path_exists w _); destruct H as [H|H]; try discriminate;
        try contradiction.
      destruct H as [H|[]]; discriminate.
Qed.

(** X25. Every POST that [process_package] sends goes to the upload URL, with the
    entry's local file, which exists. *)
Theorem uploads_only_to_upload_url (url file : string) :
  In (HttpPost url file) (calls_of (process_package self w package_meta)) ->
  url = upload_url self /\
  file = Meta.local_path package_meta /\
  os_path_exists w file = true.
Proof.
  fold run. destruct reconcile_exact as (_ & -> & _).
  intros H. apply in_app_or in H as [H|H].
  - apply in_find_calls in H as [H _]. discriminate.
  - assert (Hup : In (HttpPost url file)
                    (upload_requests self w package_meta)).
    { destruct d; cbn in H.
      - contradiction.
      - destruct H as [H|[H|[H|H]]]; try discriminate; exact H.
      - destruct H as [H|H]; [discriminate | exact H].
      - destruct H as [H|H]; [discriminate | exact H]. }
    unfold upload_requests in Hup.
    destruct (os_path_exists w (Meta.local_path package_meta)) eqn:He;
      [|contradiction].
    destruct Hup as [[= <- <-]|[]]. auto.
Qed.

(** X26. When the upload fails, [process_package] still returns normally; the
    failure is printed, and the body of the response with it when the
    failure is an error status. *)
Theorem failed_upload_is_printed (e : exn) :
  decide_action self w package_meta <> Skip ->
  os_path_exists w (Meta.local_path package_meta) = true ->
  failure (http_post w (upload_url self) (Meta.local_path package_meta))
  = Some e ->
  result_of (process_package self w package_meta) = Ok tt /\
  In (LogUploadFailed (Meta.name package_meta) e)
    (log_of (process_package self w package_meta)) /\
  (forall status text, e = HTTPError status text ->
     In (LogUploadResponse text)
       (log_of (process_package self w package_meta))).
Proof.
  intros Hd Hex Hfail. fold run.
  destruct reconcile_exact as (Hres & _ & lines & Hl).
  assert (Hup : upload_lines self w package_meta
                = LogUploadFailed (Meta.name package_meta) e
                    :: match e with
                       | HTTPError _ text => [LogUploadResponse text]
                       | _ => []
                       end).
  { unfold upload_lines. now rewrite Hex, Hfail. }
  assert (Hfin : final_lines self w package_meta d
                 = LogPreparing (upload_repo self)
                     :: upload_lines self w package_meta).
  { fold d in Hd. now destruct d. }
  rewrite Hl, Hfin, Hup. repeat split; auto.
  - apply in_or_app. right. apply in_or_app. right. cbn. auto.
  - intros status text ->. apply in_or_app. right. apply in_or_app. right.
    cbn. auto.
Qed.
End Entry.
End Client.
End ReconcilerFacts.

(** ** These properties at concrete worlds *)

Module MoreChecks.
Import Example.

(** X2, at a concrete world. *)
Lemma cached_verified_file_is_reused_witness :
  exists r,
    Download.download_package urljoin served scoped cfg cached_disk
    = (Ok (Some r), cached_disk) /\
    Download.download_package urljoin (refusing 503 "Service Unavailable")
      scoped cfg cached_disk
    = (Ok (Some r), cached_disk) /\
    Meta.sha512_hex r = Codec.hexencode (SHA512.sha512 archive).
Proof.
  apply (FetcherFacts.cached_verified_file_is_reused urljoin served scoped cfg
           (refusing 503 "Service Unavailable") cached_disk archive);
    vm_compute; reflexivity.
Defined.

(** X3, at a concrete world. *)
Lemma success_leaves_verified_file_witness :
  exists content,
    Download.files cached_disk !! Download.tgz_path_of scoped cfg
    = Some content /\
    Codec.b64encode (SHA512.sha512 content) = Download.pd_sha512_b64 scoped /\
    Codec.hexencode (SHA512.sha512 content) = Meta.sha512_hex scoped_entry /\
    Download.log cached_disk = Download.log empty_disk.
Proof.
  apply (FetcherFacts.success_leaves_verified_file urljoin served scoped cfg
           empty_disk cached_disk scoped_entry).
  vm_compute. reflexivity.
Defined.

(** X4, at a concrete world. *)
Lemma refused_request_leaves_disk_unchanged_witness :
  Download.download_package urljoin (refusing 404 "Not Found") scoped cfg
    empty_disk
  = (Ok None,
     {| Download.files := Download.files empty_disk;
        Download.log :=
          (Download.log empty_disk ++
           [Download.LogDownloadFailed (Download.pd_name scoped)
              (Download.pd_version scoped) (HTTPError 404 "Not Found")])%list |}).
Proof.
  apply (FetcherFacts.refused_request_leaves_disk_unchanged urljoin
           (refusing 404 "Not Found") scoped cfg empty_disk
           (HTTPError 404 "Not Found")).
  - reflexivity.
  - vm_compute. reflexivity.
  - reflexivity.
Defined.

(** X6, at a concrete world. *)
Lemma failed_mkdir_escapes_the_handler_witness :
  Download.download_package urljoin readonly_cwd scoped cfg empty_disk
  = (Raise (OSError 13), empty_disk).
Proof.
  apply (FetcherFacts.failed_mkdir_escapes_the_handler urljoin readonly_cwd
           scoped cfg empty_disk (OSError 13)).
  - reflexivity.
  - reflexivity.
Defined.

(** X7, at a concrete world. *)
Lemma other_files_untouched_witness :
  Download.files cached_disk !! "npm_tgz/left-pad-1.3.0.tgz"
  = Download.files empty_disk !! "npm_tgz/left-pad-1.3.0.tgz".
Proof.
  apply (FetcherFacts.other_files_untouched urljoin served scoped cfg
           empty_disk cached_disk (Ok (Some scoped_entry))).
  - vm_compute. reflexivity.
  - vm_compute. discriminate.
Defined.

(** X8, at a concrete world. *)
Lemma name_splits_at_first_slash_witness :
  (forall g n,
     Download.pd_name scoped = g +:+ "/" +:+ n ->
     PyStr.contains "/" g = false ->
     Meta.group scoped_entry = g /\ Meta.name scoped_entry = n) /\
  (PyStr.contains "/" (Download.pd_name scoped) = false ->
   Meta.group scoped_entry = "" /\
   Meta.name scoped_entry = Download.pd_name scoped) /\
  Meta.version scoped_entry = Download.pd_version scoped /\
  Meta.nexus_search_name scoped_entry
  = Meta.name scoped_entry +:+ "-" +:+ Download.pd_version scoped.
Proof.
  apply (FetcherFacts.name_splits_at_first_slash urljoin served scoped cfg
           empty_disk cached_disk scoped_entry).
  vm_compute. reflexivity.
Defined.

(** X9, at a concrete world. *)
Lemma stored_under_flat_name_witness :
  PyStr.contains "/" (Fetcher.flat_name scoped) = false /\
  Download.tgz_path_of scoped cfg
  = PosixPath.join (default "npm_tgz" (Download.download_dir cfg))
      (Fetcher.flat_name scoped) /\
  PosixPath.basename (Meta.local_path scoped_entry) = Fetcher.flat_name scoped.
Proof.
  apply (FetcherFacts.stored_under_flat_name urljoin served scoped cfg
           empty_disk cached_disk scoped_entry).
  - reflexivity.
  - vm_compute. reflexivity.
Defined.

(** X10, at a concrete world. *)
Lemma mirror_url_uses_unscoped_tail_witness :
  Download.download_url_of urljoin scoped cfg_mirror
  = urljoin "https://registry.npmmirror.com/"
      ("@scope" +:+ "/" +:+ "pkg" +:+ "/-/" +:+ "pkg" +:+ "-"
       +:+ Download.pd_version scoped +:+ ".tgz").
Proof.
  apply (FetcherFacts.mirror_url_uses_unscoped_tail urljoin scoped cfg_mirror);
    reflexivity.
Defined.


(** X12, at a concrete world. *)
Lemma unhandled_load_error_escapes_witness :
  Download.parse_package_lock unreadable_lock "package-lock.json" empty_disk
  = (Raise (OSError 13),
     {| Download.files := Download.files empty_disk;
        Download.log :=
          (Download.log empty_disk
           ++ [Download.LogParsing "package-lock.json"])%list |}).
Proof.
  apply (LockFacts.unhandled_load_error_escapes unreadable_lock
           "package-lock.json" (OSError 13) empty_disk); reflexivity.
Defined.

(** X13, at a concrete world. *)
Lemma nested_key_names_innermost_package_witness :
  Download.parse_item []
    ("node_modules/webpack/" +:+ "node_modules/" +:+ "@scope/pkg",
     {| Download.resolved := Some url;
        Download.integrity := Some ("sha512-" +:+ archive_b64);
        Download.version := Some "1.2.3" |}) empty_disk
  = (Ok ([] ++ [ {| Download.pd_name := "@scope/pkg";
                    Download.pd_version := "1.2.3";
                    Download.pd_resolved := url;
                    Download.pd_sha512_b64 := archive_b64 |} ])%list,
     empty_disk).
Proof.
  apply (LockFacts.nested_key_names_innermost_package [] empty_disk url
           "1.2.3" archive_b64); reflexivity.
Defined.

(** X14, at a concrete world. *)
Lemma unmarked_key_loses_twelve_characters_witness :
  Download.parse_item []
    ("packages/my-workspace",
     {| Download.resolved := Some url;
        Download.integrity := Some ("sha512-" +:+ archive_b64);
        Download.version := Some "1.2.3" |}) empty_disk
  = if PyStr.truthy (PyStr.drop 12 "packages/my-workspace")
    then (Ok ([] ++ [ {| Download.pd_name :=
                           PyStr.drop 12 "packages/my-workspace";
                         Download.pd_version := "1.2.3";
                         Download.pd_resolved := url;
                         Download.pd_sha512_b64 := archive_b64 |} ])%list,
          empty_disk)
    else (Ok [],
          {| Download.files := Download.files empty_disk;
             Download.log :=
               (Download.log empty_disk
                ++ [Download.LogSkipInvalid "packages/my-workspace"])%list |}).
Proof.
  apply (LockFacts.unmarked_key_loses_twelve_characters [] empty_disk url
           "1.2.3" archive_b64); reflexivity.
Defined.

(** X15, at a concrete world. *)
Lemma sha512_token_is_selected_witness :
  Download.parse_item []
    ("node_modules/left-pad",
     {| Download.resolved := Some url;
        Download.integrity :=
          Some (PyStr.join " "
                  ([sha1_token] ++ ("sha512-" +:+ archive_b64) :: []));
        Download.version := Some "1.3.0" |}) empty_disk
  = (Ok ([] ++ [ {| Download.pd_name :=
                      Fetcher.derived_name "node_modules/left-pad";
                    Download.pd_version := "1.3.0";
                    Download.pd_resolved := url;
                    Download.pd_sha512_b64 := archive_b64 |} ])%list,
     empty_disk).
Proof.
  apply (LockFacts.sha512_token_is_selected [] empty_disk url "1.3.0"
           archive_b64); try reflexivity.
  - repeat constructor.
  - repeat constructor.
Defined.

(** X16, at a concrete world. *)
Lemma entry_without_sha512_token_is_skipped_witness :
  Download.parse_item []
    ("node_modules/left-pad",
     {| Download.resolved := Some url;
        Download.integrity := Some sha1_token;
        Download.version := Some "1.3.0" |}) empty_disk
  = (Ok [],
     {| Download.files := Download.files empty_disk;
        Download.log :=
          (Download.log empty_disk
           ++ [Download.LogNoSha512
                 (Fetcher.derived_name "node_modules/left-pad") "1.3.0"])%list |}).
Proof.
  apply (LockFacts.entry_without_sha512_token_is_skipped [] empty_disk url
           "1.3.0"); try reflexivity.
  repeat constructor.
Defined.

(** X21, at a concrete world. *)
Lemma fruitless_searches_lead_to_upload_witness :
  Upload.result_of (Upload.process_package uploader unreachable entry) = Ok tt /\
  Reconciler.finds
    (Upload.calls_of (Upload.process_package uploader unreachable entry))
  = Upload.check_repos uploader /\
  Upload.mutations
    (Upload.calls_of (Upload.process_package uploader unreachable entry))
  = [Upload.CallUpload entry] /\
  Upload.write_requests
    (Upload.calls_of (Upload.process_package uploader unreachable entry))
  = Upload.upload_requests uploader unreachable entry.
Proof.
  apply (ReconcilerFacts.fruitless_searches_lead_to_upload uploader
           unreachable entry).
  intros repo _. reflexivity.
Defined.

(** X17, at a concrete world. *)
Lemma error_status_means_absent_witness :
  (Upload.find_result uploader (answering 404 "Not Found") "npm-hosted" ""
     "left-pad" "1.3.0" = Ok None /\
   Upload.find_log uploader (answering 404 "Not Found") "npm-hosted" ""
     "left-pad" "1.3.0"
   = if (404 =? 404)%Z then []
     else [Upload.LogFindError "npm-hosted" (HTTPError 404 "Not Found")]) /\
  (Upload.find_result uploader (answering 502 "Bad Gateway") "npm-hosted" ""
     "left-pad" "1.3.0" = Ok None /\
   Upload.find_log uploader (answering 502 "Bad Gateway") "npm-hosted" ""
     "left-pad" "1.3.0"
   = if (502 =? 404)%Z then []
     else [Upload.LogFindError "npm-hosted" (HTTPError 502 "Bad Gateway")]).
Proof.
  split.
  - apply (ReconcilerFacts.error_status_means_absent uploader
             (answering 404 "Not Found") "npm-hosted" "" "left-pad" "1.3.0"
             404 "Not Found" None); reflexivity.
  - apply (ReconcilerFacts.error_status_means_absent uploader
             (answering 502 "Bad Gateway") "npm-hosted" "" "left-pad" "1.3.0"
             502 "Bad Gateway" None); reflexivity.
Defined.

(** X18, at a concrete world. *)
Lemma scoped_group_is_queried_without_at_sign_witness :
  Upload.calls_of
    (Upload._find_component uploader unreachable "npm-hosted"
       (String "@" "scope") "pkg" "1.2.3")
  = [Upload.CallFind "npm-hosted" (String "@" "scope") "pkg" "1.2.3";
     Upload.HttpGet (Upload.search_components_url uploader)
       {| Upload.p_repository := "npm-hosted";
          Upload.p_name := "pkg";
          Upload.p_version := "1.2.3";
          Upload.p_group := "scope" |}].
Proof.
  apply (ReconcilerFacts.scoped_group_is_queried_without_at_sign uploader
           unreachable "npm-hosted" "scope" "pkg" "1.2.3").
  reflexivity.
Defined.

(** X19, at a concrete world. *)
Lemma first_archive_asset_decides_witness :
  Upload._get_remote_sha512_hex two_assets
  = match Upload.asset_checksum (tgz_asset archive_hex) with
    | Some sums => Upload.checksum_sha512 sums
    | None => None
    end.
Proof.
  apply (ReconcilerFacts.first_archive_asset_decides two_assets
           [readme_asset] []).
  - reflexivity.
  - repeat constructor.
  - reflexivity.
Defined.

(** X20, at a concrete world. *)
Lemma search_stops_at_first_hit_witness :
  Reconciler.finds
    (Upload.calls_of
       (Upload.process_package uploader3 (proxy_only [fresh_proxy]) entry))
  = (["npm-hosted"] ++ ["npm-proxy"])%list.
Proof.
  apply (ReconcilerFacts.search_stops_at_first_hit uploader3
           (proxy_only [fresh_proxy]) entry ["npm-hosted"] ["npm-group"]
           "npm-proxy" fresh_proxy).
  - reflexivity.
  - intros r [<-|[]]. vm_compute. reflexivity.
  - vm_compute. reflexivity.
Defined.

(** X22, at a concrete world. *)
Lemma stale_copy_deleted_though_file_is_missing_witness :
  Upload.write_requests
    (Upload.calls_of
       (Upload.process_package uploader (file_gone [stale_hosted]) entry))
  = [Upload.HttpDelete (Upload.delete_url uploader
                          (Upload.comp_id stale_hosted))] /\
  In (Upload.LogFileMissing (Meta.local_path entry))
    (Upload.log_of
       (Upload.process_package uploader (file_gone [stale_hosted]) entry)).
Proof.
  apply (ReconcilerFacts.stale_copy_deleted_though_file_is_missing uploader
           (file_gone [stale_hosted]) entry stale_hosted).
  - vm_compute. reflexivity.
  - vm_compute. discriminate.
  - reflexivity.
  - reflexivity.
Defined.

(** X23, at a concrete world. *)
Lemma component_without_archive_is_never_skipped_witness :
  Upload.mutations
    (Upload.calls_of
       (Upload.process_package uploader (hosted_only [bare_hosted]) entry))
  = ((if String.eqb (Upload.comp_repository bare_hosted)
                    (Upload.upload_repo uploader)
      then [Upload.CallDelete (Upload.comp_id bare_hosted)] else [])
     ++ [Upload.CallUpload entry])%list.
Proof.
  apply (ReconcilerFacts.component_without_archive_is_never_skipped uploader
           (hosted_only [bare_hosted]) entry bare_hosted).
  - vm_compute. reflexivity.
  - exact I.
Defined.

(** X24, at a concrete world. *)
Lemma deletes_only_in_upload_repository_witness :
  exists c,
    Upload.first_found uploader (hosted_only [stale_hosted])
      (Upload.check_repos uploader) (Meta.group entry) (Meta.name entry)
      (Meta.version entry) = Some c /\
    Upload._get_remote_sha512_hex c <> Some (Meta.sha512_hex entry) /\
    Upload.comp_repository c = Upload.upload_repo uploader /\
    Upload.delete_url uploader (Upload.comp_id stale_hosted)
    = Upload.delete_url uploader (Upload.comp_id c).
Proof.
  apply (ReconcilerFacts.deletes_only_in_upload_repository uploader
           (hosted_only [stale_hosted]) entry).
  vm_compute. do 3 right. left. reflexivity.
Defined.

(** X25, at a concrete world. *)
Lemma uploads_only_to_upload_url_witness :
  Upload.upload_url uploader = Upload.upload_url uploader /\
  Meta.local_path entry = Meta.local_path entry /\
  Upload.os_path_exists (hosted_only [stale_hosted]) (Meta.local_path entry)
  = true.
Proof.
  apply (ReconcilerFacts.uploads_only_to_upload_url uploader
           (hosted_only [stale_hosted]) entry).
  vm_compute. do 5 right. left. reflexivity.
Defined.

(** X26, at a concrete world. *)
Lemma failed_upload_is_printed_witness :
  Upload.result_of (Upload.process_package uploader refusing_upload entry)
  = Ok tt /\
  In (Upload.LogUploadFailed (Meta.name entry) (HTTPError 403 "Forbidden"))
    (Upload.log_of (Upload.process_package uploader refusing_upload entry)) /\
  (forall status text,
     HTTPError 403 "Forbidden" = HTTPError status text ->
     In (Upload.LogUploadResponse text)
       (Upload.log_of (Upload.process_package uploader refusing_upload entry))).
Proof.
  apply (ReconcilerFacts.failed_upload_is_printed uploader refusing_upload
           entry (HTTPError 403 "Forbidden")).
  - vm_compute. discriminate.
  - reflexivity.
  - reflexivity.
Defined.


(** X5, at a concrete world. *)
Lemma interrupted_download_fails_the_next_fetch_too_witness :
  exists s1 s2,
    Download.download_package urljoin
      (registry [list_byte_of_string "a"] (Some RequestException))
      scoped cfg empty_disk = (Ok None, s1) /\
    Download.download_package urljoin served scoped cfg s1 = (Ok None, s2) /\
    Download.files s2 = Download.files empty_disk.
Proof.
  apply (FetcherFacts.interrupted_download_fails_the_next_fetch_too urljoin
           (registry [list_byte_of_string "a"] (Some RequestException))
           scoped cfg served empty_disk 200 "" [list_byte_of_string "a"]
           RequestException).
  - reflexivity.
  - reflexivity.
  - vm_compute. reflexivity.
  - reflexivity.
  - reflexivity.
  - vm_compute. discriminate.
Defined.
End MoreChecks.
